(** * LexNum: conversion of amounts to Mexican monetary text

    A shallow embedding of [scripts/converter.py] ([clean_num],
    [numero_a_texto]) and [scripts/excel_processor.py] ([normalize],
    [find_num_column]), together with the pieces of the Python runtime these
    functions call: [str] objects as sequences of code points, [str.strip],
    [str.replace], [str.upper] and [str.lower], [float()] on strings, [str()]
    of an [int] and of a [float], binary64 arithmetic, [int()] and [round()]
    on floats, the format specification [02d], and the normalization form
    NFKD.  The Unicode tables and [num2words] are interfaces; a part of the
    Unicode database and a model of the Spanish cardinals instantiate them
    where a statement is about a concrete input. *)

From Stdlib Require Import String Ascii.
From Stdlib Require Import ZArith List Bool Lia Permutation.
From Stdlib Require Import Floats.SpecFloat.
Import ListNotations.
Local Open Scope Z_scope.

(** ** Python strings

    A Python [str] is a sequence of Unicode code points. *)

Definition codepoint := Z.
Definition pystr := list codepoint.

(** Literals are written as Rocq strings, which hold the UTF-8 bytes of the
    text; [utf8] decodes them into code points. *)
Fixpoint utf8_decode (bs : list Z) : pystr :=
  match bs with
  | [] => []
  | b :: r =>
      if b <? 128 then b :: utf8_decode r
      else if b <? 224 then
        match r with
        | b1 :: r1 => ((b - 192) * 64 + (b1 - 128)) :: utf8_decode r1
        | [] => [65533]
        end
      else if b <? 240 then
        match r with
        | b1 :: b2 :: r2 =>
            ((b - 224) * 4096 + (b1 - 128) * 64 + (b2 - 128)) :: utf8_decode r2
        | _ => [65533]
        end
      else
        match r with
        | b1 :: b2 :: b3 :: r3 =>
            ((b - 240) * 262144 + (b1 - 128) * 4096 + (b2 - 128) * 64 + (b3 - 128))
              :: utf8_decode r3
        | _ => [65533]
        end
  end.

Definition utf8 (s : string) : pystr :=
  utf8_decode (map (fun a => Z.of_N (N_of_ascii a)) (list_ascii_of_string s)).

(** [lit "text"] is the literal as code points, computed when it is read. *)
Notation "'lit' s" :=
  ltac:(let v := eval cbv in (utf8 s%string) in exact v)
  (at level 10, s at level 9, only parsing).

Definition pystr_eqb (a b : pystr) : bool :=
  if list_eq_dec Z.eq_dec a b then true else false.

(** [Py_UNICODE_ISSPACE]: the code points for which [str.isspace] holds; the
    same set is what [\s] matches in a [str] pattern. *)
Definition Py_UNICODE_ISSPACE (c : codepoint) : bool :=
  ((9 <=? c) && (c <=? 13)) || ((28 <=? c) && (c <=? 32))
  || (c =? 133) || (c =? 160) || (c =? 5760)
  || ((8192 <=? c) && (c <=? 8202))
  || (c =? 8232) || (c =? 8233) || (c =? 8239) || (c =? 8287) || (c =? 12288).

(** [str.strip()] with no argument. *)
Fixpoint lstrip (s : pystr) : pystr :=
  match s with
  | [] => []
  | c :: r => if Py_UNICODE_ISSPACE c then lstrip r else s
  end.

Definition rstrip (s : pystr) : pystr := rev (lstrip (rev s)).

Definition strip (s : pystr) : pystr := rstrip (lstrip s).

Fixpoint startswith (p s : pystr) : bool :=
  match p, s with
  | [], _ => true
  | _ :: _, [] => false
  | a :: p', b :: s' => (a =? b) && startswith p' s'
  end.

(** [str.replace(old, new)]: the occurrences of [old] are found from the
    left and do not overlap.  [skip] counts the characters of a matched
    occurrence that are still to be passed over. *)
Fixpoint replace_from (old new : pystr) (skip : nat) (s : pystr) : pystr :=
  match s with
  | [] => []
  | c :: r =>
      match skip with
      | S k => replace_from old new k r
      | O =>
          if startswith old s
          then new ++ replace_from old new (Nat.pred (length old)) r
          else c :: replace_from old new 0 r
      end
  end.

Definition replace (s old new : pystr) : pystr :=
  match old with
  | [] => new ++ flat_map (fun c => c :: new) s
  | _ :: _ => replace_from old new 0 s
  end.

(** ** Exceptions and results *)

(** What an exception reports.  [NoSePudoConvertir value cause] stands for the
    message [f"No se pudo convertir '{value}' a número: {e}"] of [clean_num]:
    the text of the original value and the message of the error it wraps. *)
Inductive detail :=
| CouldNotConvertStringToFloat (text : pystr)
| CannotConvertFloatNaNToInteger
| CannotConvertFloatInfinityToInteger
| AbsMustBeLessThan (value bound : Z)
| NoSePudoConvertir (value : pystr) (cause : detail).

Inductive exn :=
| ValueError (d : detail)
| TypeError (d : detail)
| AttributeError (d : detail)
| OverflowError (d : detail).

Inductive result (A : Type) :=
| Ok (a : A)
| Raise (e : exn).
Arguments Ok {A} a.
Arguments Raise {A} e.

Definition bind {A B : Type} (r : result A) (k : A -> result B) : result B :=
  match r with
  | Ok a => k a
  | Raise e => Raise e
  end.

Notation "x <- c ;; k" := (bind c (fun x => k))
  (at level 61, c at next level, right associativity).

(** ** Floats

    A Python [float] is an IEEE 754 binary64 number. *)

Definition prec : Z := 53.
Definition emax : Z := 1024.
Definition float := spec_float.

Definition fsub : float -> float -> float := SFsub prec emax.
Definition fmul : float -> float -> float := SFmul prec emax.

(** The float nearest to the integer [n] (ties to even): the conversion
    Python applies to an [int] operand of a float operation.  (Python raises
    [OverflowError] for an [int] beyond the range of floats; the integer part
    of a float, the only [int] converted here, is never one.) *)
Definition float_of_Z (n : Z) : float := binary_normalize prec emax n 0 false.

(** The float nearest to [m * 10 ^ e], with the sign [neg], for [0 <= m]:
    the value [float()] gives a decimal literal. *)
Definition float_of_decimal (neg : bool) (m e : Z) : float :=
  match m with
  | Zpos p =>
      if 0 <=? e
      then binary_round prec emax neg (Z.to_pos (m * 10 ^ e)) 0
      else
        let '(q, e', l) := SFdiv_core_binary prec emax m 0 (10 ^ (- e)) 0 in
        binary_round_aux prec emax neg q e' l
  | _ => S754_zero neg
  end.

(** [int(x)] for a float [x]: truncation toward zero. *)
Definition float_trunc (x : float) : result Z :=
  match x with
  | S754_zero _ => Ok 0
  | S754_finite s m e =>
      let a := if 0 <=? e then Z.pos m * 2 ^ e else Z.pos m / 2 ^ (- e) in
      Ok (if s then - a else a)
  | S754_infinity _ => Raise (OverflowError CannotConvertFloatInfinityToInteger)
  | S754_nan => Raise (ValueError CannotConvertFloatNaNToInteger)
  end.

(** [round(x)] for a float [x] and no [ndigits]: the nearest integer, a tie
    going to the even one. *)
Definition float_round (x : float) : result Z :=
  match x with
  | S754_zero _ => Ok 0
  | S754_finite s m e =>
      let a :=
        if 0 <=? e then Z.pos m * 2 ^ e
        else
          let d := 2 ^ (- e) in
          let q := Z.pos m / d in
          let r := Z.pos m mod d in
          match 2 * r ?= d with
          | Lt => q
          | Gt => q + 1
          | Eq => if Z.even q then q else q + 1
          end in
      Ok (if s then - a else a)
  | S754_infinity _ => Raise (OverflowError CannotConvertFloatInfinityToInteger)
  | S754_nan => Raise (ValueError CannotConvertFloatNaNToInteger)
  end.

(** The floats Python reads the literals [1523.45] and [1234.56] as *)
Definition float_1523_45 : float := S754_finite false 6700203957341389 (-42).
Definition float_1234_56 : float := S754_finite false 5429652300748554 (-42).

(** ** The Unicode character database

    The tables of the Unicode Character Database that Python reads through
    [unicodedata] and the [str] methods.  They are data shipped with the
    interpreter, so the model takes them as an interface; each Python-level
    function below fixes what the tables say on ASCII, where the answer does
    not depend on the version of the database. *)
Class UnicodeData := {
  (** [Py_UNICODE_TODECIMAL]: the value of a decimal digit *)
  unicode_decimal : codepoint -> option Z;
  (** [unicodedata.combining]: the canonical combining class *)
  unicode_combining : codepoint -> Z;
  (** the full canonical decomposition of one code point ([[c]] when none) *)
  unicode_canonical : codepoint -> list codepoint;
  (** the full compatibility decomposition of one code point *)
  unicode_compat : codepoint -> list codepoint;
  (** [_PyUnicode_ToLowerFull] and [_PyUnicode_ToUpperFull] *)
  unicode_lower : codepoint -> list codepoint;
  unicode_upper : codepoint -> list codepoint;
  (** [_PyUnicode_IsCased] and [_PyUnicode_IsCaseIgnorable] *)
  unicode_cased : codepoint -> bool;
  unicode_case_ignorable : codepoint -> bool
}.

Definition is_ascii (c : codepoint) : bool := (0 <=? c) && (c <? 128).
Definition is_digit (c : codepoint) : bool := (48 <=? c) && (c <=? 57).
Definition is_ascii_upper (c : codepoint) : bool := (65 <=? c) && (c <=? 90).
Definition is_ascii_lower (c : codepoint) : bool := (97 <=? c) && (c <=? 122).
Definition ascii_tolower (c : codepoint) : codepoint :=
  if is_ascii_upper c then c + 32 else c.
Definition ascii_toupper (c : codepoint) : codepoint :=
  if is_ascii_lower c then c - 32 else c.

(** ** [float()] on a string *)

Section FloatFromString.
Context {U : UnicodeData}.

(** [Py_UNICODE_TODECIMAL]: the value of a decimal digit, from 0 to 9 *)
Definition Py_UNICODE_TODECIMAL (c : codepoint) : option Z :=
  if is_ascii c then (if is_digit c then Some (c - 48) else None)
  else
    match unicode_decimal c with
    | Some d => if (0 <=? d) && (d <=? 9) then Some d else None
    | None => None
    end.

(** [_PyUnicode_TransformDecimalAndSpaceToASCII]: white space becomes a
    space, a decimal digit its ASCII digit; at any other non-ASCII character
    the text is cut and ends in a question mark. *)
Fixpoint transform_decimal_and_space (s : pystr) : pystr :=
  match s with
  | [] => []
  | c :: r =>
      if c <? 127 then c :: transform_decimal_and_space r
      else if Py_UNICODE_ISSPACE c then 32 :: transform_decimal_and_space r
      else
        match Py_UNICODE_TODECIMAL c with
        | Some d => (48 + d) :: transform_decimal_and_space r
        | None => [63]
        end
  end.

Definition to_ascii_number (s : pystr) : pystr :=
  if forallb is_ascii s then s else transform_decimal_and_space s.

(** [Py_ISSPACE], the white space of the C locale *)
Definition Py_ISSPACE (c : codepoint) : bool :=
  ((9 <=? c) && (c <=? 13)) || (c =? 32).

Fixpoint skip_spaces (s : pystr) : pystr :=
  match s with
  | [] => []
  | c :: r => if Py_ISSPACE c then skip_spaces r else s
  end.

(** The loop [while (s < last - 1 && Py_ISSPACE(last[-1])) last--], on the
    reversed text: the first character of the text is never dropped. *)
Fixpoint skip_spaces_but_last (s : pystr) : pystr :=
  match s with
  | c :: ((_ :: _) as r) => if Py_ISSPACE c then skip_spaces_but_last r else s
  | _ => s
  end.

Definition strip_for_float (s : pystr) : pystr :=
  rev (skip_spaces_but_last (rev (skip_spaces s))).

(** [_Py_string_to_number_with_underscores]: an underscore is accepted only
    between two digits, and is dropped. *)
Fixpoint drop_underscores (prev : codepoint) (s : pystr) : option pystr :=
  match s with
  | [] => if prev =? 95 then None else Some []
  | c :: r =>
      if c =? 95 then
        if is_digit prev then drop_underscores c r else None
      else if (prev =? 95) && negb (is_digit c) then None
      else option_map (cons c) (drop_underscores c r)
  end.

Definition without_underscores (s : pystr) : option pystr :=
  if existsb (Z.eqb 95) s then drop_underscores 0 s else Some s.

(** A run of digits: the number read so far, how many digits were read,
    and the rest of the text. *)
Fixpoint span_digits (s : pystr) (acc count : Z) : Z * Z * pystr :=
  match s with
  | c :: r =>
      if is_digit c then span_digits r (10 * acc + (c - 48)) (count + 1)
      else (acc, count, s)
  | [] => (acc, count, [])
  end.

Definition split_sign (s : pystr) : bool * pystr :=
  match s with
  | c :: r =>
      if c =? 45 then (true, r) else if c =? 43 then (false, r) else (false, s)
  | [] => (false, [])
  end.

(** The exponent part of a literal: nothing, or [e] or [E], an optional sign
    and at least one digit, up to the end of the text. *)
Definition parse_exponent (s : pystr) : option Z :=
  match s with
  | [] => Some 0
  | c :: r =>
      if (c =? 101) || (c =? 69) then
        let '(neg, r1) := split_sign r in
        match span_digits r1 0 0 with
        | (x, n, []) => if 0 <? n then Some (if neg then - x else x) else None
        | _ => None
        end
      else None
  end.

(** [_Py_dg_strtod] over the whole text: digits with at most one point and at
    least one digit, then the exponent part. *)
Definition parse_decimal (s : pystr) : option float :=
  let '(neg, r) := split_sign s in
  let '(i, ni, r1) := span_digits r 0 0 in
  let '(m, nf, r2) :=
    match r1 with
    | 46 :: r1' => span_digits r1' i 0
    | _ => (i, 0, r1)
    end in
  if 0 <? ni + nf then
    match parse_exponent r2 with
    | Some x => Some (float_of_decimal neg m (x - nf))
    | None => None
    end
  else None.

(** [_Py_parse_inf_or_nan]: [inf], [infinity] or [nan] in any case, after an
    optional sign. *)
Definition parse_inf_or_nan (s : pystr) : option float :=
  let '(neg, r) := split_sign s in
  let low := map ascii_tolower r in
  if pystr_eqb low [105; 110; 102] then Some (S754_infinity neg)
  else if pystr_eqb low [105; 110; 102; 105; 110; 105; 116; 121]
  then Some (S754_infinity neg)
  else if pystr_eqb low [110; 97; 110] then Some S754_nan
  else None.

Definition parse_float_literal (s : pystr) : option float :=
  match parse_decimal s with
  | Some x => Some x
  | None => parse_inf_or_nan s
  end.

(** [float(s)] for a [str] [s] *)
Definition float_of_str (s : pystr) : result float :=
  let fail := Raise (ValueError (CouldNotConvertStringToFloat s)) in
  match without_underscores (strip_for_float (to_ascii_number s)) with
  | Some t =>
      match parse_float_literal t with
      | Some x => Ok x
      | None => fail
      end
  | None => fail
  end.

End FloatFromString.

(** ** [str()] of numbers *)

(** The decimal digits of [n], most significant first, for [0 <= n].  The
    fuel bounds the number of digits. *)
Fixpoint decimal_digits (fuel : nat) (n : Z) (acc : pystr) : pystr :=
  match fuel with
  | O => acc
  | S k =>
      let acc' := (48 + n mod 10) :: acc in
      if n <? 10 then acc' else decimal_digits k (n / 10) acc'
  end.

Definition str_of_nonneg (n : Z) : pystr :=
  decimal_digits (S (Z.to_nat (Z.log2 n))) n [].

(** [str(n)] for an [int] [n].  (The interpreter's limit on the number of
    digits of an [int] turned into text, 4300 by default, is left out.) *)
Definition str_of_Z (n : Z) : pystr :=
  if n <? 0 then 45 :: str_of_nonneg (- n) else str_of_nonneg n.

(** [format(n, "02d")]: at least two characters, the sign included, padded
    with zeros after the sign. *)
Definition format_02d (n : Z) : pystr :=
  if (0 <=? n) && (n <? 10) then 48 :: str_of_nonneg n else str_of_Z n.

(** [repr] of a float is the shortest decimal that [float()] reads back as
    the same float, and of the decimals of that length the nearest one.

    The positive number [N / D] is [m * 2 ^ e]. *)
Definition ratio_of (m : positive) (e : Z) : Z * Z :=
  if 0 <=? e then (Z.pos m * 2 ^ e, 1) else (Z.pos m, 2 ^ (- e)).

(** [10 ^ E <= N / D] *)
Definition pow10_le (N D E : Z) : bool :=
  if 0 <=? E then 10 ^ E * D <=? N else D <=? N * 10 ^ (- E).

(** The exponent [E] with [10 ^ E <= N / D < 10 ^ (E + 1)] *)
Definition decimal_exponent (N D : Z) : Z :=
  let est := (Z.log2 N - Z.log2 D) * 30103 / 100000 in
  if pow10_le N D (est + 1) then est + 1
  else if pow10_le N D est then est
  else est - 1.

(** [N / D] in units of [10 ^ p]: the integer below it, and how twice the
    remainder compares with one unit. *)
Definition in_units (N D p : Z) : Z * comparison :=
  let '(n, d) := if 0 <=? p then (N, D * 10 ^ p) else (N * 10 ^ (- p), D) in
  (n / d, 2 * (n mod d) ?= d).

Definition float_eqb (x y : float) : bool :=
  match x, y with
  | S754_finite s m e, S754_finite s' m' e' =>
      Bool.eqb s s' && Pos.eqb m m' && Z.eqb e e'
  | S754_zero s, S754_zero s' => Bool.eqb s s'
  | S754_infinity s, S754_infinity s' => Bool.eqb s s'
  | S754_nan, S754_nan => true
  | _, _ => false
  end.

(** The shortest decimal [c * 10 ^ p] that reads back as [m * 2 ^ e], tried
    with [k], [k + 1], ... significant digits.  With 17 digits every float
    reads back, so the search ends there at the latest.  Of two decimals of
    that length that read back, the nearer one is taken, and on a tie the
    one whose last digit is even. *)
Fixpoint shortest_decimal (fuel : nat) (k : Z) (m : positive) (e E : Z) : Z * Z :=
  let '(N, D) := ratio_of m e in
  let p := E - k + 1 in
  let '(lo, half) := in_units N D p in
  let reads c := float_eqb (float_of_decimal false c p) (S754_finite false m e) in
  let nearest :=
    match half with
    | Gt => lo + 1
    | Eq => if Z.even lo then lo else lo + 1
    | Lt => lo
    end in
  match fuel with
  | O => (nearest, p)
  | S fuel' =>
      match reads lo, reads (lo + 1) with
      | true, true => (nearest, p)
      | true, false => (lo, p)
      | false, true => (lo + 1, p)
      | false, false => shortest_decimal fuel' (k + 1) m e E
      end
  end.

(** Trailing zeros of the digits go into the exponent. *)
Fixpoint drop_trailing_zeros (fuel : nat) (c p : Z) : Z * Z :=
  match fuel with
  | O => (c, p)
  | S k =>
      if (c mod 10 =? 0) && negb (c =? 0)
      then drop_trailing_zeros k (c / 10) (p + 1)
      else (c, p)
  end.

Definition zeros (n : Z) : pystr := repeat 48 (Z.to_nat n).

(** The exponent of the scientific notation: a sign and at least two
    digits. *)
Definition repr_exponent (x : Z) : pystr :=
  let a := Z.abs x in
  (if x <? 0 then 45 else 43)
    :: (if a <? 10 then 48 :: str_of_nonneg a else str_of_nonneg a).

(** The digits [ds] with the decimal point after [decpt] of them, in the
    notation [repr] chooses: scientific below [1e-4] and from [1e16] on. *)
Definition repr_digits (ds : pystr) (decpt : Z) : pystr :=
  let nd := Z.of_nat (length ds) in
  if (decpt <=? -4) || (16 <? decpt) then
    match ds with
    | [] => []
    | d :: r =>
        (d :: match r with [] => [] | _ => 46 :: r end)
          ++ 101 :: repr_exponent (decpt - 1)
    end
  else if decpt <=? 0 then [48; 46] ++ zeros (- decpt) ++ ds
  else if nd <=? decpt then ds ++ zeros (decpt - nd) ++ [46; 48]
  else firstn (Z.to_nat decpt) ds ++ 46 :: skipn (Z.to_nat decpt) ds.

(** [repr(x)], which is also [str(x)], for a float [x] *)
Definition float_repr (x : float) : pystr :=
  match x with
  | S754_nan => [110; 97; 110]
  | S754_infinity s => (if s then [45] else []) ++ [105; 110; 102]
  | S754_zero s => (if s then [45] else []) ++ [48; 46; 48]
  | S754_finite s m e =>
      let '(N, D) := ratio_of m e in
      let '(c0, p0) := shortest_decimal 16 1 m e (decimal_exponent N D) in
      let '(c, p) := drop_trailing_zeros 17 c0 p0 in
      let ds := str_of_nonneg c in
      (if s then [45] else []) ++ repr_digits ds (p + Z.of_nat (length ds))
  end.

(** ** Values

    The scalars a caller passes: [None], a [str], an [int] or a [float]. *)
Inductive PyValue :=
| PyNone
| PyStr (s : pystr)
| PyInt (n : Z)
| PyFloat (x : float).

(** [str(value)] *)
Definition str (value : PyValue) : pystr :=
  match value with
  | PyNone => [78; 111; 110; 101]
  | PyStr s => s
  | PyInt n => str_of_Z n
  | PyFloat x => float_repr x
  end.

(** The limit the interpreter puts on the digits of an [int] turned into
    text ([sys.int_info.default_max_str_digits]): [str()] of an [int] of more
    digits raises a [ValueError].  [str_of_Z] leaves the limit out, so what is
    stated of the exceptions of a function that calls [str()] is stated for
    the values within the limit. *)
Definition INT_MAX_STR_DIGITS : Z := 4300.

Definition within_str_limit (value : PyValue) : Prop :=
  match value with
  | PyInt n => Z.abs n < 10 ^ INT_MAX_STR_DIGITS
  | _ => True
  end.

(** ** Case mappings and normalization of [str] *)

Section UnicodeStrings.
Context {U : UnicodeData}.

Definition toupper_full (c : codepoint) : list codepoint :=
  if is_ascii c then [ascii_toupper c] else unicode_upper c.

Definition tolower_full (c : codepoint) : list codepoint :=
  if is_ascii c then [ascii_tolower c] else unicode_lower c.

(** [str.upper()] *)
Definition upper (s : pystr) : pystr := flat_map toupper_full s.

Definition is_cased (c : codepoint) : bool :=
  if is_ascii c then is_ascii_upper c || is_ascii_lower c else unicode_cased c.

(** On ASCII the case-ignorable characters are the apostrophe, the full
    stop, the colon, the circumflex and the grave accent. *)
Definition is_case_ignorable (c : codepoint) : bool :=
  if is_ascii c
  then (c =? 39) || (c =? 46) || (c =? 58) || (c =? 94) || (c =? 96)
  else unicode_case_ignorable c.

(** The first character of [s] that is not case-ignorable, if any *)
Fixpoint first_not_ignorable (s : pystr) : option codepoint :=
  match s with
  | [] => None
  | c :: r => if is_case_ignorable c then first_not_ignorable r else Some c
  end.

(** [handle_capital_sigma]: a capital sigma (U+03A3) becomes the final
    sigma (U+03C2) when a cased letter stands before it and none after it,
    case-ignorable characters aside, and the small sigma (U+03C3) otherwise.
    [before] holds the characters before the sigma, the nearest first. *)
Definition handle_capital_sigma (before after : pystr) : codepoint :=
  let final_sigma :=
    match first_not_ignorable before with
    | Some c =>
        is_cased c
        && match first_not_ignorable after with
           | Some d => negb (is_cased d)
           | None => true
           end
    | None => false
    end in
  if final_sigma then 962 else 963.

Fixpoint lower_from (before s : pystr) : pystr :=
  match s with
  | [] => []
  | c :: r =>
      (if c =? 931 then [handle_capital_sigma before r] else tolower_full c)
        ++ lower_from (c :: before) r
  end.

(** [str.lower()] *)
Definition lower (s : pystr) : pystr := lower_from [] s.

Definition combining (c : codepoint) : Z :=
  if is_ascii c then 0 else unicode_combining c.

Definition compat_decomposition (c : codepoint) : list codepoint :=
  if is_ascii c then [c] else unicode_compat c.

Definition canonical_decomposition (c : codepoint) : list codepoint :=
  if is_ascii c then [c] else unicode_canonical c.

(** The canonical ordering step of the normalization forms: a character of
    non-zero combining class moves left past the characters of a greater
    class that stand just before it.  [before] is the part already in order,
    its last character first. *)
Fixpoint insert_mark (c : codepoint) (before : pystr) : pystr :=
  match before with
  | [] => [c]
  | d :: r =>
      if (combining d =? 0) || (combining d <=? combining c)
      then c :: before
      else d :: insert_mark c r
  end.

Definition canonical_order (s : pystr) : pystr :=
  rev (fold_left
         (fun before c =>
            if combining c =? 0 then c :: before else insert_mark c before)
         s []).

(** [unicodedata.normalize("NFKD", s)] and [unicodedata.normalize("NFD", s)] *)
Definition nfkd (s : pystr) : pystr :=
  canonical_order (flat_map compat_decomposition s).

Definition nfd (s : pystr) : pystr :=
  canonical_order (flat_map canonical_decomposition s).

End UnicodeStrings.

(** ** [num2words]

    The cardinal words come from the [num2words] package, which is not part
    of the repository: [num2words n] is the result of
    [num2words(n, lang="es")] for an [int] [n]. *)
Class Num2Words := {
  num2words : Z -> result pystr
}.

(** ** [scripts/converter.py] *)

Definition CURRENCY_SYMBOLS : list pystr :=
  [lit "$"; lit "MXN"; lit "M.N."; lit "MN"; lit ","].
Definition DECIMAL_PRECISION : Z := 100.
Definition CURRENCY_SUFFIX : pystr := lit "M.N.".

(** [value in (None, "", " ")] *)
Definition is_blank (value : PyValue) : bool :=
  match value with
  | PyNone => true
  | PyStr [] => true
  | PyStr [32] => true
  | _ => false
  end.

(** The loop [for symbol in symbols: value_str = value_str.replace(symbol, "")] *)
Definition strip_symbols (symbols : list pystr) (value_str : pystr) : pystr :=
  fold_left (fun s symbol => replace s symbol []) symbols value_str.

(** The text [clean_num] hands to [float()].  [clean_num] reads the module
    constant [CURRENCY_SYMBOLS]; the tuple is an argument here, so that the
    function can also be read with the symbols in another order. *)
Definition cleaned_with (symbols : list pystr) (value : PyValue) : pystr :=
  strip (strip_symbols symbols (strip (str value))).

Definition cleaned : PyValue -> pystr := cleaned_with CURRENCY_SYMBOLS.

Section Converter.
Context {U : UnicodeData} {N : Num2Words}.

Definition clean_num_with (symbols : list pystr) (value : PyValue)
  : result (option float) :=
  if is_blank value then Ok None
  else
    let value_str := cleaned_with symbols value in
    match value_str with
    | [] => Ok None
    | _ :: _ =>
        match float_of_str value_str with
        | Ok x => Ok (Some x)
        | Raise (ValueError e) =>
            Raise (ValueError (NoSePudoConvertir (str value) e))
        | Raise e => Raise e
        end
    end.

Definition clean_num : PyValue -> result (option float) :=
  clean_num_with CURRENCY_SYMBOLS.

(** [round((numero - parte_entera) * DECIMAL_PRECISION)] *)
Definition parte_decimal_de (numero : float) (parte_entera : Z) : result Z :=
  float_round
    (fmul (fsub numero (float_of_Z parte_entera)) (float_of_Z DECIMAL_PRECISION)).

(** The three replacements applied to the upper-cased cardinal text *)
Definition uno_a_un (texto_numero : pystr) : pystr :=
  replace
    (replace
       (replace texto_numero (lit " UNO ") (lit " UN "))
       (lit "UNO ") (lit "UN "))
    (lit " UNO") (lit " UN").

(** [f"{parte_decimal:02d}/100 {CURRENCY_SUFFIX}"] *)
Definition sufijo_centavos_de (parte_decimal : Z) : pystr :=
  format_02d parte_decimal ++ (lit "/100 ") ++ CURRENCY_SUFFIX.

(** The body of the [try] block of [numero_a_texto] *)
Definition numero_a_texto_body (valor : PyValue) : result pystr :=
  numero <- clean_num valor ;;
  match numero with
  | None => Ok []
  | Some numero =>
      parte_entera <- float_trunc numero ;;
      parte_decimal <- parte_decimal_de numero parte_entera ;;
      palabras <- num2words parte_entera ;;
      let texto_numero := uno_a_un (upper palabras) in
      let sufijo_centavos := sufijo_centavos_de parte_decimal in
      if parte_entera =? 1
      then Ok ((lit "UN PESO ") ++ sufijo_centavos)
      else Ok (texto_numero ++ (lit " PESOS ") ++ sufijo_centavos)
  end.

(** [except (ValueError, TypeError, AttributeError): return ""] *)
Definition numero_a_texto (valor : PyValue) : result pystr :=
  match numero_a_texto_body valor with
  | Raise (ValueError _) | Raise (TypeError _) | Raise (AttributeError _) => Ok []
  | r => r
  end.

End Converter.

(** ** [scripts/excel_processor.py] *)

Definition COLUMN_ALIASES : list pystr :=
  [lit "numero"; lit "num"].

Section ExcelProcessor.
Context {U : UnicodeData}.

(** [re.sub(r"\s+", "", s)]: every run of white space is removed. *)
Definition remove_whitespace (s : pystr) : pystr :=
  filter (fun c => negb (Py_UNICODE_ISSPACE c)) s.

Definition normalize (text : PyValue) : pystr :=
  let text_str := str text in
  let normalized := nfkd text_str in
  let without_accents := filter (fun c => combining c =? 0) normalized in
  lower (remove_whitespace without_accents).

(** [find_num_column(df)], on the labels [df.columns] in their order *)
Fixpoint find_num_column (columns : list PyValue) : option PyValue :=
  match columns with
  | [] => None
  | column :: rest =>
      if existsb (pystr_eqb (normalize column)) COLUMN_ALIASES
      then Some column
      else find_num_column rest
  end.

End ExcelProcessor.

(** ** [app.py] *)

(** [df[col].apply(numero_a_texto)] of [convertir_excel]: the function is
    applied to the rows in order, and an exception it raises ends the
    loop. *)
Fixpoint apply_rows (f : PyValue -> result pystr) (rows : list PyValue)
  : result (list pystr) :=
  match rows with
  | [] => Ok []
  | row :: rest =>
      texto <- f row ;;
      textos <- apply_rows f rest ;;
      Ok (texto :: textos)
  end.

(** ** Exceptions of the application code

    The handlers of [app.py] catch every exception, whatever its class, and
    [validators.py] and [config.py] can raise classes that
    [scripts/converter.py] does not: a second result type holds them. *)
Inductive raised :=
| FromConverter (e : exn)
| IndexError
| KeyError (key : pystr)
| NoAttribute (owner attribute : pystr)
| InvalidLiteralForInt (text : pystr)
| LibraryError (code : Z).

Inductive attempt (A : Type) :=
| Done (a : A)
| Failed (e : raised).
Arguments Done {A} a.
Arguments Failed {A} e.

Definition and_then {A B : Type} (r : attempt A) (k : A -> attempt B) : attempt B :=
  match r with
  | Done a => k a
  | Failed e => Failed e
  end.

Notation "x <-- c ;; k" := (and_then c (fun x => k))
  (at level 61, c at next level, right associativity).

(** A call into [scripts/converter.py] from the application code *)
Definition from_converter {A : Type} (r : result A) : attempt A :=
  match r with
  | Ok a => Done a
  | Raise e => Failed (FromConverter e)
  end.

(** [bool(value)] for a scalar *)
Definition truthy (value : PyValue) : bool :=
  match value with
  | PyNone => false
  | PyStr s => match s with [] => false | _ :: _ => true end
  | PyInt n => negb (n =? 0)
  | PyFloat x => match x with S754_zero _ => false | _ => true end
  end.

(** ** [scripts/validators.py] *)

(** A [werkzeug.datastructures.FileStorage]: the name the client gave the
    file, which may be missing, and the bytes of the upload.  The truth
    value of the object is that of its [filename]. *)
Record FileStorage := {
  filename : option pystr;
  stream : list Z
}.

Definition file_bool (file : FileStorage) : bool :=
  match filename file with
  | Some (_ :: _) => true
  | _ => false
  end.

(** [s.rsplit(sep, 1)] for a separator of one character: the text before
    the last [sep] and the text after it, or the text alone when it holds no
    [sep]. *)
Fixpoint rsplit_once (sep : codepoint) (s : pystr) : list pystr :=
  match s with
  | [] => [[]]
  | c :: r =>
      match rsplit_once sep r with
      | [before; after] => [c :: before; after]
      | _ => if c =? sep then [[]; r] else [s]
      end
  end.

(** [parts[i]] *)
Definition getitem {A : Type} (parts : list A) (i : nat) : attempt A :=
  match nth_error parts i with
  | Some x => Done x
  | None => Failed IndexError
  end.

Section Validators.
Context {U : UnicodeData}.

Definition validate_file (file : option FileStorage) : attempt (bool * pystr) :=
  match file with
  | None => Done (false, lit "No se proporcionó ningún archivo.")
  | Some f =>
      if negb (file_bool f)
         || match filename f with Some [] => true | _ => false end
      then Done (false, lit "No se proporcionó ningún archivo.")
      else
        match filename f with
        | None | Some [] =>
            Done (false, lit "El archivo debe tener una extensión válida.")
        | Some name =>
            if negb (existsb (Z.eqb 46) name)
            then Done (false, lit "El archivo debe tener una extensión válida.")
            else
              after <-- getitem (rsplit_once 46 name) 1 ;;
              let extension := lower after in
              if negb (existsb (pystr_eqb extension) [lit "xlsx"; lit "xls"])
              then Done (false, lit "Solo se permiten archivos Excel (.xlsx, .xls).")
              else Done (true, [])
        end
  end.

End Validators.

(** ** [config.py] *)

(** The process environment, and [os.getenv(key)], [os.getenv(key, default)] *)
Definition environ := list (pystr * pystr).

Fixpoint getenv (env : environ) (key : pystr) : option pystr :=
  match env with
  | [] => None
  | (k, v) :: rest => if pystr_eqb k key then Some v else getenv rest key
  end.

Definition getenv_or (env : environ) (key default : pystr) : pystr :=
  match getenv env key with
  | Some v => v
  | None => default
  end.

(** The values of the class attributes *)
Inductive attr_value :=
| AStr (s : pystr)
| AInt (n : Z)
| ABool (b : bool)
| ANone
| APath (p : pystr)
| AFrozenset (items : list pystr).

Definition namespace := list (pystr * attr_value).

Fixpoint own_attribute (ns : namespace) (name : pystr) : option attr_value :=
  match ns with
  | [] => None
  | (k, v) :: rest => if pystr_eqb k name then Some v else own_attribute rest name
  end.

Inductive config_class :=
| Config
| DevelopmentConfig
| ProductionConfig
| TestingConfig.

(** The base class of each class; [None] stands for [object]. *)
Definition base_class (c : config_class) : option config_class :=
  match c with
  | Config => None
  | _ => Some Config
  end.

Definition class_name (c : config_class) : pystr :=
  match c with
  | Config => lit "Config"
  | DevelopmentConfig => lit "DevelopmentConfig"
  | ProductionConfig => lit "ProductionConfig"
  | TestingConfig => lit "TestingConfig"
  end.

Definition ERROR_NO_FILE : pystr := lit "No se subió archivo.".
Definition ERROR_INVALID_EXCEL : pystr :=
  lit "No se pudo leer el Excel. Use .xlsx válido.".
Definition ERROR_NO_COLUMN : pystr :=
  lit "Columna no encontrada. Use: Número, Numero, numero, NUMERO o Num.".
Definition ERROR_CONVERSION : pystr := lit "Error al convertir el número.".
Definition ERROR_NETWORK : pystr := lit "Error de conexión.".
Definition OUTPUT_FILENAME : pystr := lit "resultado_lexnum.xlsx".
Definition MAX_FILE_SIZE_MB : Z := 10.

Section ConfigModule.
Context {U : UnicodeData}.

(** The digits of an [int] literal in base 10: single underscores may stand
    between digits.  The result is the number read, how many digits it has,
    and the rest of the text. *)
Fixpoint scan_int (prev : codepoint) (s : pystr) (acc count : Z)
  : option (Z * Z * pystr) :=
  match s with
  | [] => if prev =? 95 then None else Some (acc, count, [])
  | c :: r =>
      if c =? 95 then
        if prev =? 95 then None else scan_int c r acc count
      else if is_digit c then scan_int c r (10 * acc + (c - 48)) (count + 1)
      else if prev =? 95 then None else Some (acc, count, s)
  end.

(** [int(s)] for a [str] [s]: white space, an optional sign, the digits,
    white space.  (The interpreter's limit on the number of digits, 4300 by
    default, is left out.) *)
Definition int_of_str (s : pystr) : attempt Z :=
  let fail := Failed (InvalidLiteralForInt s) in
  let '(neg, r) := split_sign (skip_spaces (to_ascii_number s)) in
  match r with
  | 95 :: _ => fail
  | _ =>
      match scan_int 0 r 0 0 with
      | Some (n, count, rest) =>
          if (0 <? count) && forallb Py_ISSPACE rest
          then Done (if neg then - n else n)
          else fail
      | None => fail
      end
  end.

(** The body of [class Config], run when the module is imported.
    [base_dir] is [Path(__file__).resolve().parent]. *)
Definition Config_body (base_dir : pystr) (env : environ) : attempt namespace :=
  port <-- int_of_str (getenv_or env (lit "FLASK_PORT") (lit "5005")) ;;
  Done [
    (lit "BASE_DIR", APath base_dir);
    (lit "SECRET_KEY",
     AStr (getenv_or env (lit "SECRET_KEY") (lit "lexnum-ofs-tlaxcala-2025")));
    (lit "MAX_CONTENT_LENGTH", AInt (10 * 1024 * 1024));
    (lit "HOST", AStr (getenv_or env (lit "FLASK_HOST") (lit "0.0.0.0")));
    (lit "PORT", AInt port);
    (lit "DEBUG",
     ABool (existsb
              (pystr_eqb (lower (getenv_or env (lit "FLASK_DEBUG") (lit "False"))))
              [lit "true"; lit "1"; lit "yes"]));
    (lit "ALLOWED_EXTENSIONS", AFrozenset [lit "xlsx"; lit "xls"]);
    (lit "MAX_FILE_SIZE_MB", AInt MAX_FILE_SIZE_MB);
    (lit "OUTPUT_FILENAME", AStr OUTPUT_FILENAME);
    (lit "ERROR_NO_FILE", AStr ERROR_NO_FILE);
    (lit "ERROR_INVALID_EXCEL", AStr ERROR_INVALID_EXCEL);
    (lit "ERROR_NO_COLUMN", AStr ERROR_NO_COLUMN);
    (lit "ERROR_CONVERSION", AStr ERROR_CONVERSION);
    (lit "ERROR_NETWORK", AStr ERROR_NETWORK);
    (lit "LOG_LEVEL", AStr (getenv_or env (lit "LOG_LEVEL") (lit "INFO")));
    (lit "LOG_FORMAT",
     AStr (lit "%(asctime)s - %(name)s - %(levelname)s - %(message)s"))
  ].

Definition DevelopmentConfig_body : namespace :=
  [(lit "DEBUG", ABool true); (lit "TESTING", ABool false)].

Definition ProductionConfig_body (env : environ) : namespace :=
  [(lit "DEBUG", ABool false); (lit "TESTING", ABool false);
   (lit "SECRET_KEY",
    match getenv env (lit "SECRET_KEY") with
    | Some v => AStr v
    | None => ANone
    end)].

Definition TestingConfig_body : namespace :=
  [(lit "TESTING", ABool true); (lit "DEBUG", ABool true);
   (lit "MAX_CONTENT_LENGTH", AInt (5 * 1024 * 1024))].

(** Importing the module runs the four class statements; what is left is
    the namespace of each class. *)
Definition import_config (base_dir : pystr) (env : environ)
  : attempt (config_class -> namespace) :=
  base <-- Config_body base_dir env ;;
  Done (fun c =>
          match c with
          | Config => base
          | DevelopmentConfig => DevelopmentConfig_body
          | ProductionConfig => ProductionConfig_body env
          | TestingConfig => TestingConfig_body
          end).

(** [getattr(c, name)] for one of the classes and a name that [object] and
    [type] do not define: the attribute of the class itself, or else of its
    base class. *)
Definition class_getattr (classes : config_class -> namespace)
    (c : config_class) (name : pystr) : attempt attr_value :=
  match own_attribute (classes c) name with
  | Some v => Done v
  | None =>
      match base_class c with
      | Some b =>
          match own_attribute (classes b) name with
          | Some v => Done v
          | None => Failed (NoAttribute (class_name c) name)
          end
      | None => Failed (NoAttribute (class_name c) name)
      end
  end.

Definition config_by_name : list (pystr * config_class) :=
  [(lit "development", DevelopmentConfig);
   (lit "production", ProductionConfig);
   (lit "testing", TestingConfig);
   (lit "default", DevelopmentConfig)].

Fixpoint dict_get {A : Type} (d : list (pystr * A)) (key : pystr) (default : A) : A :=
  match d with
  | [] => default
  | (k, v) :: rest => if pystr_eqb k key then v else dict_get rest key default
  end.

Definition get_config (env : environ) (env_name : option pystr) : config_class :=
  let env_name :=
    match env_name with
    | None => getenv_or env (lit "FLASK_ENV") (lit "default")
    | Some name => name
    end in
  dict_get config_by_name env_name DevelopmentConfig.

End ConfigModule.

(** ** [app.py]: the handlers *)

(** A response: [jsonify(payload), status], or [send_file(...), status]. *)
Inductive response :=
| Json (payload : list (pystr * pystr)) (status : Z)
| SendFile (data : list Z) (download_name mimetype : pystr) (status : Z).

(** What [request.get_json(silent=True)] gives the handler when it is not
    [None]: a JSON object, whose fields hold [None], a [str], an [int] or a
    [float]; or another JSON value, of which the handler uses the truth value
    only.  (Fields that hold booleans, arrays or objects are left out.) *)
Inductive json_body :=
| JsonObject (fields : list (pystr * PyValue))
| JsonOther (true_value : bool).

Definition json_bool (b : json_body) : bool :=
  match b with
  | JsonObject fields => match fields with [] => false | _ :: _ => true end
  | JsonOther t => t
  end.

(** [data.get(key, default)]: a method of [dict] only *)
Definition data_get (data : json_body) (key : pystr) (default : PyValue)
  : attempt PyValue :=
  match data with
  | JsonObject fields => Done (dict_get fields key default)
  | JsonOther _ => Failed (NoAttribute (lit "data") (lit "get"))
  end.

(** A [pandas.DataFrame] as [read_excel] delivers it: the columns in their
    order, each with its label and its cells. *)
Definition DataFrame := list (PyValue * list PyValue).

(** A [str] key against a label.  (A key of another type is compared with
    the labels as such; the handler looks up a [str].) *)
Definition label_eqb (key label : PyValue) : bool :=
  match key, label with
  | PyStr a, PyStr b => pystr_eqb a b
  | PyNone, PyNone => true
  | PyInt a, PyInt b => a =? b
  | PyFloat a, PyFloat b => float_eqb a b
  | _, _ => false
  end.

(** [df[key]]: the cells of the column with the label [key] *)
Fixpoint df_getitem (df : DataFrame) (key : PyValue) : attempt (list PyValue) :=
  match df with
  | [] => Failed (KeyError (str key))
  | (label, cells) :: rest =>
      if label_eqb key label then Done cells else df_getitem rest key
  end.

(** [df[key] = cells]: the column with the label [key] gets the new cells
    where it stands, and a new label makes a new last column. *)
Fixpoint df_setitem (df : DataFrame) (key : PyValue) (cells : list PyValue)
  : DataFrame :=
  match df with
  | [] => [(key, cells)]
  | (label, old) :: rest =>
      if label_eqb key label then (label, cells) :: rest
      else (label, old) :: df_setitem rest key cells
  end.

Definition XLSX_MIMETYPE : pystr :=
  lit "application/vnd.openxmlformats-officedocument.spreadsheetml.sheet".

Section Handlers.
Context {U : UnicodeData} {N : Num2Words}.

(** [pd.read_excel(archivo)], and the bytes that [df.to_excel(writer,
    index=False)] leaves in the buffer: both belong to pandas, and either
    may raise. *)
Variable read_excel : FileStorage -> attempt DataFrame.
Variable to_excel : DataFrame -> attempt (list Z).

Definition convertir_texto (request_json : option json_body) : response :=
  let body : attempt response :=
    let data :=
      match request_json with
      | Some b => if json_bool b then b else JsonObject []
      | None => JsonObject []
      end in
    numero <-- data_get data (lit "numero") (PyStr []) ;;
    if negb (truthy numero) then Done (Json [(lit "texto", [])] 200)
    else
      texto <-- from_converter (numero_a_texto numero) ;;
      Done (Json [(lit "texto", texto)] 200) in
  match body with
  | Done r => r
  | Failed _ => Json [(lit "error", ERROR_CONVERSION)] 500
  end.

Definition convertir_excel (archivo : option FileStorage) : response :=
  let body : attempt response :=
    match archivo with
    | None => Done (Json [(lit "error", ERROR_NO_FILE)] 400)
    | Some file =>
        if negb (file_bool file)
        then Done (Json [(lit "error", ERROR_NO_FILE)] 400)
        else
          checked <-- validate_file archivo ;;
          let '(is_valid, error_message) := checked in
          if negb is_valid then Done (Json [(lit "error", error_message)] 400)
          else
            match read_excel file with
            | Failed _ => Done (Json [(lit "error", ERROR_INVALID_EXCEL)] 400)
            | Done df =>
                match find_num_column (map fst df) with
                | None => Done (Json [(lit "error", ERROR_NO_COLUMN)] 400)
                | Some col =>
                    if negb (truthy col)
                    then Done (Json [(lit "error", ERROR_NO_COLUMN)] 400)
                    else
                      serie <-- df_getitem df col ;;
                      textos <-- from_converter (apply_rows numero_a_texto serie) ;;
                      let df := df_setitem df (PyStr (lit "Texto")) (map PyStr textos) in
                      data <-- to_excel df ;;
                      Done (SendFile data OUTPUT_FILENAME XLSX_MIMETYPE 200)
                end
            end
    end in
  match body with
  | Done r => r
  | Failed _ => Json [(lit "error", lit "Error interno del servidor.")] 500
  end.

End Handlers.

(** The module-level statements of [app.py] that follow the import of
    [config] read these attributes of [Config], in this order, to set up the
    log files and the handlers. *)
Definition LOGGING_ATTRIBUTES : list pystr :=
  [lit "LOG_DIR"; lit "LOG_FILE"; lit "LOG_MAX_BYTES"; lit "LOG_BACKUP_COUNT";
   lit "LOG_LEVEL"; lit "LOG_FORMAT"; lit "LOG_LEVEL"; lit "LOG_FORMAT";
   lit "LOG_LEVEL"].

Fixpoint read_attributes (classes : config_class -> namespace)
    (c : config_class) (names : list pystr) : attempt (list attr_value) :=
  match names with
  | [] => Done []
  | name :: rest =>
      v <-- class_getattr classes c name ;;
      vs <-- read_attributes classes c rest ;;
      Done (v :: vs)
  end.

(** [import app], up to the message [LexNum iniciado correctamente] *)
Definition import_app {U : UnicodeData} (base_dir : pystr) (env : environ)
  : attempt (list attr_value) :=
  classes <-- import_config base_dir env ;;
  read_attributes classes Config LOGGING_ATTRIBUTES.

(** ** Examples

    An upload and the frame read from it, for the statements below that are
    shown on an instance. *)
Definition libro : FileStorage :=
  {| filename := Some (lit "montos.xlsx"); stream := [80; 75; 3; 4] |}.

Definition hoja : DataFrame :=
  [(PyStr (lit "Fecha"), [PyStr (lit "2025-01-31"); PyStr (lit "2025-02-28")]);
   (PyStr (lit "Número"), [PyFloat float_1523_45; PyStr (lit "$1,234.56 MXN")]);
   (PyStr (lit "Texto"), [PyStr (lit "?"); PyNone])].

Definition hoja_con_inf : DataFrame :=
  [(PyStr (lit "num"), [PyInt 1; PyStr (lit "inf"); PyInt 2])].

(** ** A part of the Unicode character database

    The entries of the database (version 14.0) for the Latin-1 Supplement,
    the Combining Diacritical Marks, the Greek sigmas, the Arabic-Indic
    digits, the combining enclosing circle, the ideographic space and the
    fullwidth forms of ASCII.  An entry gives the decimal value, the
    canonical combining class, the full canonical and compatibility
    decompositions, the full lower and upper case mappings, and whether the
    character is cased and case-ignorable.  A code point that has no entry
    here is treated as a character with no decomposition, class 0, no case
    and no case mapping; the entries of this kind in the blocks above are
    left out. *)
Record ucd_entry := UEntry {
  entry_decimal : option Z;
  entry_combining : Z;
  entry_canonical : list codepoint;
  entry_compat : list codepoint;
  entry_lower : list codepoint;
  entry_upper : list codepoint;
  entry_cased : bool;
  entry_case_ignorable : bool
}.

Definition ucd_table : list (codepoint * ucd_entry) := [
  (160, UEntry None 0 [160] [32] [160] [160] false false);
  (168, UEntry None 0 [168] [32; 776] [168] [168] false true);
  (170, UEntry None 0 [170] [97] [170] [170] true false);
  (173, UEntry None 0 [173] [173] [173] [173] false true);
  (175, UEntry None 0 [175] [32; 772] [175] [175] false true);
  (178, UEntry None 0 [178] [50] [178] [178] false false);
  (179, UEntry None 0 [179] [51] [179] [179] false false);
  (180, UEntry None 0 [180] [32; 769] [180] [180] false true);
  (181, UEntry None 0 [181] [956] [181] [924] true false);
  (183, UEntry None 0 [183] [183] [183] [183] false true);
  (184, UEntry None 0 [184] [32; 807] [184] [184] false true);
  (185, UEntry None 0 [185] [49] [185] [185] false false);
  (186, UEntry None 0 [186] [111] [186] [186] true false);
  (188, UEntry None 0 [188] [49; 8260; 52] [188] [188] false false);
  (189, UEntry None 0 [189] [49; 8260; 50] [189] [189] false false);
  (190, UEntry None 0 [190] [51; 8260; 52] [190] [190] false false);
  (192, UEntry None 0 [65; 768] [65; 768] [224] [192] true false);
  (193, UEntry None 0 [65; 769] [65; 769] [225] [193] true false);
  (194, UEntry None 0 [65; 770] [65; 770] [226] [194] true false);
  (195, UEntry None 0 [65; 771] [65; 771] [227] [195] true false);
  (196, UEntry None 0 [65; 776] [65; 776] [228] [196] true false);
  (197, UEntry None 0 [65; 778] [65; 778] [229] [197] true false);
  (198, UEntry None 0 [198] [198] [230] [198] true false);
  (199, UEntry None 0 [67; 807] [67; 807] [231] [199] true false);
  (200, UEntry None 0 [69; 768] [69; 768] [232] [200] true false);
  (201, UEntry None 0 [69; 769] [69; 769] [233] [201] true false);
  (202, UEntry None 0 [69; 770] [69; 770] [234] [202] true false);
  (203, UEntry None 0 [69; 776] [69; 776] [235] [203] true false);
  (204, UEntry None 0 [73; 768] [73; 768] [236] [204] true false);
  (205, UEntry None 0 [73; 769] [73; 769] [237] [205] true false);
  (206, UEntry None 0 [73; 770] [73; 770] [238] [206] true false);
  (207, UEntry None 0 [73; 776] [73; 776] [239] [207] true false);
  (208, UEntry None 0 [208] [208] [240] [208] true false);
  (209, UEntry None 0 [78; 771] [78; 771] [241] [209] true false);
  (210, UEntry None 0 [79; 768] [79; 768] [242] [210] true false);
  (211, UEntry None 0 [79; 769] [79; 769] [243] [211] true false);
  (212, UEntry None 0 [79; 770] [79; 770] [244] [212] true false);
  (213, UEntry None 0 [79; 771] [79; 771] [245] [213] true false);
  (214, UEntry None 0 [79; 776] [79; 776] [246] [214] true false);
  (216, UEntry None 0 [216] [216] [248] [216] true false);
  (217, UEntry None 0 [85; 768] [85; 768] [249] [217] true false);
  (218, UEntry None 0 [85; 769] [85; 769] [250] [218] true false);
  (219, UEntry None 0 [85; 770] [85; 770] [251] [219] true false);
  (220, UEntry None 0 [85; 776] [85; 776] [252] [220] true false);
  (221, UEntry None 0 [89; 769] [89; 769] [253] [221] true false);
  (222, UEntry None 0 [222] [222] [254] [222] true false);
  (223, UEntry None 0 [223] [223] [223] [83; 83] true false);
  (224, UEntry None 0 [97; 768] [97; 768] [224] [192] true false);
  (225, UEntry None 0 [97; 769] [97; 769] [225] [193] true false);
  (226, UEntry None 0 [97; 770] [97; 770] [226] [194] true false);
  (227, UEntry None 0 [97; 771] [97; 771] [227] [195] true false);
  (228, UEntry None 0 [97; 776] [97; 776] [228] [196] true false);
  (229, UEntry None 0 [97; 778] [97; 778] [229] [197] true false);
  (230, UEntry None 0 [230] [230] [230] [198] true false);
  (231, UEntry None 0 [99; 807] [99; 807] [231] [199] true false);
  (232, UEntry None 0 [101; 768] [101; 768] [232] [200] true false);
  (233, UEntry None 0 [101; 769] [101; 769] [233] [201] true false);
  (234, UEntry None 0 [101; 770] [101; 770] [234] [202] true false);
  (235, UEntry None 0 [101; 776] [101; 776] [235] [203] true false);
  (236, UEntry None 0 [105; 768] [105; 768] [236] [204] true false);
  (237, UEntry None 0 [105; 769] [105; 769] [237] [205] true false);
  (238, UEntry None 0 [105; 770] [105; 770] [238] [206] true false);
  (239, UEntry None 0 [105; 776] [105; 776] [239] [207] true false);
  (240, UEntry None 0 [240] [240] [240] [208] true false);
  (241, UEntry None 0 [110; 771] [110; 771] [241] [209] true false);
  (242, UEntry None 0 [111; 768] [111; 768] [242] [210] true false);
  (243, UEntry None 0 [111; 769] [111; 769] [243] [211] true false);
  (244, UEntry None 0 [111; 770] [111; 770] [244] [212] true false);
  (245, UEntry None 0 [111; 771] [111; 771] [245] [213] true false);
  (246, UEntry None 0 [111; 776] [111; 776] [246] [214] true false);
  (248, UEntry None 0 [248] [248] [248] [216] true false);
  (249, UEntry None 0 [117; 768] [117; 768] [249] [217] true false);
  (250, UEntry None 0 [117; 769] [117; 769] [250] [218] true false);
  (251, UEntry None 0 [117; 770] [117; 770] [251] [219] true false);
  (252, UEntry None 0 [117; 776] [117; 776] [252] [220] true false);
  (253, UEntry None 0 [121; 769] [121; 769] [253] [221] true false);
  (254, UEntry None 0 [254] [254] [254] [222] true false);
  (255, UEntry None 0 [121; 776] [121; 776] [255] [376] true false);
  (768, UEntry None 230 [768] [768] [768] [768] false true);
  (769, UEntry None 230 [769] [769] [769] [769] false true);
  (770, UEntry None 230 [770] [770] [770] [770] false true);
  (771, UEntry None 230 [771] [771] [771] [771] false true);
  (772, UEntry None 230 [772] [772] [772] [772] false true);
  (773, UEntry None 230 [773] [773] [773] [773] false true);
  (774, UEntry None 230 [774] [774] [774] [774] false true);
  (775, UEntry None 230 [775] [775] [775] [775] false true);
  (776, UEntry None 230 [776] [776] [776] [776] false true);
  (777, UEntry None 230 [777] [777] [777] [777] false true);
  (778, UEntry None 230 [778] [778] [778] [778] false true);
  (779, UEntry None 230 [779] [779] [779] [779] false true);
  (780, UEntry None 230 [780] [780] [780] [780] false true);
  (781, UEntry None 230 [781] [781] [781] [781] false true);
  (782, UEntry None 230 [782] [782] [782] [782] false true);
  (783, UEntry None 230 [783] [783] [783] [783] false true);
  (784, UEntry None 230 [784] [784] [784] [784] false true);
  (785, UEntry None 230 [785] [785] [785] [785] false true);
  (786, UEntry None 230 [786] [786] [786] [786] false true);
  (787, UEntry None 230 [787] [787] [787] [787] false true);
  (788, UEntry None 230 [788] [788] [788] [788] false true);
  (789, UEntry None 232 [789] [789] [789] [789] false true);
  (790, UEntry None 220 [790] [790] [790] [790] false true);
  (791, UEntry None 220 [791] [791] [791] [791] false true);
  (792, UEntry None 220 [792] [792] [792] [792] false true);
  (793, UEntry None 220 [793] [793] [793] [793] false true);
  (794, UEntry None 232 [794] [794] [794] [794] false true);
  (795, UEntry None 216 [795] [795] [795] [795] false true);
  (796, UEntry None 220 [796] [796] [796] [796] false true);
  (797, UEntry None 220 [797] [797] [797] [797] false true);
  (798, UEntry None 220 [798] [798] [798] [798] false true);
  (799, UEntry None 220 [799] [799] [799] [799] false true);
  (800, UEntry None 220 [800] [800] [800] [800] false true);
  (801, UEntry None 202 [801] [801] [801] [801] false true);
  (802, UEntry None 202 [802] [802] [802] [802] false true);
  (803, UEntry None 220 [803] [803] [803] [803] false true);
  (804, UEntry None 220 [804] [804] [804] [804] false true);
  (805, UEntry None 220 [805] [805] [805] [805] false true);
  (806, UEntry None 220 [806] [806] [806] [806] false true);
  (807, UEntry None 202 [807] [807] [807] [807] false true);
  (808, UEntry None 202 [808] [808] [808] [808] false true);
  (809, UEntry None 220 [809] [809] [809] [809] false true);
  (810, UEntry None 220 [810] [810] [810] [810] false true);
  (811, UEntry None 220 [811] [811] [811] [811] false true);
  (812, UEntry None 220 [812] [812] [812] [812] false true);
  (813, UEntry None 220 [813] [813] [813] [813] false true);
  (814, UEntry None 220 [814] [814] [814] [814] false true);
  (815, UEntry None 220 [815] [815] [815] [815] false true);
  (816, UEntry None 220 [816] [816] [816] [816] false true);
  (817, UEntry None 220 [817] [817] [817] [817] false true);
  (818, UEntry None 220 [818] [818] [818] [818] false true);
  (819, UEntry None 220 [819] [819] [819] [819] false true);
  (820, UEntry None 1 [820] [820] [820] [820] false true);
  (821, UEntry None 1 [821] [821] [821] [821] false true);
  (822, UEntry None 1 [822] [822] [822] [822] false true);
  (823, UEntry None 1 [823] [823] [823] [823] false true);
  (824, UEntry None 1 [824] [824] [824] [824] false true);
  (825, UEntry None 220 [825] [825] [825] [825] false true);
  (826, UEntry None 220 [826] [826] [826] [826] false true);
  (827, UEntry None 220 [827] [827] [827] [827] false true);
  (828, UEntry None 220 [828] [828] [828] [828] false true);
  (829, UEntry None 230 [829] [829] [829] [829] false true);
  (830, UEntry None 230 [830] [830] [830] [830] false true);
  (831, UEntry None 230 [831] [831] [831] [831] false true);
  (832, UEntry None 230 [768] [768] [832] [832] false true);
  (833, UEntry None 230 [769] [769] [833] [833] false true);
  (834, UEntry None 230 [834] [834] [834] [834] false true);
  (835, UEntry None 230 [787] [787] [835] [835] false true);
  (836, UEntry None 230 [776; 769] [776; 769] [836] [836] false true);
  (837, UEntry None 240 [837] [837] [837] [921] true true);
  (838, UEntry None 230 [838] [838] [838] [838] false true);
  (839, UEntry None 220 [839] [839] [839] [839] false true);
  (840, UEntry None 220 [840] [840] [840] [840] false true);
  (841, UEntry None 220 [841] [841] [841] [841] false true);
  (842, UEntry None 230 [842] [842] [842] [842] false true);
  (843, UEntry None 230 [843] [843] [843] [843] false true);
  (844, UEntry None 230 [844] [844] [844] [844] false true);
  (845, UEntry None 220 [845] [845] [845] [845] false true);
  (846, UEntry None 220 [846] [846] [846] [846] false true);
  (847, UEntry None 0 [847] [847] [847] [847] false true);
  (848, UEntry None 230 [848] [848] [848] [848] false true);
  (849, UEntry None 230 [849] [849] [849] [849] false true);
  (850, UEntry None 230 [850] [850] [850] [850] false true);
  (851, UEntry None 220 [851] [851] [851] [851] false true);
  (852, UEntry None 220 [852] [852] [852] [852] false true);
  (853, UEntry None 220 [853] [853] [853] [853] false true);
  (854, UEntry None 220 [854] [854] [854] [854] false true);
  (855, UEntry None 230 [855] [855] [855] [855] false true);
  (856, UEntry None 232 [856] [856] [856] [856] false true);
  (857, UEntry None 220 [857] [857] [857] [857] false true);
  (858, UEntry None 220 [858] [858] [858] [858] false true);
  (859, UEntry None 230 [859] [859] [859] [859] false true);
  (860, UEntry None 233 [860] [860] [860] [860] false true);
  (861, UEntry None 234 [861] [861] [861] [861] false true);
  (862, UEntry None 234 [862] [862] [862] [862] false true);
  (863, UEntry None 233 [863] [863] [863] [863] false true);
  (864, UEntry None 234 [864] [864] [864] [864] false true);
  (865, UEntry None 234 [865] [865] [865] [865] false true);
  (866, UEntry None 233 [866] [866] [866] [866] false true);
  (867, UEntry None 230 [867] [867] [867] [867] false true);
  (868, UEntry None 230 [868] [868] [868] [868] false true);
  (869, UEntry None 230 [869] [869] [869] [869] false true);
  (870, UEntry None 230 [870] [870] [870] [870] false true);
  (871, UEntry None 230 [871] [871] [871] [871] false true);
  (872, UEntry None 230 [872] [872] [872] [872] false true);
  (873, UEntry None 230 [873] [873] [873] [873] false true);
  (874, UEntry None 230 [874] [874] [874] [874] false true);
  (875, UEntry None 230 [875] [875] [875] [875] false true);
  (876, UEntry None 230 [876] [876] [876] [876] false true);
  (877, UEntry None 230 [877] [877] [877] [877] false true);
  (878, UEntry None 230 [878] [878] [878] [878] false true);
  (879, UEntry None 230 [879] [879] [879] [879] false true);
  (931, UEntry None 0 [931] [931] [963] [931] true false);
  (962, UEntry None 0 [962] [962] [962] [931] true false);
  (963, UEntry None 0 [963] [963] [963] [931] true false);
  (1632, UEntry (Some 0) 0 [1632] [1632] [1632] [1632] false false);
  (1633, UEntry (Some 1) 0 [1633] [1633] [1633] [1633] false false);
  (1634, UEntry (Some 2) 0 [1634] [1634] [1634] [1634] false false);
  (1635, UEntry (Some 3) 0 [1635] [1635] [1635] [1635] false false);
  (1636, UEntry (Some 4) 0 [1636] [1636] [1636] [1636] false false);
  (1637, UEntry (Some 5) 0 [1637] [1637] [1637] [1637] false false);
  (1638, UEntry (Some 6) 0 [1638] [1638] [1638] [1638] false false);
  (1639, UEntry (Some 7) 0 [1639] [1639] [1639] [1639] false false);
  (1640, UEntry (Some 8) 0 [1640] [1640] [1640] [1640] false false);
  (1641, UEntry (Some 9) 0 [1641] [1641] [1641] [1641] false false);
  (8413, UEntry None 0 [8413] [8413] [8413] [8413] false true);
  (12288, UEntry None 0 [12288] [32] [12288] [12288] false false);
  (65281, UEntry None 0 [65281] [33] [65281] [65281] false false);
  (65282, UEntry None 0 [65282] [34] [65282] [65282] false false);
  (65283, UEntry None 0 [65283] [35] [65283] [65283] false false);
  (65284, UEntry None 0 [65284] [36] [65284] [65284] false false);
  (65285, UEntry None 0 [65285] [37] [65285] [65285] false false);
  (65286, UEntry None 0 [65286] [38] [65286] [65286] false false);
  (65287, UEntry None 0 [65287] [39] [65287] [65287] false true);
  (65288, UEntry None 0 [65288] [40] [65288] [65288] false false);
  (65289, UEntry None 0 [65289] [41] [65289] [65289] false false);
  (65290, UEntry None 0 [65290] [42] [65290] [65290] false false);
  (65291, UEntry None 0 [65291] [43] [65291] [65291] false false);
  (65292, UEntry None 0 [65292] [44] [65292] [65292] false false);
  (65293, UEntry None 0 [65293] [45] [65293] [65293] false false);
  (65294, UEntry None 0 [65294] [46] [65294] [65294] false true);
  (65295, UEntry None 0 [65295] [47] [65295] [65295] false false);
  (65296, UEntry (Some 0) 0 [65296] [48] [65296] [65296] false false);
  (65297, UEntry (Some 1) 0 [65297] [49] [65297] [65297] false false);
  (65298, UEntry (Some 2) 0 [65298] [50] [65298] [65298] false false);
  (65299, UEntry (Some 3) 0 [65299] [51] [65299] [65299] false false);
  (65300, UEntry (Some 4) 0 [65300] [52] [65300] [65300] false false);
  (65301, UEntry (Some 5) 0 [65301] [53] [65301] [65301] false false);
  (65302, UEntry (Some 6) 0 [65302] [54] [65302] [65302] false false);
  (65303, UEntry (Some 7) 0 [65303] [55] [65303] [65303] false false);
  (65304, UEntry (Some 8) 0 [65304] [56] [65304] [65304] false false);
  (65305, UEntry (Some 9) 0 [65305] [57] [65305] [65305] false false);
  (65306, UEntry None 0 [65306] [58] [65306] [65306] false true);
  (65307, UEntry None 0 [65307] [59] [65307] [65307] false false);
  (65308, UEntry None 0 [65308] [60] [65308] [65308] false false);
  (65309, UEntry None 0 [65309] [61] [65309] [65309] false false);
  (65310, UEntry None 0 [65310] [62] [65310] [65310] false false);
  (65311, UEntry None 0 [65311] [63] [65311] [65311] false false);
  (65312, UEntry None 0 [65312] [64] [65312] [65312] false false);
  (65313, UEntry None 0 [65313] [65] [65345] [65313] true false);
  (65314, UEntry None 0 [65314] [66] [65346] [65314] true false);
  (65315, UEntry None 0 [65315] [67] [65347] [65315] true false);
  (65316, UEntry None 0 [65316] [68] [65348] [65316] true false);
  (65317, UEntry None 0 [65317] [69] [65349] [65317] true false);
  (65318, UEntry None 0 [65318] [70] [65350] [65318] true false);
  (65319, UEntry None 0 [65319] [71] [65351] [65319] true false);
  (65320, UEntry None 0 [65320] [72] [65352] [65320] true false);
  (65321, UEntry None 0 [65321] [73] [65353] [65321] true false);
  (65322, UEntry None 0 [65322] [74] [65354] [65322] true false);
  (65323, UEntry None 0 [65323] [75] [65355] [65323] true false);
  (65324, UEntry None 0 [65324] [76] [65356] [65324] true false);
  (65325, UEntry None 0 [65325] [77] [65357] [65325] true false);
  (65326, UEntry None 0 [65326] [78] [65358] [65326] true false);
  (65327, UEntry None 0 [65327] [79] [65359] [65327] true false);
  (65328, UEntry None 0 [65328] [80] [65360] [65328] true false);
  (65329, UEntry None 0 [65329] [81] [65361] [65329] true false);
  (65330, UEntry None 0 [65330] [82] [65362] [65330] true false);
  (65331, UEntry None 0 [65331] [83] [65363] [65331] true false);
  (65332, UEntry None 0 [65332] [84] [65364] [65332] true false);
  (65333, UEntry None 0 [65333] [85] [65365] [65333] true false);
  (65334, UEntry None 0 [65334] [86] [65366] [65334] true false);
  (65335, UEntry None 0 [65335] [87] [65367] [65335] true false);
  (65336, UEntry None 0 [65336] [88] [65368] [65336] true false);
  (65337, UEntry None 0 [65337] [89] [65369] [65337] true false);
  (65338, UEntry None 0 [65338] [90] [65370] [65338] true false);
  (65339, UEntry None 0 [65339] [91] [65339] [65339] false false);
  (65340, UEntry None 0 [65340] [92] [65340] [65340] false false);
  (65341, UEntry None 0 [65341] [93] [65341] [65341] false false);
  (65342, UEntry None 0 [65342] [94] [65342] [65342] false true);
  (65343, UEntry None 0 [65343] [95] [65343] [65343] false false);
  (65344, UEntry None 0 [65344] [96] [65344] [65344] false true);
  (65345, UEntry None 0 [65345] [97] [65345] [65313] true false);
  (65346, UEntry None 0 [65346] [98] [65346] [65314] true false);
  (65347, UEntry None 0 [65347] [99] [65347] [65315] true false);
  (65348, UEntry None 0 [65348] [100] [65348] [65316] true false);
  (65349, UEntry None 0 [65349] [101] [65349] [65317] true false);
  (65350, UEntry None 0 [65350] [102] [65350] [65318] true false);
  (65351, UEntry None 0 [65351] [103] [65351] [65319] true false);
  (65352, UEntry None 0 [65352] [104] [65352] [65320] true false);
  (65353, UEntry None 0 [65353] [105] [65353] [65321] true false);
  (65354, UEntry None 0 [65354] [106] [65354] [65322] true false);
  (65355, UEntry None 0 [65355] [107] [65355] [65323] true false);
  (65356, UEntry None 0 [65356] [108] [65356] [65324] true false);
  (65357, UEntry None 0 [65357] [109] [65357] [65325] true false);
  (65358, UEntry None 0 [65358] [110] [65358] [65326] true false);
  (65359, UEntry None 0 [65359] [111] [65359] [65327] true false);
  (65360, UEntry None 0 [65360] [112] [65360] [65328] true false);
  (65361, UEntry None 0 [65361] [113] [65361] [65329] true false);
  (65362, UEntry None 0 [65362] [114] [65362] [65330] true false);
  (65363, UEntry None 0 [65363] [115] [65363] [65331] true false);
  (65364, UEntry None 0 [65364] [116] [65364] [65332] true false);
  (65365, UEntry None 0 [65365] [117] [65365] [65333] true false);
  (65366, UEntry None 0 [65366] [118] [65366] [65334] true false);
  (65367, UEntry None 0 [65367] [119] [65367] [65335] true false);
  (65368, UEntry None 0 [65368] [120] [65368] [65336] true false);
  (65369, UEntry None 0 [65369] [121] [65369] [65337] true false);
  (65370, UEntry None 0 [65370] [122] [65370] [65338] true false);
  (65371, UEntry None 0 [65371] [123] [65371] [65371] false false);
  (65372, UEntry None 0 [65372] [124] [65372] [65372] false false);
  (65373, UEntry None 0 [65373] [125] [65373] [65373] false false);
  (65374, UEntry None 0 [65374] [126] [65374] [65374] false false)
].

Definition ucd_default (c : codepoint) : ucd_entry :=
  UEntry None 0 [c] [c] [c] [c] false false.

Fixpoint ucd_find (t : list (codepoint * ucd_entry)) (c : codepoint) : option ucd_entry :=
  match t with
  | [] => None
  | (k, e) :: r => if k =? c then Some e else ucd_find r c
  end.

Definition ucd_lookup (c : codepoint) : ucd_entry :=
  match ucd_find ucd_table c with
  | Some e => e
  | None => ucd_default c
  end.

Definition ucd_part : UnicodeData := {|
  unicode_decimal := fun c => entry_decimal (ucd_lookup c);
  unicode_combining := fun c => entry_combining (ucd_lookup c);
  unicode_canonical := fun c => entry_canonical (ucd_lookup c);
  unicode_compat := fun c => entry_compat (ucd_lookup c);
  unicode_lower := fun c => entry_lower (ucd_lookup c);
  unicode_upper := fun c => entry_upper (ucd_lookup c);
  unicode_cased := fun c => entry_cased (ucd_lookup c);
  unicode_case_ignorable := fun c => entry_case_ignorable (ucd_lookup c)
|}.

(** ** A model of the Spanish cardinals of [num2words]

    The words [num2words(n, lang="es")] returns for an [int]: the table of
    number words of the Spanish converter, its [merge] rule, and the split of
    a number at the greatest word not above it ([splitnum] followed by
    [clean]). *)
Definition cards : list (Z * pystr) := [
  (10 ^ 24, lit "cuatrillón"); (10 ^ 18, lit "trillón");
  (10 ^ 12, lit "billón"); (10 ^ 6, lit "millón");
  (1000, lit "mil"); (100, lit "cien"); (90, lit "noventa");
  (80, lit "ochenta"); (70, lit "setenta"); (60, lit "sesenta");
  (50, lit "cincuenta"); (40, lit "cuarenta"); (30, lit "treinta");
  (29, lit "veintinueve"); (28, lit "veintiocho"); (27, lit "veintisiete");
  (26, lit "veintiséis"); (25, lit "veinticinco"); (24, lit "veinticuatro");
  (23, lit "veintitrés"); (22, lit "veintidós"); (21, lit "veintiuno");
  (20, lit "veinte"); (19, lit "diecinueve"); (18, lit "dieciocho");
  (17, lit "diecisiete"); (16, lit "dieciséis"); (15, lit "quince");
  (14, lit "catorce"); (13, lit "trece"); (12, lit "doce"); (11, lit "once");
  (10, lit "diez"); (9, lit "nueve"); (8, lit "ocho"); (7, lit "siete");
  (6, lit "seis"); (5, lit "cinco"); (4, lit "cuatro"); (3, lit "tres");
  (2, lit "dos"); (1, lit "uno"); (0, lit "cero")
].

Definition MAXVAL : Z := 1000 * 10 ^ 24.

(** [merge(curr, next)] of the Spanish converter *)
Definition merge (curr next : pystr * Z) : pystr * Z :=
  let '(ctext, cnum) := curr in
  let '(ntext, nnum) := next in
  if (cnum =? 1) && (nnum <? 1000000) then next
  else
    let ctext :=
      if cnum =? 1 then lit "un"
      else if (cnum =? 100) && negb (nnum mod 1000 =? 0) then lit "ciento"
      else ctext in
    if nnum <? cnum then
      if cnum <? 100
      then (ctext ++ lit " y " ++ ntext, cnum + nnum)
      else (ctext ++ lit " " ++ ntext, cnum + nnum)
    else
      let ntext :=
        if (nnum mod 1000000 =? 0) && (1 <? cnum)
        then firstn (length ntext - 3) ntext ++ lit "lones"
        else ntext in
      if nnum =? 100 then
        let '(ctext, ntext) :=
          if cnum =? 5 then (lit "quinien", [])
          else if cnum =? 7 then (lit "sete", ntext)
          else if cnum =? 9 then (lit "nove", ntext)
          else (ctext, ntext) in
        (ctext ++ ntext ++ lit "tos", cnum * nnum)
      else (ctext ++ lit " " ++ ntext, cnum * nnum).

(** The greatest entry of [cards] that is not above [value] *)
Fixpoint greatest_card (t : list (Z * pystr)) (value : Z) : option (Z * pystr) :=
  match t with
  | [] => None
  | (elem, word) :: r =>
      if value <? elem then greatest_card r value else Some (elem, word)
  end.

(** [clean(splitnum(value))] for [0 <= value]: the words of the quotient by
    the greatest card, the card, and the words of the remainder, merged from
    the left.  A quotient of 1 is the word [uno]. *)
Fixpoint cardinal (fuel : nat) (value : Z) : pystr * Z :=
  match fuel with
  | O => ([], 0)
  | S k =>
      match greatest_card cards value with
      | None => ([], 0)
      | Some (elem, word) =>
          let '(div, md) :=
            if value =? 0 then (1, 0) else (value / elem, value mod elem) in
          let left := if div =? 1 then (lit "uno", 1) else cardinal k div in
          let merged := merge left (word, elem) in
          if md =? 0 then merged else merge merged (cardinal k md)
      end
  end.

(** [to_cardinal(value)] *)
Definition to_cardinal (value : Z) : result pystr :=
  let a := Z.abs value in
  if MAXVAL <=? a then Raise (OverflowError (AbsMustBeLessThan a MAXVAL))
  else
    let words := fst (cardinal (S (Z.to_nat (Z.log2 a))) a) in
    Ok ((if value <? 0 then lit "menos " else []) ++ words).

Definition num2words_es : Num2Words := {| num2words := to_cardinal |}.

(** ** The properties as the specification words them

    Definitions that follow the wording of the specification where it
    differs from the code; each is compared with the code below. *)

Section SpecificationWording.
Context {U : UnicodeData}.

(** The normalized key with the canonical decomposition the specification
    names, in place of the compatibility decomposition of [normalize] *)
Definition canonical_key (text : PyValue) : pystr :=
  lower
    (remove_whitespace (filter (fun c => combining c =? 0) (nfd (str text)))).

(** The first label whose canonical key is an alias *)
Definition first_by_canonical_key (columns : list PyValue) : option PyValue :=
  find (fun column => existsb (pystr_eqb (canonical_key column)) COLUMN_ALIASES)
    columns.

End SpecificationWording.

(** A decimal number with [.] as the decimal point, as the specification
    words it: an optional sign, then digits with at most one point among
    them, and at least one digit. *)
Definition decimal_number (s : pystr) : bool :=
  let body := snd (split_sign s) in
  forallb (fun c => is_digit c || (c =? 46)) body
  && (length (filter (Z.eqb 46) body) <=? 1)%nat
  && existsb is_digit body.

(** A combining mark, as the specification words it, is a character of the
    general categories Mn, Mc and Me.  Of those, the two blocks of combining
    diacritical marks, U+0300 to U+036F and, for symbols, U+20D0 to U+20F0,
    every character of which is a mark. *)
Definition combining_mark (c : codepoint) : bool :=
  ((768 <=? c) && (c <=? 879)) || ((8400 <=? c) && (c <=? 8432)).

(** The words of a text, split at single spaces, and their join *)
Definition join_words (ws : list pystr) : pystr :=
  match ws with
  | [] => []
  | w :: rest => w ++ flat_map (cons 32) rest
  end.

Fixpoint split_words (word s : pystr) : list pystr :=
  match s with
  | [] => [rev word]
  | c :: r =>
      if c =? 32 then rev word :: split_words [] r
      else split_words (c :: word) r
  end.

(** The replacement as the specification words it: every word that is
    exactly [UNO] becomes [UN], and nothing else changes. *)
Definition whole_word_uno_a_un (texto_numero : pystr) : pystr :=
  join_words
    (map (fun w => if pystr_eqb w (lit "UNO") then lit "UN" else w)
       (split_words [] texto_numero)).

(** What the three replacements do to the words of a text.  In a word that
    is [UNO] or ends in [UNO], the final [O] goes: *)
Fixpoint drop_final_O (w : pystr) : pystr :=
  match w with
  | [] => []
  | c :: r => if pystr_eqb w (lit "UNO") then lit "UN" else c :: drop_final_O r
  end.

(** in a word that begins with [UNO], the [O] goes: *)
Definition drop_leading_O (w : pystr) : pystr :=
  if startswith (lit "UNO") w then lit "UN" ++ skipn 3 w else w.

Fixpoint but_last (f : pystr -> pystr) (ws : list pystr) : list pystr :=
  match ws with
  | [] => []
  | [w] => [w]
  | w :: rest => f w :: but_last f rest
  end.

Definition but_first (f : pystr -> pystr) (ws : list pystr) : list pystr :=
  match ws with
  | [] => []
  | w :: rest => w :: map f rest
  end.

(** The first applies to every word but the last, the second, after it, to
    every word but the first. *)
Definition un_words (ws : list pystr) : list pystr :=
  but_first drop_leading_O (but_last drop_final_O ws).

(** Every letter [M] of the text begins one of the symbols [MXN], [M.N.]
    and [MN]. *)
Fixpoint every_M_begins_a_symbol (s : pystr) : bool :=
  match s with
  | [] => true
  | c :: r =>
      (negb (c =? 77)
       || startswith (lit "MXN") s || startswith (lit "M.N.") s
       || startswith (lit "MN") s)
      && every_M_begins_a_symbol r
  end.

(** [t in s] for two strings *)
Fixpoint contains (s t : pystr) : bool :=
  startswith t s
  || match s with
     | [] => false
     | _ :: r => contains r t
     end.

(** ** Vocabulary of the proofs *)

(** Boolean comparisons on [Z] as linear arithmetic *)
Ltac bool_lia :=
  rewrite ?orb_true_iff, ?andb_true_iff, ?orb_false_iff, ?andb_false_iff,
    ?negb_true_iff, ?negb_false_iff, ?Z.eqb_eq, ?Z.eqb_neq, ?Z.leb_le,
    ?Z.leb_gt, ?Z.ltb_lt, ?Z.ltb_ge in *;
  lia.

(** The characters of the text of a number: digits, signs, the point, and
    the letters of [e], [inf] and [nan]. *)
Definition number_char (c : codepoint) : bool :=
  is_digit c || (c =? 43) || (c =? 45) || (c =? 46) || (c =? 101)
  || (c =? 105) || (c =? 110) || (c =? 102) || (c =? 97).

(** A text begins and ends with characters that [sp] does not hold of. *)
Definition clean_ends (sp : codepoint -> bool) (m : pystr) : Prop :=
  (exists a t, m = a :: t /\ sp a = false)
  /\ (exists t d, m = t ++ [d] /\ sp d = false).

(** The characters a text that [float()] reads is made of, underscores
    aside, are ASCII, no white space and no question mark. *)
Definition literal_char (c : codepoint) : bool :=
  (c <? 127) && negb (Py_UNICODE_ISSPACE c) && negb (c =? 63).

(** The quotient the rounding of floats starts from: [m] is the integer part
    of [N / D], and the location [l] says where [N / D] lies between [m] and
    [m + 1] (on [m], below the middle, on it, above it). *)
Definition located (N D m : Z) (l : location) : Prop :=
  match l with
  | loc_Exact => N = D * m
  | loc_Inexact Lt => D * m < N /\ 2 * N < D * (2 * m + 1)
  | loc_Inexact Eq => 2 * N = D * (2 * m + 1)
  | loc_Inexact Gt => D * (2 * m + 1) < 2 * N /\ N < D * (m + 1)
  end.

(** A character that stands in no currency symbol *)
Definition plain (c : codepoint) : Prop :=
  forall t, In t CURRENCY_SYMBOLS -> ~ In c t.

(** The symbols that begin with [M] *)
Definition M_SYMBOLS : list pystr := [lit "MXN"; lit "M.N."; lit "MN"].

(** A text in which every [M] begins a symbol is a sequence of pieces: a
    character other than [M], or one of the symbols that begin with [M]. *)
Inductive piece :=
| Char (c : codepoint)
| Symbol (t : pystr).

Definition piece_text (p : piece) : pystr :=
  match p with
  | Char c => [c]
  | Symbol t => t
  end.

Definition well_formed (p : piece) : Prop :=
  match p with
  | Char c => c <> 77
  | Symbol t => In t M_SYMBOLS
  end.

Definition flatten (l : list piece) : pystr := flat_map piece_text l.

(** The pieces that stripping the symbol [t] removes *)
Definition removed_by (t : pystr) (p : piece) : bool := pystr_eqb t (piece_text p).

(** The words after the first one, each with the space before it *)
Definition tails (rest : list pystr) : pystr := flat_map (cons 32) rest.

Definition no_space (w : pystr) : Prop := ~ In 32 w.

(** The words after the first one, once [ UNO ] is replaced: an [UNO]
    followed by another word becomes [UN], and the scan goes on after the
    space that follows it, so the next word is passed over. *)
Fixpoint replaced_between (rest : list pystr) : list pystr :=
  match rest with
  | [] => []
  | u :: rest' =>
      match rest' with
      | [] => [u]
      | v :: rest'' =>
          if pystr_eqb u [85; 78; 79]
          then [85; 78] :: v :: replaced_between rest''
          else u :: replaced_between rest'
      end
  end.

Section ProofVocabulary.
Context {U : UnicodeData}.

(** The normalized key of a label is an alias. *)
Definition is_alias (column : PyValue) : bool :=
  existsb (pystr_eqb (normalize column)) COLUMN_ALIASES.

(** What [_PyUnicode_TransformDecimalAndSpaceToASCII] makes of one
    character; a question mark where it cuts the text. *)
Definition ascii_image (c : codepoint) : codepoint :=
  if c <? 127 then c
  else if Py_UNICODE_ISSPACE c then 32
  else
    match Py_UNICODE_TODECIMAL c with
    | Some d => 48 + d
    | None => 63
    end.

(** A character that [normalize] keeps as it is before the lower case: it
    is its own compatibility decomposition, has class 0 and is no white
    space. *)
Definition decomposed_starter (c : codepoint) : Prop :=
  compat_decomposition c = [c] /\ combining c = 0
  /\ Py_UNICODE_ISSPACE c = false.

(** A character that [normalize] keeps as it is: in addition it is its own
    lower case. *)
Definition settled (c : codepoint) : Prop :=
  decomposed_starter c /\ tolower_full c = [c] /\ c <> 931.

(** What the idempotence of [normalize] uses of the Unicode database, for
    the characters outside ASCII: a compatibility decomposition is made of
    characters that do not decompose further, and the lower case of a
    decomposed character of class 0 that is no white space is made of such
    characters, which are their own lower case. *)
Definition unicode_stable : Prop :=
  (forall c d, is_ascii c = false -> In d (unicode_compat c) ->
               compat_decomposition d = [d])
  /\ (forall c, is_ascii c = false -> decomposed_starter c -> c <> 931 ->
                Forall settled (unicode_lower c))
  /\ settled 962 /\ settled 963.

End ProofVocabulary.

(** The stability of the part of the database defined above, as a check
    of its entries *)
Definition decomposed_b (d : codepoint) : bool :=
  pystr_eqb (@compat_decomposition ucd_part d) [d].

Definition starter_b (c : codepoint) : bool :=
  decomposed_b c && (@combining ucd_part c =? 0)
  && negb (Py_UNICODE_ISSPACE c).

Definition settled_b (c : codepoint) : bool :=
  starter_b c && pystr_eqb (@tolower_full ucd_part c) [c] && negb (c =? 931).

Definition stable_entry (ce : codepoint * ucd_entry) : bool :=
  let '(c, e) := ce in
  forallb decomposed_b (entry_compat e)
  && (if starter_b c && negb (c =? 931)
      then forallb settled_b (entry_lower e)
      else true).

(** * Properties *)

(** ** Lists and strings *)

Lemma pystr_eqb_eq (a b : pystr) : pystr_eqb a b = true <-> a = b.
Proof.
  unfold pystr_eqb. destruct (list_eq_dec Z.eq_dec a b); split; congruence.
Qed.

Lemma pystr_eqb_refl (a : pystr) : pystr_eqb a a = true.
Proof. now apply pystr_eqb_eq. Qed.

Lemma startswith_app (p r : pystr) : startswith p (p ++ r) = true.
Proof.
  induction p as [|a p IH]; simpl.
  - reflexivity.
  - now rewrite Z.eqb_refl, IH.
Qed.

Lemma startswith_inv (p s : pystr) :
  startswith p s = true -> exists r, s = p ++ r.
Proof.
  revert s. induction p as [|a p IH]; intros s H.
  - now exists s.
  - destruct s as [|b s]; simpl in H; [discriminate|].
    apply andb_true_iff in H as [Hab Hps].
    apply Z.eqb_eq in Hab. subst b.
    destruct (IH _ Hps) as [r ->]. now exists r.
Qed.

(** A matched occurrence is passed over in full. *)
Lemma replace_from_skip (old new x y : pystr) :
  replace_from old new (length x) (x ++ y) = replace_from old new 0 y.
Proof.
  induction x as [|c x IH]; simpl.
  - now destruct y.
  - exact IH.
Qed.

Lemma replace_from_match (old new rest : pystr) (c : codepoint) (o : pystr) :
  old = c :: o ->
  replace_from old new 0 (old ++ rest) = new ++ replace_from old new 0 rest.
Proof.
  intros ->. cbn [app replace_from].
  change (c :: o ++ rest) with ((c :: o) ++ rest).
  rewrite startswith_app. cbn [length Nat.pred].
  now rewrite replace_from_skip.
Qed.

Lemma replace_from_nomatch (old new : pystr) (c : codepoint) (s : pystr) :
  startswith old (c :: s) = false ->
  replace_from old new 0 (c :: s) = c :: replace_from old new 0 s.
Proof. intros H. cbn [replace_from]. now rewrite H. Qed.

(** ** The column resolver *)

Section Resolver.
Context {U : UnicodeData}.

Lemma find_num_column_find (columns : list PyValue) :
  find_num_column columns = find is_alias columns.
Proof.
  induction columns as [|c cs IH]; simpl.
  - reflexivity.
  - fold (is_alias c). now rewrite IH.
Qed.

Lemma find_first (A : Type) (f : A -> bool) (l : list A) :
  match find f l with
  | Some x =>
      exists before after,
        l = before ++ x :: after /\ f x = true
        /\ Forall (fun y => f y = false) before
  | None => Forall (fun y => f y = false) l
  end.
Proof.
  induction l as [|a l IH]; simpl.
  - constructor.
  - destruct (f a) eqn:Ha.
    + exists [], l. repeat split; auto.
    + destruct (find f l) as [x|].
      * destruct IH as (b & t & -> & Hx & Hb).
        exists (a :: b), t. repeat split; auto.
      * now constructor.
Qed.

(** Moving the marks into canonical order leaves the characters of class 0
    where they are. *)
Lemma filter_insert_mark (c : codepoint) (before : pystr) :
  (combining c =? 0) = false ->
  filter (fun c => combining c =? 0) (insert_mark c before)
  = filter (fun c => combining c =? 0) before.
Proof.
  intros Hc. induction before as [|d r IH]; simpl.
  - now rewrite Hc.
  - destruct ((combining d =? 0) || (combining d <=? combining c)); simpl.
    + now rewrite Hc.
    + now rewrite IH.
Qed.

Lemma filter_canonical_order (s : pystr) :
  filter (fun c => combining c =? 0) (canonical_order s)
  = filter (fun c => combining c =? 0) s.
Proof.
  unfold canonical_order.
  enough (H : forall acc,
    filter (fun c => combining c =? 0)
      (rev (fold_left
              (fun before c =>
                 if combining c =? 0 then c :: before else insert_mark c before)
              s acc))
    = filter (fun c => combining c =? 0) (rev acc)
      ++ filter (fun c => combining c =? 0) s) by apply (H []).
  induction s as [|c s IH]; intros acc; simpl.
  - now rewrite app_nil_r.
  - rewrite IH. destruct (combining c =? 0) eqn:Hc.
    + simpl. rewrite filter_app. simpl. rewrite Hc. now rewrite <- app_assoc.
    + f_equal. rewrite !filter_rev. now rewrite filter_insert_mark.
Qed.

(** The normalized key of [normalize], written out: the characters of the
    compatibility decompositions that have class 0 and are no white space,
    in lower case. *)
Lemma normalize_key (text : PyValue) :
  normalize text
  = lower
      (filter (fun c => negb (Py_UNICODE_ISSPACE c))
         (filter (fun c => combining c =? 0)
            (flat_map compat_decomposition (str text)))).
Proof.
  unfold normalize, nfkd, remove_whitespace. now rewrite filter_canonical_order.
Qed.

End Resolver.

(** C9. When [find_num_column] returns a label, that label is one of the
    column labels it was given, unchanged: it is the value the caller can
    index the dataset with, not the normalized key. *)
Theorem find_num_column_returns_label
  (U : UnicodeData) (columns : list PyValue) (label : PyValue) :
  find_num_column columns = Some label -> In label columns.
Proof.
  rewrite find_num_column_find. intros H.
  now apply find_some in H as [Hin _].
Qed.

(** On the columns [Fecha], [Número], [Num], the label returned is the
    accented [Número] itself. *)
Lemma find_num_column_returns_label_witness :
  @find_num_column ucd_part
    [PyStr (lit "Fecha"); PyStr (lit "Número"); PyStr (lit "Num")]
  = Some (PyStr (lit "Número"))
  /\ In (PyStr (lit "Número"))
       [PyStr (lit "Fecha"); PyStr (lit "Número"); PyStr (lit "Num")].
Proof.
  split.
  - vm_compute. reflexivity.
  - apply (find_num_column_returns_label ucd_part _ _).
    vm_compute. reflexivity.
Defined.

(** C4, as the specification words it, fails: the label of fullwidth
    letters [ｎｕｍ] has no canonical decomposition, so its canonical key is
    no alias, yet [find_num_column] returns it, because [normalize] takes
    the compatibility decomposition. *)
Lemma find_num_column_not_canonical :
  @find_num_column ucd_part [PyStr (lit "ｎｕｍ")] = Some (PyStr (lit "ｎｕｍ"))
  /\ @first_by_canonical_key ucd_part [PyStr (lit "ｎｕｍ")] = None
  /\ @find_num_column ucd_part [PyStr (lit "ｎｕｍ")]
     <> @first_by_canonical_key ucd_part [PyStr (lit "ｎｕｍ")].
Proof.
  refine (conj _ (conj _ _)); vm_compute; [reflexivity|reflexivity|discriminate].
Qed.

(** C4, amended.  [find_num_column] returns the first label, in the order of
    the columns, whose normalized key is one of the aliases [numero] and
    [num], and returns none when no label has such a key; the key is the
    lower case of the characters of the compatibility decomposition (NFKD)
    of the label that have canonical combining class 0 and are no white
    space. *)
Theorem find_num_column_first_match (U : UnicodeData) (columns : list PyValue) :
  (forall column,
     normalize column
     = lower
         (filter (fun c => negb (Py_UNICODE_ISSPACE c))
            (filter (fun c => combining c =? 0)
               (flat_map compat_decomposition (str column)))))
  /\ match find_num_column columns with
     | Some label =>
         exists before after,
           columns = before ++ label :: after
           /\ In (normalize label) COLUMN_ALIASES
           /\ Forall (fun c => ~ In (normalize c) COLUMN_ALIASES) before
     | None => Forall (fun c => ~ In (normalize c) COLUMN_ALIASES) columns
     end.
Proof.
  assert (Hal : forall c, is_alias c = true <-> In (normalize c) COLUMN_ALIASES).
  { intros c. unfold is_alias. rewrite existsb_exists. split.
    - intros (a & Ha & He). apply pystr_eqb_eq in He. now subst.
    - intros Hin. exists (normalize c). split; [exact Hin|apply pystr_eqb_refl]. }
  assert (Hno : forall l, Forall (fun y => is_alias y = false) l ->
                          Forall (fun c => ~ In (normalize c) COLUMN_ALIASES) l).
  { intros l Hl. eapply Forall_impl; [|exact Hl].
    intros c Hc Hin. apply Hal in Hin. congruence. }
  split; [apply normalize_key|].
  rewrite find_num_column_find.
  pose proof (find_first _ is_alias columns) as H.
  destruct (find is_alias columns) as [label|].
  - destruct H as (b & t & -> & Hx & Hb).
    exists b, t. repeat split; [now apply Hal|now apply Hno].
  - now apply Hno.
Qed.

(** ** White space at the ends of a text *)

Lemma lstrip_split (s : pystr) :
  exists w, s = w ++ lstrip s /\ Forall (fun c => Py_UNICODE_ISSPACE c = true) w.
Proof.
  induction s as [|c s IH]; simpl.
  - now exists [].
  - destruct (Py_UNICODE_ISSPACE c) eqn:Hc.
    + destruct IH as (w & Hs & Hw). exists (c :: w). split.
      * simpl. now rewrite <- Hs.
      * now constructor.
    + now exists [].
Qed.

Lemma rstrip_split (s : pystr) :
  exists w, s = rstrip s ++ w /\ Forall (fun c => Py_UNICODE_ISSPACE c = true) w.
Proof.
  unfold rstrip. destruct (lstrip_split (rev s)) as (w & Hs & Hw).
  exists (rev w). split.
  - rewrite <- rev_app_distr, <- Hs. now rewrite rev_involutive.
  - now apply Forall_rev.
Qed.

Lemma lstrip_head (c : codepoint) (s : pystr) :
  Py_UNICODE_ISSPACE c = false -> lstrip (c :: s) = c :: s.
Proof. intros H. simpl. now rewrite H. Qed.

Lemma lstrip_spaces (w s : pystr) :
  Forall (fun c => Py_UNICODE_ISSPACE c = true) w -> lstrip (w ++ s) = lstrip s.
Proof.
  induction 1 as [|c w Hc _ IH]; simpl.
  - reflexivity.
  - now rewrite Hc.
Qed.

(** ** The order of the currency symbols *)

Lemma every_M_suffix (x y : pystr) :
  every_M_begins_a_symbol (x ++ y) = true -> every_M_begins_a_symbol y = true.
Proof.
  induction x as [|c x IH]; [auto|].
  cbn [app every_M_begins_a_symbol]. intros H.
  apply andb_true_iff in H as [_ H]. auto.
Qed.

Lemma pieces_of_text (n : nat) (s : pystr) :
  (length s <= n)%nat -> every_M_begins_a_symbol s = true ->
  exists l, Forall well_formed l /\ s = flatten l.
Proof.
  revert s. induction n as [|n IH]; intros s Hn H.
  - destruct s; [|simpl in Hn; lia]. now exists [].
  - destruct s as [|c r]; [now exists []|].
    cbn [every_M_begins_a_symbol] in H.
    apply andb_true_iff in H as [Hc Hr].
    simpl in Hn.
    destruct (c =? 77) eqn:Hc77.
    + assert (Hsym : exists t r', In t M_SYMBOLS /\ c :: r = t ++ r').
      { cbn [negb orb] in Hc. apply orb_true_iff in Hc as [Hc|Hc];
          [apply orb_true_iff in Hc as [Hc|Hc]|];
          apply startswith_inv in Hc as [r' Hr']; eexists; exists r';
          (split; [|exact Hr']); simpl; auto. }
      destruct Hsym as (t & r' & Ht & Hs).
      assert (Ht' : exists t0 t', t = t0 :: t').
      { simpl in Ht. destruct Ht as [<-|[<-|[<-|[]]]]; eauto. }
      destruct Ht' as (t0 & t' & Et).
      assert (Hr0 : r = t' ++ r').
      { rewrite Et in Hs. simpl in Hs. now injection Hs. }
      assert (Hlen : (length r' <= n)%nat).
      { apply (f_equal (@length _)) in Hr0. rewrite length_app in Hr0. lia. }
      assert (Hr'' : every_M_begins_a_symbol r' = true).
      { rewrite Hr0 in Hr. now apply every_M_suffix in Hr. }
      destruct (IH r' Hlen Hr'') as (l & Hl & ->).
      exists (Symbol t :: l). split; [now constructor|exact Hs].
    + destruct (IH r ltac:(lia) Hr) as (l & Hl & ->).
      exists (Char c :: l). split; [|reflexivity].
      constructor; [|exact Hl]. simpl. intros ->. discriminate.
Qed.

Lemma removed_by_single (c0 c : codepoint) :
  removed_by [c0] (Char c) = (c0 =? c).
Proof.
  unfold removed_by. cbn [piece_text]. destruct (c0 =? c) eqn:E.
  - apply Z.eqb_eq in E. subst. apply pystr_eqb_refl.
  - destruct (pystr_eqb [c0] [c]) eqn:P; [|reflexivity].
    apply pystr_eqb_eq in P. injection P as ->.
    now rewrite Z.eqb_refl in E.
Qed.

Lemma removed_by_long (t : pystr) (c : codepoint) :
  length t <> 1%nat -> removed_by t (Char c) = false.
Proof.
  intros Hl. unfold removed_by. cbn [piece_text].
  destruct (pystr_eqb t [c]) eqn:P; [|reflexivity].
  apply pystr_eqb_eq in P. now subst.
Qed.

(** Stripping one symbol removes the pieces equal to it and nothing else. *)
Lemma replace_pieces (t : pystr) (l : list piece) :
  In t CURRENCY_SYMBOLS -> Forall well_formed l ->
  replace (flatten l) t []
  = flatten (filter (fun p => negb (removed_by t p)) l).
Proof.
  intros Ht Hl.
  assert (Hrep : forall s, replace s t [] = replace_from t [] 0 s).
  { intros s. unfold replace.
    simpl in Ht. destruct Ht as [<-|[<-|[<-|[<-|[<-|[]]]]]]; reflexivity. }
  rewrite Hrep. induction Hl as [|p l Hp _ IH]; [reflexivity|].
  cbn [flatten flat_map filter]. fold (flatten l).
  destruct p as [c|t'].
  - (* a character other than M *)
    simpl in Hp. cbn [piece_text app].
    assert (Hc : (77 =? c) = false) by (apply Z.eqb_neq; congruence).
    simpl in Ht. destruct Ht as [<-|[<-|[<-|[<-|[<-|[]]]]]].
    + (* $ *)
      cbn [replace_from startswith]. rewrite removed_by_single, andb_true_r.
      destruct (36 =? c); cbn; now rewrite IH.
    + rewrite removed_by_long by (simpl; lia).
      cbn [replace_from startswith]. rewrite Hc. cbn. now rewrite IH.
    + rewrite removed_by_long by (simpl; lia).
      cbn [replace_from startswith]. rewrite Hc. cbn. now rewrite IH.
    + rewrite removed_by_long by (simpl; lia).
      cbn [replace_from startswith]. rewrite Hc. cbn. now rewrite IH.
    + (* , *)
      cbn [replace_from startswith]. rewrite removed_by_single, andb_true_r.
      destruct (44 =? c); cbn; now rewrite IH.
  - (* one of the symbols that begin with M *)
    simpl in Hp. cbn [piece_text].
    simpl in Ht.
    destruct Hp as [<-|[<-|[<-|[]]]];
      destruct Ht as [<-|[<-|[<-|[<-|[<-|[]]]]]];
      cbn; rewrite ?IH; reflexivity.
Qed.

Lemma filter_filter_pieces (f g : piece -> bool) (l : list piece) :
  filter f (filter g l) = filter (fun p => g p && f p) l.
Proof.
  induction l as [|p l IH]; simpl; [reflexivity|].
  destruct (g p); simpl; [destruct (f p)|]; now rewrite IH.
Qed.

Lemma Forall_filter_pieces (f : piece -> bool) (l : list piece) :
  Forall well_formed l -> Forall well_formed (filter f l).
Proof.
  induction 1 as [|p l Hp _ IH]; simpl; [constructor|].
  destruct (f p); [now constructor|exact IH].
Qed.

(** Stripping a list of symbols removes the pieces equal to one of them. *)
Lemma strip_symbols_pieces (order : list pystr) (l : list piece) :
  (forall t, In t order -> In t CURRENCY_SYMBOLS) -> Forall well_formed l ->
  strip_symbols order (flatten l)
  = flatten (filter (fun p => negb (existsb (fun t => removed_by t p) order)) l).
Proof.
  revert l. induction order as [|t order IH]; intros l Hin Hl.
  - simpl. f_equal. symmetry. apply forallb_filter_id.
    apply forallb_forall. reflexivity.
  - unfold strip_symbols in *. cbn [fold_left].
    rewrite replace_pieces; [|apply Hin; now left|exact Hl].
    rewrite IH; [|intros; apply Hin; now right|now apply Forall_filter_pieces].
    rewrite filter_filter_pieces. f_equal. apply filter_ext.
    intros p. cbn [existsb]. now rewrite negb_orb.
Qed.

Lemma existsb_permutation (A : Type) (f : A -> bool) (l l' : list A) :
  Permutation l l' -> existsb f l = existsb f l'.
Proof.
  intros HP. apply eq_true_iff_eq. rewrite !existsb_exists.
  split; intros (x & Hx & Hf); exists x; split; auto.
  - eapply Permutation_in; eauto.
  - eapply Permutation_in; [apply Permutation_sym|]; eauto.
Qed.

Lemma strip_symbols_permutation (order : list pystr) (s : pystr) :
  every_M_begins_a_symbol s = true -> Permutation order CURRENCY_SYMBOLS ->
  strip_symbols order s = strip_symbols CURRENCY_SYMBOLS s.
Proof.
  intros Hs HP.
  destruct (pieces_of_text (length s) s (le_n _) Hs) as (l & Hl & ->).
  rewrite !strip_symbols_pieces; auto.
  - f_equal. apply filter_ext. intros p. f_equal.
    now apply existsb_permutation.
  - intros t Ht. eapply Permutation_in; eauto.
Qed.

Lemma startswith_before_spaces (t a w : pystr) :
  Forall (fun c => Py_UNICODE_ISSPACE c = false) t ->
  Forall (fun c => Py_UNICODE_ISSPACE c = true) w ->
  startswith t (a ++ w) = true -> startswith t a = true.
Proof.
  intros Ht Hw. revert a. induction Ht as [|c t Hc _ IH]; intros a H.
  - reflexivity.
  - destruct a as [|b a].
    + destruct Hw as [|d w Hd _]; simpl in H; [discriminate|].
      apply andb_true_iff in H as [E _]. apply Z.eqb_eq in E. congruence.
    + simpl in *. apply andb_true_iff in H as [E H].
      rewrite E. simpl. now apply IH.
Qed.

Lemma every_M_before_spaces (x w : pystr) :
  Forall (fun c => Py_UNICODE_ISSPACE c = true) w ->
  every_M_begins_a_symbol (x ++ w) = true -> every_M_begins_a_symbol x = true.
Proof.
  intros Hw. induction x as [|c x IH]; [reflexivity|].
  cbn [app every_M_begins_a_symbol]. intros H.
  apply andb_true_iff in H as [Hc Hr].
  apply andb_true_iff. split; [|now apply IH].
  change (c :: x ++ w) with ((c :: x) ++ w) in Hc.
  destruct (negb (c =? 77)); [reflexivity|]. cbn [orb] in *.
  apply orb_true_iff in Hc as [Hc|Hc]; [apply orb_true_iff in Hc as [Hc|Hc]|];
    apply startswith_before_spaces in Hc; auto;
    try (rewrite Hc; now rewrite ?orb_true_r);
    repeat constructor.
Qed.

Lemma every_M_strip (s : pystr) :
  every_M_begins_a_symbol s = true -> every_M_begins_a_symbol (strip s) = true.
Proof.
  intros H. unfold strip.
  destruct (lstrip_split s) as (w & Hs & _).
  rewrite Hs in H. apply every_M_suffix in H.
  destruct (rstrip_split (lstrip s)) as (w' & Hs' & Hw').
  rewrite Hs' in H. now apply every_M_before_spaces in H.
Qed.

(** C3, as stated, fails: on the text [M,N] the order of the code leaves
    [MN], which [clean_num] rejects, and the order that strips the comma
    first leaves nothing, which [clean_num] takes as no value. *)
Lemma strip_symbols_order_matters :
  exists order s,
    Permutation order CURRENCY_SYMBOLS
    /\ strip_symbols order s <> strip_symbols CURRENCY_SYMBOLS s
    /\ @clean_num_with ucd_part order (PyStr s) <> @clean_num ucd_part (PyStr s).
Proof.
  exists [lit ","; lit "$"; lit "MXN"; lit "M.N."; lit "MN"], (lit "M,N").
  split; [|split].
  - exact (Permutation_cons_append [lit "$"; lit "MXN"; lit "M.N."; lit "MN"] (lit ",")).
  - vm_compute. discriminate.
  - vm_compute. discriminate.
Qed.

(** C3, amended.  For every input string in which every letter [M] begins
    one of the symbols [MXN], [M.N.] and [MN] (every string without an [M]
    among them), stripping the five symbols once each, in any order, gives
    the cleaned string of the order the code uses, and so the same result of
    [clean_num]. *)
Theorem strip_symbols_any_order
  (U : UnicodeData) (order : list pystr) (s : pystr) :
  every_M_begins_a_symbol s = true ->
  Permutation order CURRENCY_SYMBOLS ->
  strip_symbols order s = strip_symbols CURRENCY_SYMBOLS s
  /\ clean_num_with order (PyStr s) = clean_num (PyStr s).
Proof.
  intros Hs HP. split; [now apply strip_symbols_permutation|].
  unfold clean_num, clean_num_with, cleaned_with. cbn [str].
  rewrite (strip_symbols_permutation order (strip s)); auto.
  now apply every_M_strip.
Qed.

(** The amount [$1,234.56 MXN], with the comma stripped first. *)
Lemma strip_symbols_any_order_witness :
  strip_symbols [lit ","; lit "$"; lit "MXN"; lit "M.N."; lit "MN"]
    (lit "$1,234.56 MXN")
  = strip_symbols CURRENCY_SYMBOLS (lit "$1,234.56 MXN")
  /\ @clean_num_with ucd_part [lit ","; lit "$"; lit "MXN"; lit "M.N."; lit "MN"]
       (PyStr (lit "$1,234.56 MXN"))
     = @clean_num ucd_part (PyStr (lit "$1,234.56 MXN")).
Proof.
  apply (strip_symbols_any_order ucd_part).
  - vm_compute. reflexivity.
  - exact (Permutation_cons_append [lit "$"; lit "MXN"; lit "M.N."; lit "MN"] (lit ",")).
Defined.

(** ** The renderer on the reference inputs *)

Lemma float_literals (U : UnicodeData) :
  float_of_str (lit "1523.45") = Ok float_1523_45
  /\ float_repr float_1523_45 = lit "1523.45"
  /\ float_of_str (lit "1234.56") = Ok float_1234_56
  /\ float_repr float_1234_56 = lit "1234.56".
Proof.
  refine (conj _ (conj _ (conj _ _))); vm_compute; reflexivity.
Qed.

Lemma upper_app (U : UnicodeData) (a b : pystr) :
  upper (a ++ b) = upper a ++ upper b.
Proof. unfold upper. apply flat_map_app. Qed.

(** C7. On the reference inputs of the specification the renderer returns
    [UN PESO 00/100 M.N.] for 1, [CERO PESOS 00/100 M.N.] for 0,
    [MIL QUINIENTOS VEINTITRÉS PESOS 45/100 M.N.] for 1523.45, and the empty
    string for the empty string, for [None] and for a string of spaces.  What
    is used of [num2words] is that it returns some text for 1, [cero] for 0
    and [mil quinientos veintitrés] for 1523, and of the Unicode database that
    the upper case of [é] is [É]. *)
Theorem numero_a_texto_reference_inputs
  (U : UnicodeData) (N : Num2Words) (uno : pystr) :
  num2words 1 = Ok uno ->
  num2words 0 = Ok (lit "cero") ->
  num2words 1523 = Ok (lit "mil quinientos veintitrés") ->
  unicode_upper 233 = [201] ->
  numero_a_texto (PyInt 1) = Ok (lit "UN PESO 00/100 M.N.")
  /\ numero_a_texto (PyInt 0) = Ok (lit "CERO PESOS 00/100 M.N.")
  /\ numero_a_texto (PyFloat float_1523_45)
     = Ok (lit "MIL QUINIENTOS VEINTITRÉS PESOS 45/100 M.N.")
  /\ numero_a_texto (PyStr []) = Ok []
  /\ numero_a_texto PyNone = Ok []
  /\ numero_a_texto (PyStr (lit "   ")) = Ok [].
Proof.
  intros H1 H0 H1523 Hup.
  assert (C1 : clean_num (PyInt 1) = Ok (Some (S754_finite false 4503599627370496 (-52))))
    by (vm_compute; reflexivity).
  assert (C0 : clean_num (PyInt 0) = Ok (Some (S754_zero false)))
    by (vm_compute; reflexivity).
  assert (CF : clean_num (PyFloat float_1523_45) = Ok (Some float_1523_45))
    by (vm_compute; reflexivity).
  assert (CS : clean_num (PyStr (lit "   ")) = Ok None)
    by (vm_compute; reflexivity).
  assert (Hu : upper (lit "mil quinientos veintitrés")
               = lit "MIL QUINIENTOS VEINTITRÉS").
  { change (lit "mil quinientos veintitrés")
      with (lit "mil quinientos veintitr" ++ [233] ++ lit "s").
    rewrite !upper_app.
    replace (upper [233]) with [201].
    - vm_compute. reflexivity.
    - unfold upper. cbn [flat_map]. rewrite app_nil_r.
      unfold toupper_full. cbn. now rewrite Hup. }
  unfold numero_a_texto, numero_a_texto_body.
  refine (conj _ (conj _ (conj _ (conj _ (conj _ _))))).
  - rewrite C1. cbn [bind].
    replace (float_trunc (S754_finite false 4503599627370496 (-52)))
      with (@Ok Z 1) by (vm_compute; reflexivity).
    cbn [bind].
    replace (parte_decimal_de (S754_finite false 4503599627370496 (-52)) 1)
      with (@Ok Z 0) by (vm_compute; reflexivity).
    cbn [bind]. rewrite H1. cbn [bind]. vm_compute. reflexivity.
  - rewrite C0. cbn [bind float_trunc].
    replace (parte_decimal_de (S754_zero false) 0)
      with (@Ok Z 0) by (vm_compute; reflexivity).
    cbn [bind]. rewrite H0. cbn [bind].
    replace (upper (lit "cero")) with (lit "CERO") by (vm_compute; reflexivity).
    vm_compute. reflexivity.
  - rewrite CF. cbn [bind].
    replace (float_trunc float_1523_45) with (@Ok Z 1523)
      by (vm_compute; reflexivity).
    cbn [bind].
    replace (parte_decimal_de float_1523_45 1523) with (@Ok Z 45)
      by (vm_compute; reflexivity).
    cbn [bind]. rewrite H1523. cbn [bind]. rewrite Hu.
    vm_compute. reflexivity.
  - reflexivity.
  - reflexivity.
  - fold (clean_num (PyStr (lit "   "))). rewrite CS. reflexivity.
Qed.

(** The reference inputs under the model of [num2words] and the part of the
    Unicode database defined above. *)
Lemma numero_a_texto_reference_inputs_witness :
  @numero_a_texto ucd_part num2words_es (PyInt 1) = Ok (lit "UN PESO 00/100 M.N.")
  /\ @numero_a_texto ucd_part num2words_es (PyInt 0)
     = Ok (lit "CERO PESOS 00/100 M.N.")
  /\ @numero_a_texto ucd_part num2words_es (PyFloat float_1523_45)
     = Ok (lit "MIL QUINIENTOS VEINTITRÉS PESOS 45/100 M.N.")
  /\ @numero_a_texto ucd_part num2words_es (PyStr []) = Ok []
  /\ @numero_a_texto ucd_part num2words_es PyNone = Ok []
  /\ @numero_a_texto ucd_part num2words_es (PyStr (lit "   ")) = Ok [].
Proof.
  apply (numero_a_texto_reference_inputs ucd_part num2words_es (lit "uno"));
    vm_compute; reflexivity.
Defined.

(** ** Cents outside 00..99, and an exception that escapes *)

(** C1 at the failing inputs.  The text [0.999] is accepted as the amount
    0.999, its integer part is 0 and its cent part rounds to 100, which is
    rendered with three digits; the text [-1.5] is accepted as -1.5, its
    integer part is -1 and its cent part is -50, rendered with a sign.  Under
    the model of [num2words] the phrases are [CERO PESOS 100/100 M.N.] and
    [MENOS UN PESOS -50/100 M.N.]. *)
Theorem parte_decimal_outside_0_99 (U : UnicodeData) :
  (exists numero,
     clean_num (PyStr (lit "0.999")) = Ok (Some numero)
     /\ float_trunc numero = Ok 0
     /\ parte_decimal_de numero 0 = Ok 100
     /\ sufijo_centavos_de 100 = lit "100/100 M.N.")
  /\ (exists numero,
        clean_num (PyStr (lit "-1.5")) = Ok (Some numero)
        /\ float_trunc numero = Ok (-1)
        /\ parte_decimal_de numero (-1) = Ok (-50)
        /\ sufijo_centavos_de (-50) = lit "-50/100 M.N.")
  /\ @numero_a_texto U num2words_es (PyStr (lit "0.999"))
     = Ok (lit "CERO PESOS 100/100 M.N.")
  /\ @numero_a_texto U num2words_es (PyStr (lit "-1.5"))
     = Ok (lit "MENOS UN PESOS -50/100 M.N.").
Proof.
  refine (conj _ (conj _ (conj _ _))).
  - exists (S754_finite false 8998192055486251 (-53)).
    refine (conj _ (conj _ (conj _ _))); vm_compute; reflexivity.
  - exists (S754_finite true 6755399441055744 (-52)).
    refine (conj _ (conj _ (conj _ _))); vm_compute; reflexivity.
  - vm_compute. reflexivity.
  - vm_compute. reflexivity.
Qed.

(** C2 at the failing input.  The text [inf] is accepted by [clean_num] as
    the float infinity; [int()] of it raises [OverflowError], which the
    [except] clause of [numero_a_texto] does not name, so the exception
    leaves the function, and applying the function to the rows of a column
    that holds such a row raises as well.  The text [nan], whose [int()]
    raises [ValueError], gives the empty string. *)
Theorem numero_a_texto_raises_on_infinity (U : UnicodeData) (N : Num2Words) :
  numero_a_texto (PyStr (lit "inf"))
  = Raise (OverflowError CannotConvertFloatInfinityToInteger)
  /\ numero_a_texto (PyFloat (S754_infinity false))
     = Raise (OverflowError CannotConvertFloatInfinityToInteger)
  /\ apply_rows numero_a_texto [PyStr (lit "inf"); PyStr (lit "abc")]
     = Raise (OverflowError CannotConvertFloatInfinityToInteger)
  /\ numero_a_texto (PyStr (lit "nan")) = Ok [].
Proof.
  refine (conj _ (conj _ (conj _ _))); vm_compute; reflexivity.
Qed.

(** ** Currency symbols in front of the renderer *)

Lemma numero_a_texto_of_clean_num
  (U : UnicodeData) (N : Num2Words) (a b : PyValue) :
  clean_num a = clean_num b -> numero_a_texto a = numero_a_texto b.
Proof.
  intros H. unfold numero_a_texto, numero_a_texto_body. now rewrite H.
Qed.

(** ** Texts that cleaning leaves as they are *)

(** A symbol that holds a character the text lacks does not occur in it. *)
Lemma replace_from_absent_char (old new s : pystr) (c0 : codepoint) :
  In c0 old -> ~ In c0 s -> replace_from old new 0 s = s.
Proof.
  intros Hold. induction s as [|c r IH]; intros Hs; [reflexivity|].
  cbn [replace_from]. destruct (startswith old (c :: r)) eqn:E.
  - apply startswith_inv in E as [r' E]. exfalso. apply Hs.
    rewrite E. apply in_or_app. now left.
  - f_equal. apply IH. intros H. apply Hs. now right.
Qed.

Lemma replace_absent_char (old new s : pystr) (c0 : codepoint) :
  In c0 old -> ~ In c0 s -> replace s old new = s.
Proof.
  intros Hold Hs. unfold replace. destruct old as [|a o]; [destruct Hold|].
  now apply (replace_from_absent_char _ _ _ c0).
Qed.

Lemma lstrip_nonspace (s : pystr) :
  Forall (fun c => Py_UNICODE_ISSPACE c = false) s -> lstrip s = s.
Proof.
  intros H. destruct H as [|c s Hc _]; [reflexivity|]. now apply lstrip_head.
Qed.

Lemma strip_nonspace (s : pystr) :
  Forall (fun c => Py_UNICODE_ISSPACE c = false) s -> strip s = s.
Proof.
  intros H. unfold strip, rstrip. rewrite (lstrip_nonspace s H).
  rewrite lstrip_nonspace by now apply Forall_rev.
  apply rev_involutive.
Qed.

Lemma number_char_plain (c : codepoint) :
  number_char c = true ->
  Py_UNICODE_ISSPACE c = false /\ c <> 36 /\ c <> 44 /\ c <> 77.
Proof.
  unfold number_char, is_digit, Py_UNICODE_ISSPACE. intros H.
  bool_lia.
Qed.

Lemma cleaned_number_chars (value : PyValue) :
  Forall (fun c => number_char c = true) (str value) ->
  cleaned value = str value.
Proof.
  intros H. unfold cleaned, cleaned_with.
  assert (Hsp : Forall (fun c => Py_UNICODE_ISSPACE c = false) (str value)).
  { eapply Forall_impl; [|exact H]. intros c Hc. now apply number_char_plain. }
  assert (Hno : forall c0, (c0 = 36 \/ c0 = 44 \/ c0 = 77) -> ~ In c0 (str value)).
  { intros c0 Hc0 Hin. rewrite Forall_forall in H. apply H in Hin.
    apply number_char_plain in Hin. lia. }
  rewrite (strip_nonspace _ Hsp). unfold strip_symbols, CURRENCY_SYMBOLS.
  cbn [fold_left].
  rewrite (replace_absent_char [36] [] _ 36) by (simpl; auto).
  rewrite (replace_absent_char [77; 88; 78] [] _ 77) by (simpl; auto).
  rewrite (replace_absent_char [77; 46; 78; 46] [] _ 77) by (simpl; auto).
  rewrite (replace_absent_char [77; 78] [] _ 77) by (simpl; auto).
  rewrite (replace_absent_char [44] [] _ 44) by (simpl; auto).
  now apply strip_nonspace.
Qed.

Lemma decimal_digits_chars (fuel : nat) (n : Z) (acc : pystr) :
  Forall (fun c => is_digit c = true) acc ->
  Forall (fun c => is_digit c = true) (decimal_digits fuel n acc).
Proof.
  revert n acc. induction fuel as [|k IH]; intros n acc Hacc; simpl; [exact Hacc|].
  assert (Hd : is_digit (48 + n mod 10) = true).
  { unfold is_digit. pose proof (Z.mod_pos_bound n 10 ltac:(lia)). bool_lia. }
  destruct (n <? 10); [now constructor|]. apply IH. now constructor.
Qed.

Lemma decimal_digits_nonempty (fuel : nat) (n : Z) (acc : pystr) :
  acc <> [] -> decimal_digits fuel n acc <> [].
Proof.
  revert n acc. induction fuel as [|k IH]; intros n acc Hacc; simpl; [exact Hacc|].
  destruct (n <? 10); [discriminate|]. apply IH. discriminate.
Qed.

Lemma str_of_nonneg_chars (n : Z) :
  Forall (fun c => is_digit c = true) (str_of_nonneg n).
Proof. apply decimal_digits_chars. constructor. Qed.

Lemma str_of_nonneg_nonempty (n : Z) : str_of_nonneg n <> [].
Proof.
  unfold str_of_nonneg. cbn [decimal_digits].
  destruct (n <? 10); [discriminate|]. apply decimal_digits_nonempty. discriminate.
Qed.

Lemma digit_number_char (l : pystr) :
  Forall (fun c => is_digit c = true) l ->
  Forall (fun c => number_char c = true) l.
Proof.
  apply Forall_impl. intros c Hc. unfold number_char. now rewrite Hc.
Qed.

Lemma str_of_Z_chars (n : Z) :
  Forall (fun c => number_char c = true) (str_of_Z n) /\ str_of_Z n <> [].
Proof.
  unfold str_of_Z. destruct (n <? 0).
  - split; [|discriminate]. constructor; [reflexivity|].
    apply digit_number_char, str_of_nonneg_chars.
  - split; [apply digit_number_char, str_of_nonneg_chars
           |apply str_of_nonneg_nonempty].
Qed.

Lemma Forall_firstn_chars (P : codepoint -> Prop) (n : nat) (l : pystr) :
  Forall P l -> Forall P (firstn n l).
Proof.
  intros H. revert n. induction H as [|c l Hc _ IH]; intros [|n]; simpl;
    constructor; auto.
Qed.

Lemma Forall_skipn_chars (P : codepoint -> Prop) (n : nat) (l : pystr) :
  Forall P l -> Forall P (skipn n l).
Proof.
  intros H. revert n. induction H as [|c l Hc Hl IH]; intros [|n]; simpl;
    try constructor; auto.
Qed.

Lemma repr_digits_chars (ds : pystr) (decpt : Z) :
  Forall (fun c => is_digit c = true) ds -> ds <> [] ->
  Forall (fun c => number_char c = true) (repr_digits ds decpt)
  /\ repr_digits ds decpt <> [].
Proof.
  intros Hds Hne. apply digit_number_char in Hds.
  assert (Hz : forall n, Forall (fun c => number_char c = true) (zeros n)).
  { intros n. apply Forall_forall. intros x Hx.
    apply repeat_spec in Hx. now subst. }
  unfold repr_digits.
  destruct ((decpt <=? -4) || (16 <? decpt)).
  - destruct ds as [|d r]; [congruence|]. split; [|discriminate].
    inversion Hds as [|? ? Hd Hr]; subst.
    assert (He : Forall (fun c => number_char c = true)
                   (101 :: repr_exponent (decpt - 1))).
    { constructor; [reflexivity|]. unfold repr_exponent.
      constructor; [now destruct (decpt - 1 <? 0)|].
      destruct (Z.abs (decpt - 1) <? 10).
      - constructor; [reflexivity|].
        apply digit_number_char, str_of_nonneg_chars.
      - apply digit_number_char, str_of_nonneg_chars. }
    cbn [app]. constructor; [exact Hd|]. apply Forall_app. split; [|exact He].
    destruct r; [constructor|]. constructor; [reflexivity|exact Hr].
  - destruct (decpt <=? 0).
    + split; [|discriminate].
      repeat (apply Forall_app; split); auto; repeat constructor.
    + destruct (Z.of_nat (length ds) <=? decpt).
      * split.
        -- repeat (apply Forall_app; split); auto; repeat constructor.
        -- destruct ds; [congruence|discriminate].
      * split.
        -- apply Forall_app. split; [now apply Forall_firstn_chars|].
           constructor; [reflexivity|now apply Forall_skipn_chars].
        -- intros H. apply app_eq_nil in H as [_ H]. discriminate.
Qed.

Lemma float_repr_chars (x : float) :
  Forall (fun c => number_char c = true) (float_repr x) /\ float_repr x <> [].
Proof.
  destruct x as [s|s| |s m e]; cbn [float_repr].
  - destruct s; split; try discriminate; repeat constructor.
  - destruct s; split; try discriminate; repeat constructor.
  - split; try discriminate; repeat constructor.
  - destruct (ratio_of m e) as [N D].
    destruct (shortest_decimal 16 1 m e (decimal_exponent N D)) as [c0 p0].
    destruct (drop_trailing_zeros 17 c0 p0) as [c p].
    destruct (repr_digits_chars (str_of_nonneg c)
                (p + Z.of_nat (length (str_of_nonneg c)))
                (str_of_nonneg_chars c) (str_of_nonneg_nonempty c)) as [Hc Hn].
    split.
    + apply Forall_app. split; [destruct s; repeat constructor|exact Hc].
    + intros H. apply app_eq_nil in H as [_ H]. contradiction.
Qed.

(** The text of an [int] or a [float] passes through the cleaning unchanged,
    and is not empty. *)
Lemma cleaned_number (value : PyValue) :
  match value with
  | PyInt _ | PyFloat _ => cleaned value = str value /\ str value <> []
  | _ => True
  end.
Proof.
  destruct value as [|s|n|x]; try exact I.
  - destruct (str_of_Z_chars n) as [H1 H2].
    split; [now apply cleaned_number_chars|exact H2].
  - destruct (float_repr_chars x) as [H1 H2].
    split; [now apply cleaned_number_chars|exact H2].
Qed.

Lemma lstrip_all_spaces (s : pystr) :
  forallb Py_UNICODE_ISSPACE s = true -> lstrip s = [].
Proof.
  induction s as [|c s IH]; simpl; [reflexivity|].
  intros H. apply andb_true_iff in H as [Hc Hs]. rewrite Hc. auto.
Qed.

Lemma replace_nil (old new : pystr) : old <> [] -> replace [] old new = [].
Proof. destruct old; [congruence|reflexivity]. Qed.

Lemma cleaned_all_spaces (s : pystr) :
  forallb Py_UNICODE_ISSPACE s = true -> cleaned (PyStr s) = [].
Proof.
  intros H. unfold cleaned, cleaned_with, strip. cbn [str].
  rewrite (lstrip_all_spaces s H). reflexivity.
Qed.

Lemma is_blank_PyStr (s : pystr) :
  is_blank (PyStr s) = true -> s = [] \/ s = [32].
Proof.
  destruct s as [|c [|d r]]; [now left| |]; cbn [is_blank];
    destruct c as [|p|p]; try discriminate;
    do 6 (destruct p as [p|p|]; try discriminate).
  intros _. now right.
Qed.

Section Normalizer.
Context {U : UnicodeData}.

Lemma float_of_str_raises (s : pystr) (e : exn) :
  float_of_str s = Raise e -> e = ValueError (CouldNotConvertStringToFloat s).
Proof.
  unfold float_of_str.
  destruct (without_underscores _) as [t|]; [|congruence].
  destruct (parse_float_literal t); congruence.
Qed.

Lemma clean_num_cases (value : PyValue) :
  clean_num value
  = if is_blank value then Ok None
    else
      match cleaned value with
      | [] => Ok None
      | _ :: _ =>
          match float_of_str (cleaned value) with
          | Ok x => Ok (Some x)
          | Raise _ =>
              Raise (ValueError
                       (NoSePudoConvertir (str value)
                          (CouldNotConvertStringToFloat (cleaned value))))
          end
      end.
Proof.
  unfold clean_num, clean_num_with. fold (cleaned value).
  destruct (is_blank value); [reflexivity|].
  destruct (cleaned value) as [|c r] eqn:E; [reflexivity|].
  destruct (float_of_str (c :: r)) as [x|e] eqn:F; [reflexivity|].
  apply float_of_str_raises in F. now subst e.
Qed.

End Normalizer.

(** ** White space as [str.strip] and as [float()] see it *)

Lemma lstrip_result (s : pystr) :
  lstrip s = [] \/ exists a t, lstrip s = a :: t /\ Py_UNICODE_ISSPACE a = false.
Proof.
  induction s as [|c s IH]; simpl; [now left|].
  destruct (Py_UNICODE_ISSPACE c) eqn:Hc; [exact IH|].
  right. now exists c, s.
Qed.

Lemma strip_decompose (s : pystr) :
  exists w1 w2,
    s = w1 ++ strip s ++ w2
    /\ Forall (fun c => Py_UNICODE_ISSPACE c = true) w1
    /\ Forall (fun c => Py_UNICODE_ISSPACE c = true) w2
    /\ (strip s = [] \/ clean_ends Py_UNICODE_ISSPACE (strip s)).
Proof.
  destruct (lstrip_split s) as (w1 & Hs & Hw1).
  destruct (rstrip_split (lstrip s)) as (w2 & Hl & Hw2).
  exists w1, w2. fold (strip s) in Hl.
  refine (conj _ (conj Hw1 (conj Hw2 _))).
  - now rewrite <- Hl.
  - destruct (strip s) as [|a t] eqn:E; [now left|right]. split.
    + exists a, t. split; [reflexivity|].
      destruct (lstrip_result s) as [H|(a' & t' & H & Ha)].
      * rewrite H in Hl. discriminate.
      * rewrite H in Hl. simpl in Hl. now injection Hl as -> _.
    + unfold strip, rstrip in E.
      destruct (lstrip_result (rev (lstrip s))) as [H|(d & t' & H & Hd)].
      * rewrite H in E. discriminate.
      * rewrite H in E. simpl in E. exists (rev t'), d. now rewrite <- E.
Qed.

Lemma strip_clean_ends (m : pystr) :
  m = [] \/ clean_ends Py_UNICODE_ISSPACE m -> strip m = m.
Proof.
  intros [->|[(a & t & Hm & Ha) (t' & d & Hm' & Hd)]]; [reflexivity|].
  unfold strip, rstrip.
  assert (H1 : lstrip m = m) by (rewrite Hm; now apply lstrip_head).
  rewrite H1. rewrite Hm' at 1. rewrite rev_app_distr. cbn [rev app].
  rewrite lstrip_head by exact Hd.
  change (d :: rev t') with (rev [d] ++ rev t').
  rewrite <- rev_app_distr, rev_involutive. now symmetry.
Qed.

Lemma strip_idempotent (s : pystr) : strip (strip s) = strip s.
Proof.
  destruct (strip_decompose s) as (_ & _ & _ & _ & _ & H).
  now apply strip_clean_ends.
Qed.

Lemma contains_false_suffix (x y t : pystr) :
  contains (x ++ y) t = false -> contains y t = false.
Proof.
  induction x as [|c x IH]; [auto|]. cbn [app contains].
  intros H. apply orb_false_iff in H as [_ H]. auto.
Qed.

Lemma contains_false_head (s t : pystr) :
  contains s t = false -> startswith t s = false.
Proof.
  destruct s; cbn [contains]; intros H; now apply orb_false_iff in H as [H _].
Qed.

Lemma replace_from_not_contained (old new s : pystr) :
  contains s old = false -> replace_from old new 0 s = s.
Proof.
  induction s as [|c r IH]; [reflexivity|].
  intros H. cbn [replace_from].
  rewrite (contains_false_head _ _ H).
  cbn [contains] in H. apply orb_false_iff in H as [_ H].
  now rewrite IH.
Qed.

Lemma strip_symbols_not_contained (s : pystr) :
  (forall t, In t CURRENCY_SYMBOLS -> contains s t = false) ->
  strip_symbols CURRENCY_SYMBOLS s = s.
Proof.
  intros H. unfold strip_symbols, CURRENCY_SYMBOLS in *. cbn [fold_left].
  unfold replace.
  rewrite (replace_from_not_contained [36] [] s) by (apply H; simpl; tauto).
  rewrite (replace_from_not_contained [77; 88; 78] [] s)
    by (apply H; simpl; tauto).
  rewrite (replace_from_not_contained [77; 46; 78; 46] [] s)
    by (apply H; simpl; tauto).
  rewrite (replace_from_not_contained [77; 78] [] s) by (apply H; simpl; tauto).
  apply replace_from_not_contained. apply H. simpl. tauto.
Qed.

Lemma startswith_longer (t x y : pystr) :
  startswith t x = true -> startswith t (x ++ y) = true.
Proof.
  intros H. apply startswith_inv in H as [r ->].
  rewrite <- app_assoc. apply startswith_app.
Qed.

Lemma contains_false_prefix (x y t : pystr) :
  contains (x ++ y) t = false -> contains x t = false.
Proof.
  induction x as [|c x IH]; intros H.
  - cbn [contains]. rewrite orb_false_r.
    destruct (startswith t []) eqn:E; [|reflexivity].
    apply (startswith_longer _ _ y) in E.
    apply contains_false_head in H. congruence.
  - cbn [app contains] in *. apply orb_false_iff in H as [H1 H2].
    rewrite (IH H2), orb_false_r.
    destruct (startswith t (c :: x)) eqn:E; [|reflexivity].
    apply (startswith_longer _ _ y) in E. cbn [app] in E. congruence.
Qed.

Lemma contains_false_strip (s t : pystr) :
  contains s t = false -> contains (strip s) t = false.
Proof.
  intros H. destruct (strip_decompose s) as (w1 & w2 & Hs & _).
  rewrite Hs in H. apply contains_false_suffix in H.
  now apply contains_false_prefix in H.
Qed.

Lemma Py_ISSPACE_unicode (c : codepoint) :
  Py_ISSPACE c = true -> Py_UNICODE_ISSPACE c = true.
Proof. unfold Py_ISSPACE, Py_UNICODE_ISSPACE. intros H. bool_lia. Qed.

Lemma skip_spaces_split (s : pystr) :
  exists v, s = v ++ skip_spaces s /\ Forall (fun c => Py_ISSPACE c = true) v.
Proof.
  induction s as [|c s IH]; simpl.
  - now exists [].
  - destruct (Py_ISSPACE c) eqn:Hc.
    + destruct IH as (v & Hs & Hv). exists (c :: v). split.
      * simpl. now rewrite <- Hs.
      * now constructor.
    + now exists [].
Qed.

Lemma skip_spaces_app (v s : pystr) :
  Forall (fun c => Py_ISSPACE c = true) v -> skip_spaces (v ++ s) = skip_spaces s.
Proof.
  induction 1 as [|c v Hc _ IH]; simpl; [reflexivity|]. now rewrite Hc.
Qed.

Lemma skip_spaces_but_last_split (s : pystr) :
  exists v, s = v ++ skip_spaces_but_last s
            /\ Forall (fun c => Py_ISSPACE c = true) v.
Proof.
  induction s as [|c s IH]; [now exists []|].
  destruct s as [|d r]; [now exists []|].
  change (skip_spaces_but_last (c :: d :: r))
    with (if Py_ISSPACE c then skip_spaces_but_last (d :: r) else c :: d :: r).
  destruct (Py_ISSPACE c) eqn:Hc; [|now exists []].
  destruct IH as (v & Hs & Hv). exists (c :: v). split.
  - cbn [app]. now rewrite <- Hs.
  - now constructor.
Qed.

Lemma skip_spaces_but_last_app (v s : pystr) :
  Forall (fun c => Py_ISSPACE c = true) v -> s <> [] ->
  skip_spaces_but_last (v ++ s) = skip_spaces_but_last s.
Proof.
  intros Hv Hs. induction Hv as [|c v Hc _ IH]; [reflexivity|].
  cbn [app]. destruct (v ++ s) as [|d r] eqn:E.
  - apply app_eq_nil in E as [_ E]. congruence.
  - change (skip_spaces_but_last (c :: d :: r))
      with (if Py_ISSPACE c then skip_spaces_but_last (d :: r) else c :: d :: r).
    now rewrite Hc.
Qed.

Lemma skip_spaces_but_last_head (c : codepoint) (s : pystr) :
  Py_ISSPACE c = false -> skip_spaces_but_last (c :: s) = c :: s.
Proof. intros H. destruct s; [reflexivity|]. cbn. now rewrite H. Qed.

Lemma in_after_spaces (sp : codepoint -> bool) (c : codepoint) (v s : pystr) :
  Forall (fun c => sp c = true) v -> sp c = false -> In c (v ++ s) -> In c s.
Proof.
  intros Hv Hc H. apply in_app_or in H as [H|H]; [|exact H].
  rewrite Forall_forall in Hv. apply Hv in H. congruence.
Qed.

Lemma strip_for_float_keeps (c : codepoint) (s : pystr) :
  In c s -> Py_ISSPACE c = false -> In c (strip_for_float s).
Proof.
  intros Hin Hc. unfold strip_for_float.
  destruct (skip_spaces_split s) as (v & Hs & Hv).
  rewrite Hs in Hin. apply (in_after_spaces Py_ISSPACE) in Hin; auto.
  apply in_rev in Hin.
  destruct (skip_spaces_but_last_split (rev (skip_spaces s))) as (v' & Hs' & Hv').
  rewrite Hs' in Hin. apply (in_after_spaces Py_ISSPACE) in Hin; auto.
  now apply in_rev in Hin.
Qed.

Lemma strip_for_float_incl (c : codepoint) (s : pystr) :
  In c (strip_for_float s) -> In c s.
Proof.
  unfold strip_for_float. intros H. apply in_rev in H.
  destruct (skip_spaces_split s) as (v & Hs & _).
  destruct (skip_spaces_but_last_split (rev (skip_spaces s))) as (v' & Hs' & _).
  rewrite Hs. apply in_or_app. right. apply in_rev.
  rewrite Hs'. apply in_or_app. now right.
Qed.

Lemma strip_for_float_clean_ends (v1 m v2 : pystr) :
  Forall (fun c => Py_ISSPACE c = true) v1 ->
  Forall (fun c => Py_ISSPACE c = true) v2 ->
  clean_ends Py_ISSPACE m ->
  strip_for_float (v1 ++ m ++ v2) = m.
Proof.
  intros H1 H2 [(a & t & Hm & Ha) (t' & d & Hm' & Hd)].
  unfold strip_for_float. rewrite skip_spaces_app by exact H1.
  assert (E : skip_spaces (m ++ v2) = m ++ v2).
  { rewrite Hm. cbn. now rewrite Ha. }
  rewrite E, rev_app_distr.
  rewrite skip_spaces_but_last_app.
  - rewrite Hm' at 1. rewrite rev_app_distr. cbn [rev app].
    rewrite skip_spaces_but_last_head by exact Hd.
    change (d :: rev t') with (rev [d] ++ rev t').
    rewrite <- rev_app_distr, rev_involutive. now symmetry.
  - now apply Forall_rev.
  - rewrite Hm. cbn. intros H. now apply app_eq_nil in H as [_ H].
Qed.

Section FloatOfStripped.
Context {U : UnicodeData}.

Lemma Py_UNICODE_TODECIMAL_range (c d : codepoint) :
  Py_UNICODE_TODECIMAL c = Some d -> 0 <= d <= 9.
Proof.
  unfold Py_UNICODE_TODECIMAL, is_digit.
  destruct (is_ascii c).
  - destruct ((48 <=? c) && (c <=? 57)) eqn:E; [|discriminate].
    intros H. injection H as <-. bool_lia.
  - destruct (unicode_decimal c) as [d'|]; [|discriminate].
    destruct ((0 <=? d') && (d' <=? 9)) eqn:E; [|discriminate].
    intros H. injection H as <-. bool_lia.
Qed.

Lemma ascii_image_space (c : codepoint) :
  Py_ISSPACE (ascii_image c) = true \/ literal_char (ascii_image c) = true ->
  Py_UNICODE_ISSPACE c = Py_ISSPACE (ascii_image c).
Proof.
  unfold ascii_image. destruct (c <? 127) eqn:E.
  - intros [H|H].
    + rewrite H. now apply Py_ISSPACE_unicode.
    + unfold literal_char in H.
      destruct (Py_UNICODE_ISSPACE c) eqn:S; [rewrite E in H; discriminate|].
      destruct (Py_ISSPACE c) eqn:P; [|reflexivity].
      apply Py_ISSPACE_unicode in P. congruence.
  - intros _. destruct (Py_UNICODE_ISSPACE c); [reflexivity|].
    destruct (Py_UNICODE_TODECIMAL c) as [d|] eqn:D; [|reflexivity].
    apply Py_UNICODE_TODECIMAL_range in D. unfold Py_ISSPACE. symmetry. bool_lia.
Qed.

Lemma transform_map (s : pystr) :
  (forall c, In c s -> ascii_image c <> 63) ->
  transform_decimal_and_space s = map ascii_image s.
Proof.
  induction s as [|c r IH]; intros H; [reflexivity|].
  cbn [transform_decimal_and_space map].
  pose proof (H c (or_introl eq_refl)) as Hc. unfold ascii_image in *.
  rewrite IH by (intros; apply H; now right).
  destruct (c <? 127); [reflexivity|].
  destruct (Py_UNICODE_ISSPACE c); [reflexivity|].
  destruct (Py_UNICODE_TODECIMAL c); [reflexivity|congruence].
Qed.

Lemma to_ascii_number_map (s : pystr) :
  (forall c, In c s -> ascii_image c <> 63) ->
  to_ascii_number s = map ascii_image s.
Proof.
  intros H. unfold to_ascii_number.
  destruct (forallb is_ascii s) eqn:A; [|now apply transform_map].
  rewrite forallb_forall in A. symmetry. rewrite <- (map_id s) at 2.
  apply map_ext_in. intros c Hc.
  pose proof (H c Hc) as H63. pose proof (A c Hc) as Ha.
  unfold ascii_image in *. unfold is_ascii in Ha.
  destruct (c <? 127) eqn:E; [reflexivity|].
  assert (c = 127) by bool_lia. subst c. exfalso. apply H63. reflexivity.
Qed.

(** Where the image of a character is a question mark, the text handed to
    the parser holds a character that is neither white space nor part of a
    literal. *)
Lemma to_ascii_number_bad (s : pystr) (c : codepoint) :
  In c s -> ascii_image c = 63 ->
  exists b, In b (to_ascii_number s)
            /\ Py_ISSPACE b = false /\ literal_char b = false.
Proof.
  intros Hin H63. unfold to_ascii_number.
  destruct (forallb is_ascii s) eqn:A.
  - rewrite forallb_forall in A. pose proof (A c Hin) as Ha.
    exists c. split; [exact Hin|].
    unfold ascii_image in H63. unfold is_ascii in Ha.
    destruct (c <? 127) eqn:E.
    + subst c. now split.
    + assert (c = 127) by bool_lia. subst c. now split.
  - exists 63. split; [|now split]. clear A.
    induction s as [|c0 r IH]; [destruct Hin|].
    cbn [transform_decimal_and_space].
    destruct Hin as [->|Hin].
    + unfold ascii_image in H63.
      destruct (c <? 127); [subst c; now left|].
      destruct (Py_UNICODE_ISSPACE c); [discriminate|].
      destruct (Py_UNICODE_TODECIMAL c) as [d|] eqn:D; [|now left].
      apply Py_UNICODE_TODECIMAL_range in D. lia.
    + destruct (c0 <? 127); [right; auto|].
      destruct (Py_UNICODE_ISSPACE c0); [right; auto|].
      destruct (Py_UNICODE_TODECIMAL c0); [right; auto|now left].
Qed.

(** The middle of the text, as [float()] cuts it out, is the same for the
    text and for the text stripped by [str.strip], as soon as it is made of
    characters of a literal. *)
Lemma strip_for_float_of_stripped (s : pystr) :
  Forall (fun c => literal_char c = true) (strip_for_float (to_ascii_number s)) ->
  strip_for_float (to_ascii_number s) <> [] ->
  strip s <> []
  /\ strip_for_float (to_ascii_number (strip s))
     = strip_for_float (to_ascii_number s).
Proof.
  intros Hok Hne. rewrite Forall_forall in Hok.
  (* every character handed to the parser is white space or of a literal *)
  assert (HT : forall b, In b (to_ascii_number s) ->
                         Py_ISSPACE b = true \/ literal_char b = true).
  { intros b Hb. destruct (Py_ISSPACE b) eqn:P; [now left|right].
    apply Hok. now apply strip_for_float_keeps. }
  assert (H63 : forall c, In c s -> ascii_image c <> 63).
  { intros c Hc E.
    destruct (to_ascii_number_bad s c Hc E) as (b & Hb & Hsp & Hlit).
    destruct (HT b Hb); congruence. }
  assert (Hmap : to_ascii_number s = map ascii_image s)
    by now apply to_ascii_number_map.
  assert (Hsp : forall c, In c s ->
                          Py_UNICODE_ISSPACE c = Py_ISSPACE (ascii_image c)).
  { intros c Hc. apply ascii_image_space. apply HT. rewrite Hmap.
    now apply in_map. }
  destruct (strip_decompose s) as (w1 & w2 & Hs & Hw1 & Hw2 & Hm).
  remember (strip s) as m eqn:Em.
  assert (Hin : forall l, incl l s ->
                  Forall (fun c => Py_UNICODE_ISSPACE c = true) l ->
                  Forall (fun c => Py_ISSPACE c = true) (map ascii_image l)).
  { intros l Hl Hf. apply Forall_forall. intros b Hb.
    apply in_map_iff in Hb as (c & <- & Hc).
    rewrite <- Hsp by now apply Hl.
    rewrite Forall_forall in Hf. now apply Hf. }
  assert (I1 : incl w1 s).
  { intros c Hc. rewrite Hs. apply in_or_app. now left. }
  assert (Im : incl m s).
  { intros c Hc. rewrite Hs. apply in_or_app. right. apply in_or_app. now left. }
  assert (I2 : incl w2 s).
  { intros c Hc. rewrite Hs. apply in_or_app. right. apply in_or_app. now right. }
  destruct Hm as [Hm|[(a & t & Hma & Ha) (t' & d & Hmd & Hd)]].
  - (* nothing but white space: the middle would be white space *)
    exfalso. destruct (strip_for_float (to_ascii_number s)) as [|b r] eqn:E;
      [congruence|].
    assert (Hb : In b (to_ascii_number s)).
    { apply strip_for_float_incl. rewrite E. now left. }
    pose proof (Hok b (or_introl eq_refl)) as Hlit.
    rewrite Hmap in Hb. apply in_map_iff in Hb as (c & Hcb & Hc).
    assert (Hcs : Py_UNICODE_ISSPACE c = true).
    { rewrite Hs, Hm in Hc. cbn [app] in Hc.
      apply in_app_or in Hc as [Hc|Hc].
      - rewrite Forall_forall in Hw1. auto.
      - rewrite Forall_forall in Hw2. auto. }
    rewrite (Hsp c Hc), Hcb in Hcs. apply Py_ISSPACE_unicode in Hcs.
    unfold literal_char in Hlit. rewrite Hcs in Hlit.
    now rewrite andb_false_r in Hlit.
  - assert (Hends : clean_ends Py_ISSPACE (map ascii_image m)).
    { split.
      - exists (ascii_image a), (map ascii_image t). split; [now rewrite Hma|].
        rewrite <- Hsp; [exact Ha|]. apply Im. rewrite Hma. now left.
      - exists (map ascii_image t'), (ascii_image d). split.
        + rewrite Hmd, map_app. reflexivity.
        + rewrite <- Hsp; [exact Hd|]. apply Im. rewrite Hmd.
          apply in_or_app. right. now left. }
    split; [rewrite Hma; discriminate|].
    rewrite Hmap. rewrite Hs. rewrite !map_app.
    rewrite strip_for_float_clean_ends; auto.
    rewrite to_ascii_number_map by (intros c Hc; apply H63; now apply Im).
    rewrite <- (app_nil_r (map ascii_image m)) at 1.
    change (map ascii_image m ++ []) with ([] ++ map ascii_image m ++ []).
    now apply strip_for_float_clean_ends.
Qed.

End FloatOfStripped.

(** ** The characters of a text that [float()] reads *)

Lemma split_sign_cases (s r : pystr) (neg : bool) :
  split_sign s = (neg, r) ->
  s = r \/ exists c, (c = 45 \/ c = 43) /\ s = c :: r.
Proof.
  unfold split_sign. destruct s as [|c t]; [intros H; injection H; auto|].
  destruct (c =? 45) eqn:E1.
  - apply Z.eqb_eq in E1. intros H. injection H as _ <-. right. eauto.
  - destruct (c =? 43) eqn:E2.
    + apply Z.eqb_eq in E2. intros H. injection H as _ <-. right. eauto.
    + intros H. injection H as _ <-. now left.
Qed.

Lemma span_digits_split (s : pystr) (acc count v k : Z) (r : pystr) :
  span_digits s acc count = (v, k, r) ->
  exists ds, s = ds ++ r /\ Forall (fun c => is_digit c = true) ds.
Proof.
  revert acc count. induction s as [|c t IH]; intros acc count H.
  - cbn in H. injection H as _ _ <-. now exists [].
  - cbn [span_digits] in H. destruct (is_digit c) eqn:D.
    + apply IH in H as (ds & -> & Hds). exists (c :: ds). split; auto.
    + injection H as _ _ <-. now exists [].
Qed.

Lemma digit_literal (ds : pystr) :
  Forall (fun c => is_digit c = true) ds ->
  Forall (fun c => literal_char c = true) ds.
Proof.
  apply Forall_impl. intros c. unfold is_digit, literal_char, Py_UNICODE_ISSPACE.
  intros H. bool_lia.
Qed.

Lemma sign_literal (s r : pystr) (neg : bool) :
  split_sign s = (neg, r) ->
  Forall (fun c => literal_char c = true) r ->
  Forall (fun c => literal_char c = true) s.
Proof.
  intros H Hr. apply split_sign_cases in H as [->|(c & Hc & ->)]; [exact Hr|].
  constructor; [|exact Hr]. destruct Hc as [->| ->]; reflexivity.
Qed.

Lemma parse_exponent_chars (s : pystr) (x : Z) :
  parse_exponent s = Some x -> Forall (fun c => literal_char c = true) s.
Proof.
  unfold parse_exponent. destruct s as [|c r]; [constructor|].
  destruct ((c =? 101) || (c =? 69)) eqn:E; [|discriminate].
  destruct (split_sign r) as [neg r1] eqn:S.
  destruct (span_digits r1 0 0) as [[v n] r2] eqn:D.
  destruct r2; [|discriminate]. intros _.
  apply span_digits_split in D as (ds & -> & Hds). rewrite app_nil_r in S.
  constructor.
  - unfold literal_char, Py_UNICODE_ISSPACE. bool_lia.
  - eapply sign_literal; [exact S|]. now apply digit_literal.
Qed.

Lemma parse_decimal_chars (s : pystr) (x : float) :
  parse_decimal s = Some x -> Forall (fun c => literal_char c = true) s.
Proof.
  unfold parse_decimal.
  destruct (split_sign s) as [neg r] eqn:S.
  destruct (span_digits r 0 0) as [[i ni] r1] eqn:D1.
  apply span_digits_split in D1 as (ds & -> & Hds).
  intros H. eapply sign_literal; [exact S|].
  apply Forall_app. split; [now apply digit_literal|].
  assert (Hr2 : forall r2, match parse_exponent r2 with
                           | Some _ => True
                           | None => False
                           end -> Forall (fun c => literal_char c = true) r2).
  { intros r2 Hp. destruct (parse_exponent r2) eqn:P; [|destruct Hp].
    now apply parse_exponent_chars in P. }
  destruct r1 as [|c r1'].
  - constructor.
  - destruct (c =? 46) eqn:E.
    + apply Z.eqb_eq in E. subst c.
      destruct (span_digits r1' i 0) as [[m nf] r2] eqn:D2.
      apply span_digits_split in D2 as (ds' & -> & Hds').
      constructor; [reflexivity|]. apply Forall_app.
      split; [now apply digit_literal|].
      apply Hr2. destruct (0 <? ni + nf); [|discriminate].
      now destruct (parse_exponent r2).
    + assert (H' : (if 0 <? ni + 0
                    then match parse_exponent (c :: r1') with
                         | Some x0 => Some (float_of_decimal neg i (x0 - 0))
                         | None => None
                         end
                    else None) = Some x).
      { destruct c as [|p|p]; try exact H.
        do 6 (destruct p as [p|p|]; try exact H). discriminate. }
      apply Hr2. destruct (0 <? ni + 0); [|discriminate].
      now destruct (parse_exponent (c :: r1')).
Qed.

Lemma tolower_literal (c l : codepoint) :
  97 <= l <= 122 -> ascii_tolower c = l -> literal_char c = true.
Proof.
  unfold ascii_tolower, is_ascii_upper, literal_char, Py_UNICODE_ISSPACE.
  intros Hl. destruct ((65 <=? c) && (c <=? 90)) eqn:E; intros H; bool_lia.
Qed.

Lemma word_literal (r w : pystr) :
  Forall (fun l => 97 <= l <= 122) w ->
  map ascii_tolower r = w -> Forall (fun c => literal_char c = true) r.
Proof.
  intros Hw. revert r. induction Hw as [|l w Hl _ IH]; intros r H.
  - apply map_eq_nil in H. subst. constructor.
  - destruct r as [|c r]; [discriminate|]. cbn [map] in H.
    injection H as Hc Hr. constructor; [now apply (tolower_literal c l)|auto].
Qed.

Lemma parse_inf_or_nan_chars (s : pystr) (x : float) :
  parse_inf_or_nan s = Some x -> Forall (fun c => literal_char c = true) s.
Proof.
  unfold parse_inf_or_nan. destruct (split_sign s) as [neg r] eqn:S.
  intros H. eapply sign_literal; [exact S|].
  destruct (pystr_eqb (map ascii_tolower r) [105; 110; 102]) eqn:E1.
  { apply pystr_eqb_eq in E1. eapply word_literal; [|exact E1].
    repeat constructor; lia. }
  destruct (pystr_eqb (map ascii_tolower r)
              [105; 110; 102; 105; 110; 105; 116; 121]) eqn:E2.
  { apply pystr_eqb_eq in E2. eapply word_literal; [|exact E2].
    repeat constructor; lia. }
  destruct (pystr_eqb (map ascii_tolower r) [110; 97; 110]) eqn:E3;
    [|discriminate].
  apply pystr_eqb_eq in E3. eapply word_literal; [|exact E3].
  repeat constructor; lia.
Qed.

Lemma parse_float_literal_chars (s : pystr) (x : float) :
  parse_float_literal s = Some x ->
  Forall (fun c => literal_char c = true) s /\ s <> [].
Proof.
  intros H. split.
  - unfold parse_float_literal in H.
    destruct (parse_decimal s) eqn:P; [now apply parse_decimal_chars in P|].
    now apply parse_inf_or_nan_chars in H.
  - intros ->. discriminate.
Qed.

Lemma drop_underscores_chars (prev : codepoint) (s t : pystr) :
  drop_underscores prev s = Some t ->
  Forall (fun c => c = 95 \/ In c t) s.
Proof.
  revert prev t. induction s as [|c r IH]; intros prev t H; [constructor|].
  cbn [drop_underscores] in H. destruct (c =? 95) eqn:E.
  - apply Z.eqb_eq in E. destruct (is_digit prev); [|discriminate].
    constructor; [now left|eauto].
  - destruct ((prev =? 95) && negb (is_digit c)); [discriminate|].
    destruct (drop_underscores c r) as [t'|] eqn:D; [|discriminate].
    cbn in H. injection H as <-. constructor; [right; now left|].
    eapply Forall_impl; [|exact (IH _ _ D)].
    intros a [Ha|Ha]; [now left|right; now right].
Qed.

Lemma without_underscores_chars (s t : pystr) (x : float) :
  without_underscores s = Some t -> parse_float_literal t = Some x ->
  Forall (fun c => literal_char c = true) s /\ s <> [].
Proof.
  intros Hw Hp. destruct (parse_float_literal_chars t x Hp) as [Ht Hne].
  unfold without_underscores in Hw. destruct (existsb (Z.eqb 95) s).
  - split.
    + apply drop_underscores_chars in Hw.
      eapply Forall_impl; [|exact Hw]. intros c [->|Hc]; [reflexivity|].
      rewrite Forall_forall in Ht. auto.
    + intros ->. cbn in Hw. injection Hw as <-. congruence.
  - injection Hw as ->. now split.
Qed.

(** [float()] reads the stripped text as it reads the text. *)
Lemma float_of_str_strip (U : UnicodeData) (s : pystr) (x : float) :
  float_of_str s = Ok x -> strip s <> [] /\ float_of_str (strip s) = Ok x.
Proof.
  unfold float_of_str. intros H.
  destruct (without_underscores (strip_for_float (to_ascii_number s)))
    as [t|] eqn:W; [|discriminate].
  destruct (parse_float_literal t) as [y|] eqn:P; [|discriminate].
  injection H as ->.
  destruct (without_underscores_chars _ _ _ W P) as [Hlit Hne].
  destruct (strip_for_float_of_stripped s Hlit Hne) as [Hs Hcore].
  split; [exact Hs|]. now rewrite Hcore, W, P.
Qed.

(** C8. Stripping the currency symbols does not change the amount: the
    renderer gives the text [$1,234.56] the phrase it gives the float
    1234.56; and for every value whose text holds none of the symbols and is
    read by [float()] as the number [x], [clean_num] returns [x]. *)
Theorem currency_symbols_inert (U : UnicodeData) (N : Num2Words) :
  numero_a_texto (PyStr (lit "$1,234.56")) = numero_a_texto (PyFloat float_1234_56)
  /\ forall (value : PyValue) (x : float),
       (forall t, In t CURRENCY_SYMBOLS -> contains (str value) t = false) ->
       float_of_str (str value) = Ok x ->
       clean_num value = Ok (Some x).
Proof.
  split.
  - apply numero_a_texto_of_clean_num. vm_compute. reflexivity.
  - intros value x Hfree Hx.
    assert (Hb : is_blank value = false).
    { destruct value as [|s| |]; try reflexivity.
      - vm_compute in Hx. discriminate.
      - destruct (is_blank (PyStr s)) eqn:B; [|reflexivity].
        apply is_blank_PyStr in B as [->| ->]; vm_compute in Hx; discriminate. }
    destruct (float_of_str_strip U _ _ Hx) as [Hne Hs].
    assert (Hc : cleaned value = strip (str value)).
    { unfold cleaned, cleaned_with.
      rewrite strip_symbols_not_contained.
      - apply strip_idempotent.
      - intros t Ht. apply contains_false_strip. now apply Hfree. }
    rewrite clean_num_cases, Hb, Hc.
    destruct (strip (str value)) as [|c r]; [congruence|]. now rewrite Hs.
Qed.

(** The amount [ 12.5 ] between spaces, and the float 1234.56. *)
Lemma currency_symbols_inert_witness :
  @clean_num ucd_part (PyStr (lit " 12.5 "))
  = Ok (Some (S754_finite false 7036874417766400 (-49)))
  /\ @clean_num ucd_part (PyFloat float_1234_56) = Ok (Some float_1234_56).
Proof.
  split.
  - apply (proj2 (currency_symbols_inert ucd_part num2words_es)).
    + intros t Ht. simpl in Ht.
      destruct Ht as [<-|[<-|[<-|[<-|[<-|[]]]]]]; vm_compute; reflexivity.
    + vm_compute. reflexivity.
  - apply (proj2 (currency_symbols_inert ucd_part num2words_es)).
    + intros t Ht. simpl in Ht.
      destruct Ht as [<-|[<-|[<-|[<-|[<-|[]]]]]]; vm_compute; reflexivity.
    + vm_compute. reflexivity.
Defined.

(** ** [normalize] applied twice *)

Section Idempotence.
Context {U : UnicodeData}.

Lemma ascii_tolower_settled (c : codepoint) :
  is_ascii c = true -> Py_UNICODE_ISSPACE c = false -> settled (ascii_tolower c).
Proof.
  intros Ha Hs.
  assert (Ha' : is_ascii (ascii_tolower c) = true).
  { unfold ascii_tolower, is_ascii_upper, is_ascii in *.
    destruct ((65 <=? c) && (c <=? 90)) eqn:E; bool_lia. }
  assert (Hs' : Py_UNICODE_ISSPACE (ascii_tolower c) = false).
  { unfold ascii_tolower, is_ascii_upper, Py_UNICODE_ISSPACE in *.
    destruct ((65 <=? c) && (c <=? 90)) eqn:E; bool_lia. }
  assert (Hl : ascii_tolower (ascii_tolower c) = ascii_tolower c).
  { unfold ascii_tolower, is_ascii_upper.
    destruct ((65 <=? c) && (c <=? 90)) eqn:E; [|now rewrite E].
    destruct ((65 <=? c + 32) && (c + 32 <=? 90)) eqn:E'; [bool_lia|reflexivity]. }
  unfold settled, decomposed_starter, compat_decomposition, combining,
    tolower_full.
  rewrite Ha', Hl. repeat split; auto.
  unfold is_ascii in Ha'. intros E. rewrite E in Ha'. discriminate.
Qed.

Lemma lower_from_settled (s before : pystr) :
  Forall settled s -> lower_from before s = s.
Proof.
  intros H. revert before. induction H as [|c r Hc _ IH]; intros before.
  - reflexivity.
  - cbn [lower_from]. destruct Hc as (_ & Hl & Hne).
    apply Z.eqb_neq in Hne. rewrite Hne, Hl, IH. reflexivity.
Qed.

Lemma key_of_settled (s : pystr) :
  Forall settled s ->
  filter (fun c => negb (Py_UNICODE_ISSPACE c))
    (filter (fun c => combining c =? 0) (flat_map compat_decomposition s))
  = s.
Proof.
  induction 1 as [|c r Hc _ IH]; [reflexivity|].
  destruct Hc as ((Hd & Hcc & Hs) & _). cbn [flat_map]. rewrite Hd.
  cbn [app filter]. rewrite Hcc. cbn [Z.eqb filter]. rewrite Hs. cbn [negb].
  now rewrite IH.
Qed.

Lemma lower_from_settles (s before : pystr) :
  unicode_stable -> Forall decomposed_starter s ->
  Forall settled (lower_from before s).
Proof.
  intros (_ & Hlow & H962 & H963) H. revert before.
  induction H as [|c r Hc _ IH]; intros before; [constructor|].
  cbn [lower_from]. apply Forall_app. split; [|apply IH].
  destruct (c =? 931) eqn:E.
  - unfold handle_capital_sigma.
    match goal with |- context [if ?b then 962 else 963] => destruct b end;
      now constructor.
  - apply Z.eqb_neq in E. unfold tolower_full.
    destruct (is_ascii c) eqn:A.
    + constructor; [|constructor]. apply ascii_tolower_settled; auto.
      now destruct Hc as (_ & _ & Hs).
    + now apply Hlow.
Qed.

Lemma key_decomposed (s : pystr) :
  unicode_stable ->
  Forall decomposed_starter
    (filter (fun c => negb (Py_UNICODE_ISSPACE c))
       (filter (fun c => combining c =? 0) (flat_map compat_decomposition s))).
Proof.
  intros (Hdec & _). apply Forall_forall. intros d Hd.
  apply filter_In in Hd as [Hd Hs]. apply filter_In in Hd as [Hd Hc].
  apply in_flat_map in Hd as (c & _ & Hd).
  refine (conj _ (conj _ _)).
  - unfold compat_decomposition in Hd. destruct (is_ascii c) eqn:A.
    + destruct Hd as [<-|[]]. unfold compat_decomposition. now rewrite A.
    + now apply (Hdec c).
  - now apply Z.eqb_eq.
  - now apply negb_true_iff.
Qed.

End Idempotence.

(** C10, as stated, fails: the output of [normalize] can hold a combining
    mark.  The enclosing circle U+20DD is a mark of combining class 0, so the
    filter on the combining class keeps it: the text [a] followed by the
    circle is its own normalization. *)
Lemma normalize_keeps_combining_mark :
  lit "a⃝" = [97; 8413]
  /\ combining_mark 8413 = true
  /\ @normalize ucd_part (PyStr (lit "a⃝")) = lit "a⃝"
  /\ existsb combining_mark (@normalize ucd_part (PyStr (lit "a⃝"))) = true.
Proof.
  refine (conj _ (conj _ (conj _ _))); vm_compute; reflexivity.
Qed.

(** C10, amended.  Every character of the output of [normalize] is no white
    space, has combining class 0, does not decompose and is its own lower
    case (and is not the capital sigma, which [lower] treats by its
    context); [lower] leaves the output as it is; so [normalize] is
    idempotent: normalizing the output gives it back.  The property rests on
    the stability of the Unicode database stated in [unicode_stable]. *)
Theorem normalize_idempotent (U : UnicodeData) (x : PyValue) :
  unicode_stable ->
  Forall (fun c => Py_UNICODE_ISSPACE c = false
                   /\ combining c = 0
                   /\ compat_decomposition c = [c]
                   /\ tolower_full c = [c] /\ c <> 931)
    (normalize x)
  /\ lower (normalize x) = normalize x
  /\ normalize (PyStr (normalize x)) = normalize x.
Proof.
  intros HU.
  assert (Hy : Forall settled (normalize x)).
  { rewrite normalize_key. unfold lower.
    apply lower_from_settles; [exact HU|]. now apply key_decomposed. }
  refine (conj _ (conj _ _)).
  - eapply Forall_impl; [|exact Hy].
    intros c ((Hd & Hc & Hs) & Hl & Hne). auto.
  - unfold lower. now apply lower_from_settled.
  - rewrite (normalize_key (PyStr (normalize x))). cbn [str].
    rewrite key_of_settled by exact Hy.
    now apply lower_from_settled.
Qed.

Lemma starter_b_spec (c : codepoint) :
  starter_b c = true <-> @decomposed_starter ucd_part c.
Proof.
  unfold starter_b, decomposed_b, decomposed_starter.
  rewrite !andb_true_iff, pystr_eqb_eq, Z.eqb_eq, negb_true_iff. tauto.
Qed.

Lemma settled_b_spec (c : codepoint) :
  settled_b c = true <-> @settled ucd_part c.
Proof.
  unfold settled_b, settled.
  rewrite !andb_true_iff, starter_b_spec, pystr_eqb_eq, negb_true_iff,
    Z.eqb_neq. tauto.
Qed.

Lemma ucd_find_in (t : list (codepoint * ucd_entry)) (c : codepoint) (e : ucd_entry) :
  ucd_find t c = Some e -> In (c, e) t.
Proof.
  induction t as [|[k e'] t IH]; [discriminate|]. cbn [ucd_find].
  destruct (k =? c) eqn:E.
  - apply Z.eqb_eq in E. intros H. injection H as ->. subst. now left.
  - intros H. right. auto.
Qed.

Lemma ucd_table_stable : forallb stable_entry ucd_table = true.
Proof. vm_compute. reflexivity. Qed.

Lemma ucd_part_stable : @unicode_stable ucd_part.
Proof.
  pose proof ucd_table_stable as HT. rewrite forallb_forall in HT.
  refine (conj _ (conj _ (conj _ _))).
  - intros c d Ha Hd. cbn [unicode_compat ucd_part] in Hd.
    unfold ucd_lookup in Hd.
    destruct (ucd_find ucd_table c) as [e|] eqn:F.
    + apply ucd_find_in in F. apply HT in F. cbn [stable_entry] in F.
      apply andb_true_iff in F as [F _]. rewrite forallb_forall in F.
      apply F in Hd. now apply pystr_eqb_eq in Hd.
    + cbn in Hd. destruct Hd as [<-|[]].
      unfold compat_decomposition. rewrite Ha.
      cbn [unicode_compat ucd_part]. unfold ucd_lookup. now rewrite F.
  - intros c Ha Hc Hne. cbn [unicode_lower ucd_part]. unfold ucd_lookup.
    destruct (ucd_find ucd_table c) as [e|] eqn:F.
    + apply ucd_find_in in F. apply HT in F. cbn [stable_entry] in F.
      apply andb_true_iff in F as [_ F].
      apply starter_b_spec in Hc. rewrite Hc in F.
      apply Z.eqb_neq in Hne. rewrite Hne in F. cbn [negb andb] in F.
      rewrite forallb_forall in F. apply Forall_forall.
      intros d Hd. apply settled_b_spec. auto.
    + cbn. constructor; [|constructor]. refine (conj Hc (conj _ Hne)).
      unfold tolower_full. rewrite Ha.
      cbn [unicode_lower ucd_part]. unfold ucd_lookup. now rewrite F.
  - apply settled_b_spec. vm_compute. reflexivity.
  - apply settled_b_spec. vm_compute. reflexivity.
Qed.

(** The label [  NÚMERO ｎº AΣ ], with an accent, a capital sigma at the end
    of a word, a fullwidth letter, an ordinal indicator and white space. *)
Lemma normalize_idempotent_witness :
  @normalize ucd_part (PyStr (@normalize ucd_part (PyStr (lit "  NÚMERO ｎº AΣ "))))
  = @normalize ucd_part (PyStr (lit "  NÚMERO ｎº AΣ ")).
Proof.
  exact (proj2 (proj2
    (normalize_idempotent ucd_part (PyStr (lit "  NÚMERO ｎº AΣ "))
       ucd_part_stable))).
Defined.

(** ** The words of a text and the three replacements *)

Lemma split_words_spec (s word : pystr) :
  no_space word ->
  exists w rest,
    split_words word s = w :: rest
    /\ rev word ++ s = w ++ tails rest
    /\ Forall no_space (w :: rest).
Proof.
  revert word. induction s as [|c s IH]; intros word Hw.
  - exists (rev word), []. cbn. repeat split.
    constructor; [|constructor]. intros H. apply Hw. now apply in_rev.
  - cbn [split_words]. destruct (c =? 32) eqn:E.
    + apply Z.eqb_eq in E. subst c.
      destruct (IH [] ltac:(intros [])) as (w & rest & Hsp & Hj & Hf).
      exists (rev word), (w :: rest). rewrite Hsp. repeat split.
      * cbn [tails flat_map app]. cbn [rev app] in Hj. now rewrite Hj.
      * constructor; [|exact Hf]. intros H. apply Hw. now apply in_rev.
    + apply Z.eqb_neq in E.
      destruct (IH (c :: word)) as (w & rest & Hsp & Hj & Hf).
      { intros [H|H]; [congruence|now apply Hw]. }
      exists w, rest. rewrite Hsp. repeat split; auto.
      cbn [rev] in Hj. now rewrite <- app_assoc in Hj.
Qed.

Lemma split_at_first_space (w u a b : pystr) :
  no_space w -> no_space u -> w ++ 32 :: a = u ++ 32 :: b -> w = u /\ a = b.
Proof.
  revert u. induction w as [|c w IH]; intros u Hw Hu H.
  - destruct u as [|d u]; cbn in H.
    + injection H as ->. now split.
    + injection H as <- _. exfalso. apply Hu. now left.
  - destruct u as [|d u]; cbn in H.
    + injection H as -> _. exfalso. apply Hw. now left.
    + injection H as -> H. destruct (IH u) as [-> ->]; auto.
      * intros Hin. apply Hw. now right.
      * intros Hin. apply Hu. now right.
Qed.

(** No occurrence of a text that begins with a space begins inside a
    word. *)
Lemma replace_from_word (o new w t : pystr) :
  no_space w ->
  replace_from (32 :: o) new 0 (w ++ t) = w ++ replace_from (32 :: o) new 0 t.
Proof.
  induction w as [|c w IH]; intros Hw; [reflexivity|].
  cbn [app]. rewrite replace_from_nomatch.
  - rewrite IH; [reflexivity|]. intros H. apply Hw. now right.
  - cbn [startswith]. destruct (32 =? c) eqn:E; [|reflexivity].
    apply Z.eqb_eq in E. exfalso. apply Hw. now left.
Qed.

Lemma replace_from_in_word (old new w : pystr) :
  In 32 old -> no_space w -> replace_from old new 0 w = w.
Proof. intros Ho Hw. now apply (replace_from_absent_char _ _ _ 32). Qed.

Lemma tails_cons (u : pystr) (rest : list pystr) :
  tails (u :: rest) = 32 :: u ++ tails rest.
Proof. reflexivity. Qed.

(** *** The second replacement, of [UNO ] by [UN ] *)

Lemma drop_final_O_no_space (w : pystr) :
  no_space w -> no_space (drop_final_O w).
Proof.
  unfold no_space. induction w as [|c w IH]; intros Hw; [exact Hw|].
  cbn [drop_final_O]. destruct (pystr_eqb (c :: w) [85; 78; 79]).
  - intros [H|[H|[]]]; discriminate.
  - intros [H|H]; [apply Hw; now left|]. apply IH; [|exact H].
    intros Hin. apply Hw. now right.
Qed.

Lemma replace_UNO_space_word (w t : pystr) :
  no_space w ->
  replace_from [85; 78; 79; 32] [85; 78; 32] 0 (w ++ 32 :: t)
  = drop_final_O w ++ 32 :: replace_from [85; 78; 79; 32] [85; 78; 32] 0 t.
Proof.
  induction w as [|c w IH]; intros Hw.
  - cbn [app drop_final_O]. now rewrite replace_from_nomatch.
  - cbn [drop_final_O].
    destruct (pystr_eqb (c :: w) [85; 78; 79]) eqn:E.
    + apply pystr_eqb_eq in E. rewrite E.
      change ([85; 78; 79] ++ 32 :: t) with ([85; 78; 79; 32] ++ t).
      now rewrite (replace_from_match _ _ _ 85 [78; 79; 32]).
    + cbn [app]. rewrite replace_from_nomatch.
      * rewrite IH; [reflexivity|]. intros H. apply Hw. now right.
      * destruct (startswith [85; 78; 79; 32] (c :: w ++ 32 :: t)) eqn:S;
          [|first [reflexivity|exact S]].
        apply startswith_inv in S as [r S].
        change (c :: w ++ 32 :: t) with ((c :: w) ++ 32 :: t) in S.
        change ([85; 78; 79; 32] ++ r) with ([85; 78; 79] ++ 32 :: r) in S.
        apply split_at_first_space in S as [S _]; auto.
        -- rewrite S in E. now rewrite pystr_eqb_refl in E.
        -- intros [H|[H|[H|[]]]]; discriminate.
Qed.

Lemma join_but_last (f : pystr -> pystr) (w : pystr) (rest : list pystr) :
  exists w' rest',
    but_last f (w :: rest) = w' :: rest'
    /\ (rest = [] -> w' = w /\ rest' = [])
    /\ (rest <> [] -> w' = f w /\ rest' = but_last f rest).
Proof.
  destruct rest as [|u rest].
  - exists w, []. repeat split; congruence.
  - exists (f w), (but_last f (u :: rest)). repeat split; congruence.
Qed.

Lemma replace_UNO_space_words (w : pystr) (rest : list pystr) :
  Forall no_space (w :: rest) ->
  replace_from [85; 78; 79; 32] [85; 78; 32] 0 (join_words (w :: rest))
  = join_words (but_last drop_final_O (w :: rest)).
Proof.
  revert w. induction rest as [|u rest IH]; intros w H.
  - cbn [join_words flat_map but_last]. rewrite !app_nil_r.
    inversion H; subst. apply replace_from_in_word; [simpl; tauto|assumption].
  - inversion H as [|? ? Hw Hr]; subst.
    cbn [join_words]. fold (tails (u :: rest)). rewrite tails_cons.
    rewrite replace_UNO_space_word by exact Hw.
    change (u ++ tails rest) with (join_words (u :: rest)).
    rewrite IH by exact Hr.
    change (but_last drop_final_O (w :: u :: rest))
      with (drop_final_O w :: but_last drop_final_O (u :: rest)).
    destruct (join_but_last drop_final_O u rest) as (u' & rest' & -> & _).
    reflexivity.
Qed.

(** *** The first replacement, of [ UNO ] by [ UN ] *)

Lemma replaced_between_two (u v : pystr) (rest : list pystr) :
  replaced_between (u :: v :: rest)
  = if pystr_eqb u [85; 78; 79]
    then [85; 78] :: v :: replaced_between rest
    else u :: replaced_between (v :: rest).
Proof. reflexivity. Qed.

Lemma replace_space_UNO_space_tails (n : nat) (rest : list pystr) :
  (length rest <= n)%nat -> Forall no_space rest ->
  replace_from [32; 85; 78; 79; 32] [32; 85; 78; 32] 0 (tails rest)
  = tails (replaced_between rest).
Proof.
  revert rest. induction n as [|n IH]; intros rest Hn H.
  - destruct rest; [reflexivity|simpl in Hn; lia].
  - destruct rest as [|u [|v rest'']]; [reflexivity| |].
    + inversion H as [|? ? Hu _]; subst.
      cbn [tails flat_map replaced_between]. rewrite !app_nil_r.
      rewrite replace_from_nomatch.
      * f_equal. apply replace_from_in_word; [simpl; tauto|exact Hu].
      * destruct (startswith [32; 85; 78; 79; 32] (32 :: u)) eqn:S;
          [|first [reflexivity|exact S]].
        apply startswith_inv in S as [r S]. injection S as S.
        exfalso. apply Hu. rewrite S. simpl. tauto.
    + inversion H as [|? ? Hu Hr]; subst.
      inversion Hr as [|? ? Hv Hr']; subst.
      rewrite replaced_between_two, !tails_cons.
      destruct (pystr_eqb u [85; 78; 79]) eqn:E.
      * apply pystr_eqb_eq in E. subst u. rewrite !tails_cons.
        change (32 :: [85; 78; 79] ++ 32 :: v ++ tails rest'')
          with ([32; 85; 78; 79; 32] ++ v ++ tails rest'').
        rewrite (replace_from_match _ _ _ 32 [85; 78; 79; 32]) by reflexivity.
        rewrite replace_from_word by exact Hv.
        rewrite IH; [reflexivity| |exact Hr']. simpl in Hn. lia.
      * rewrite replace_from_nomatch.
        -- rewrite replace_from_word by exact Hu.
           rewrite <- tails_cons. rewrite IH; [reflexivity| |exact Hr].
           simpl in *. lia.
        -- destruct (startswith [32; 85; 78; 79; 32]
                       (32 :: u ++ 32 :: v ++ tails rest'')) eqn:S;
             [|first [reflexivity|exact S]].
           apply startswith_inv in S as [r S]. injection S as S.
           change (85 :: 78 :: 79 :: 32 :: r) with ([85; 78; 79] ++ 32 :: r) in S.
           apply split_at_first_space in S as [S _]; auto.
           ++ subst u. now rewrite pystr_eqb_refl in E.
           ++ intros [F|[F|[F|[]]]]; discriminate.
Qed.

Lemma replaced_between_no_space (n : nat) (rest : list pystr) :
  (length rest <= n)%nat -> Forall no_space rest ->
  Forall no_space (replaced_between rest).
Proof.
  revert rest. induction n as [|n IH]; intros rest Hn H.
  - destruct rest; [constructor|simpl in Hn; lia].
  - destruct rest as [|u [|v rest'']]; [constructor|exact H|].
    inversion H as [|? ? Hu Hr]; subst.
    inversion Hr as [|? ? Hv Hr']; subst.
    rewrite replaced_between_two. simpl in Hn.
    destruct (pystr_eqb u [85; 78; 79]).
    + constructor; [intros [F|[F|[]]]; discriminate|].
      constructor; [exact Hv|]. apply IH; [lia|exact Hr'].
    + constructor; [exact Hu|]. apply IH; [simpl; lia|exact Hr].
Qed.

(** The second replacement does not see what the first one did. *)
Lemma but_last_replaced_between (n : nat) (rest : list pystr) (w : pystr) :
  (length rest <= n)%nat ->
  but_last drop_final_O (w :: replaced_between rest)
  = but_last drop_final_O (w :: rest).
Proof.
  revert rest w. induction n as [|n IH]; intros rest w Hn.
  - destruct rest; [reflexivity|simpl in Hn; lia].
  - destruct rest as [|u [|v rest'']]; [reflexivity|reflexivity|].
    rewrite replaced_between_two. simpl in Hn.
    destruct (pystr_eqb u [85; 78; 79]) eqn:E.
    + apply pystr_eqb_eq in E. subst u.
      change (but_last drop_final_O (w :: [85; 78] :: v :: replaced_between rest''))
        with (drop_final_O w :: drop_final_O [85; 78]
                :: but_last drop_final_O (v :: replaced_between rest'')).
      change (but_last drop_final_O (w :: [85; 78; 79] :: v :: rest''))
        with (drop_final_O w :: drop_final_O [85; 78; 79]
                :: but_last drop_final_O (v :: rest'')).
      rewrite IH by lia. reflexivity.
    + change (but_last drop_final_O (w :: u :: v :: rest''))
        with (drop_final_O w :: but_last drop_final_O (u :: v :: rest'')).
      rewrite <- (IH (v :: rest'') u) by (simpl; lia).
      destruct (replaced_between (v :: rest'')) as [|x r] eqn:R.
      * destruct rest''; cbn in R; [discriminate|].
        destruct (pystr_eqb v [85; 78; 79]); discriminate.
      * reflexivity.
Qed.

(** *** The third replacement, of [ UNO] by [ UN] *)

Lemma startswith_word (t u T : pystr) :
  no_space t -> (T = [] \/ exists T', T = 32 :: T') ->
  startswith t (u ++ T) = startswith t u.
Proof.
  intros Ht HT. destruct (startswith t u) eqn:E.
  - now apply startswith_longer.
  - revert u E. induction t as [|c t IH]; intros u E; [discriminate|].
    assert (Ht' : no_space t) by (intros H; apply Ht; now right).
    destruct u as [|d u].
    + cbn [app]. destruct HT as [->|(T' & ->)]; [reflexivity|].
      cbn [startswith]. destruct (c =? 32) eqn:C; [|reflexivity].
      apply Z.eqb_eq in C. exfalso. apply Ht. now left.
    + cbn [app startswith] in *. destruct (c =? d); [|reflexivity].
      cbn [andb] in *. now apply IH.
Qed.

Lemma tails_shape (rest : list pystr) :
  tails rest = [] \/ exists T', tails rest = 32 :: T'.
Proof. destruct rest; [now left|right]. rewrite tails_cons. eauto. Qed.

Lemma replace_space_UNO_tails (rest : list pystr) :
  Forall no_space rest ->
  replace_from [32; 85; 78; 79] [32; 85; 78] 0 (tails rest)
  = tails (map drop_leading_O rest).
Proof.
  induction 1 as [|u rest Hu _ IH]; [reflexivity|].
  cbn [map]. rewrite !tails_cons. unfold drop_leading_O.
  destruct (startswith [85; 78; 79] u) eqn:E.
  - apply startswith_inv in E as [u' ->].
    change (32 :: ([85; 78; 79] ++ u') ++ tails rest)
      with ([32; 85; 78; 79] ++ u' ++ tails rest).
    rewrite (replace_from_match _ _ _ 32 [85; 78; 79]) by reflexivity.
    rewrite replace_from_word.
    + rewrite IH. reflexivity.
    + intros H. apply Hu. apply in_or_app. now right.
  - rewrite replace_from_nomatch.
    + rewrite replace_from_word by exact Hu. now rewrite IH.
    + cbn [startswith]. cbn [Z.eqb Pos.eqb andb].
      change (startswith [85; 78; 79] (u ++ tails rest) = false).
      rewrite startswith_word; [exact E| |apply tails_shape].
      intros [F|[F|[F|[]]]]; discriminate.
Qed.

Lemma but_last_no_space (ws : list pystr) :
  Forall no_space ws -> Forall no_space (but_last drop_final_O ws).
Proof.
  induction 1 as [|w rest Hw Hr IH]; [constructor|].
  destruct rest as [|u rest]; [now constructor|].
  change (but_last drop_final_O (w :: u :: rest))
    with (drop_final_O w :: but_last drop_final_O (u :: rest)).
  constructor; [now apply drop_final_O_no_space|exact IH].
Qed.

(** The three replacements on a text given by its words *)
Lemma uno_a_un_words (ws : list pystr) :
  Forall no_space ws ->
  uno_a_un (join_words ws) = join_words (un_words ws).
Proof.
  intros H. destruct ws as [|w rest]; [reflexivity|].
  inversion H as [|? ? Hw Hr]; subst.
  unfold uno_a_un, replace.
  (* the first replacement *)
  cbn [join_words]. fold (tails rest).
  rewrite replace_from_word by exact Hw.
  rewrite (replace_space_UNO_space_tails (length rest)) by auto.
  (* the second *)
  change (w ++ tails (replaced_between rest))
    with (join_words (w :: replaced_between rest)).
  rewrite replace_UNO_space_words.
  2:{ constructor; [exact Hw|].
      now apply (replaced_between_no_space (length rest)). }
  rewrite (but_last_replaced_between (length rest)) by auto.
  (* the third *)
  unfold un_words. pose proof (but_last_no_space _ H) as Hb.
  destruct (but_last drop_final_O (w :: rest)) as [|w' rest'];
    [reflexivity|].
  inversion Hb as [|? ? Hw' Hr']; subst.
  cbn [join_words but_first]. fold (tails rest') (tails (map drop_leading_O rest')).
  rewrite replace_from_word by exact Hw'.
  now rewrite replace_space_UNO_tails.
Qed.

(** C5, as stated, fails.  Under the model of [num2words] the cardinal text
    of 21000 is [VEINTIUNO MIL], and the replacements turn the compound word
    into [VEINTIUN], where a replacement of whole words leaves the text as it
    is; the cardinal text of 1 is the whole word [UNO], which the replacements
    leave as it is, where a replacement of whole words gives [UN]. *)
Lemma uno_a_un_not_whole_words :
  (to_cardinal 21000 = Ok (lit "veintiuno mil")
   /\ @upper ucd_part (lit "veintiuno mil") = lit "VEINTIUNO MIL"
   /\ uno_a_un (lit "VEINTIUNO MIL") = lit "VEINTIUN MIL"
   /\ whole_word_uno_a_un (lit "VEINTIUNO MIL") = lit "VEINTIUNO MIL"
   /\ uno_a_un (lit "VEINTIUNO MIL") <> whole_word_uno_a_un (lit "VEINTIUNO MIL"))
  /\ (to_cardinal 1 = Ok (lit "uno")
      /\ @upper ucd_part (lit "uno") = lit "UNO"
      /\ uno_a_un (lit "UNO") = lit "UNO"
      /\ whole_word_uno_a_un (lit "UNO") = lit "UN"
      /\ uno_a_un (lit "UNO") <> whole_word_uno_a_un (lit "UNO")).
Proof.
  split; refine (conj _ (conj _ (conj _ (conj _ _)))); vm_compute;
    try reflexivity; discriminate.
Qed.

(** C5, amended.  The three replacements act on the words of the text, the
    parts between single spaces, as follows: every word but the last that is
    [UNO] or ends in [UNO] loses its final [O]; after that, every word but
    the first that begins with [UNO] loses that [O]; and nothing else
    changes.  So [UNO] as a whole word becomes [UN] when another word follows
    or precedes it, a compound such as [VEINTIUNO] becomes [VEINTIUN] when
    another word follows it, and both the text [UNO] alone and a compound at
    the end of the text stay as they are. *)
Theorem uno_a_un_by_words (texto_numero : pystr) :
  uno_a_un texto_numero = join_words (un_words (split_words [] texto_numero))
  /\ uno_a_un (lit "TREINTA Y UNO MIL") = lit "TREINTA Y UN MIL"
  /\ uno_a_un (lit "CIENTO UNO") = lit "CIENTO UN"
  /\ uno_a_un (lit "VEINTIUNO MIL") = lit "VEINTIUN MIL"
  /\ uno_a_un (lit "CIENTO VEINTIUNO") = lit "CIENTO VEINTIUNO"
  /\ uno_a_un (lit "UNO") = lit "UNO".
Proof.
  split; [|refine (conj _ (conj _ (conj _ (conj _ _)))); vm_compute; reflexivity].
  destruct (split_words_spec texto_numero []) as (w & rest & Hsp & Hj & Hf).
  { intros []. }
  rewrite Hsp. cbn [rev app] in Hj. rewrite Hj.
  now apply (uno_a_un_words (w :: rest)).
Qed.

(** ** The examples of the specification, end to end *)

(** The resolver returns the label [Número] for the column [Número], the
    label with its spaces for the column [  Num  ], and none for the
    columns [Fecha] and [Monto]. *)
Theorem find_num_column_examples :
  @find_num_column ucd_part [PyStr (lit "Número")] = Some (PyStr (lit "Número"))
  /\ @find_num_column ucd_part [PyStr (lit "  Num  ")]
     = Some (PyStr (lit "  Num  "))
  /\ @find_num_column ucd_part [PyStr (lit "Fecha"); PyStr (lit "Monto")] = None.
Proof.
  refine (conj _ (conj _ _)); vm_compute; reflexivity.
Qed.

(** A dataset whose column [NÚMERO] holds 1, 0, 1523.45 and the text [abc]:
    the column is found, and the rendered column holds the three phrases and
    the empty string for the last row. *)
Theorem batch_scenario :
  @find_num_column ucd_part [PyStr (lit "Fecha"); PyStr (lit "NÚMERO")]
  = Some (PyStr (lit "NÚMERO"))
  /\ apply_rows (@numero_a_texto ucd_part num2words_es)
       [PyInt 1; PyInt 0; PyFloat float_1523_45; PyStr (lit "abc")]
     = Ok [lit "UN PESO 00/100 M.N."; lit "CERO PESOS 00/100 M.N.";
           lit "MIL QUINIENTOS VEINTITRÉS PESOS 45/100 M.N."; []].
Proof.
  split; vm_compute; reflexivity.
Qed.

(** ** The name of an uploaded file *)

Lemma rsplit_once_none (sep : codepoint) (s : pystr) :
  ~ In sep s -> rsplit_once sep s = [s].
Proof.
  induction s as [|c r IH]; intros H; [reflexivity|].
  cbn [rsplit_once]. rewrite IH by (intros Hin; apply H; now right).
  destruct (c =? sep) eqn:E; [|reflexivity].
  apply Z.eqb_eq in E. exfalso. apply H. now left.
Qed.

Lemma rsplit_once_last (sep : codepoint) (base ext : pystr) :
  ~ In sep ext -> rsplit_once sep (base ++ sep :: ext) = [base; ext].
Proof.
  intros H. induction base as [|c b IH].
  - cbn [app rsplit_once]. rewrite (rsplit_once_none sep ext H).
    now rewrite Z.eqb_refl.
  - cbn [app rsplit_once]. now rewrite IH.
Qed.

Lemma split_at_last (sep : codepoint) (s : pystr) :
  In sep s -> exists base ext, s = base ++ sep :: ext /\ ~ In sep ext.
Proof.
  induction s as [|c r IH]; intros H; [destruct H|].
  destruct (in_dec Z.eq_dec sep r) as [Hr|Hr].
  - destruct (IH Hr) as (base & ext & -> & Hext).
    now exists (c :: base), ext.
  - destruct H as [->|H]; [|contradiction].
    now exists [], r.
Qed.

Lemma split_at_last_unique (sep : codepoint) (b1 e1 b2 e2 : pystr) :
  ~ In sep e1 -> ~ In sep e2 -> b1 ++ sep :: e1 = b2 ++ sep :: e2 ->
  b1 = b2 /\ e1 = e2.
Proof.
  intros H1 H2 E.
  assert (R : [b1; e1] = [b2; e2]).
  { rewrite <- (rsplit_once_last sep b1 e1 H1), <- (rsplit_once_last sep b2 e2 H2).
    now rewrite E. }
  now inversion R.
Qed.

Lemma existsb_char (c : codepoint) (s : pystr) :
  existsb (Z.eqb c) s = true <-> In c s.
Proof.
  rewrite existsb_exists. split.
  - intros (x & Hin & E). apply Z.eqb_eq in E. now subst.
  - intros H. exists c. split; [exact H|apply Z.eqb_refl].
Qed.

Lemma existsb_pystr (t : pystr) (l : list pystr) :
  existsb (pystr_eqb t) l = true <-> In t l.
Proof.
  rewrite existsb_exists. split.
  - intros (x & Hin & E). apply pystr_eqb_eq in E. now subst.
  - intros H. exists t. split; [exact H|apply pystr_eqb_refl].
Qed.

Section FileNames.
Context {U : UnicodeData}.

(** The three outcomes of [validate_file] on a file with a name *)
Lemma validate_file_named (f : FileStorage) (c : codepoint) (name : pystr) :
  filename f = Some (c :: name) ->
  validate_file (Some f)
  = if existsb (Z.eqb 46) (c :: name)
    then
      match rsplit_once 46 (c :: name) with
      | [_; after] =>
          if existsb (pystr_eqb (lower after)) [lit "xlsx"; lit "xls"]
          then Done (true, [])
          else Done (false, lit "Solo se permiten archivos Excel (.xlsx, .xls).")
      | _ => Failed IndexError
      end
    else Done (false, lit "El archivo debe tener una extensión válida.").
Proof.
  intros Hn. unfold validate_file, file_bool. rewrite Hn.
  cbn [negb orb].
  destruct (existsb (Z.eqb 46) (c :: name)) eqn:E; [|reflexivity].
  cbn [negb].
  apply existsb_char in E. destruct (split_at_last 46 _ E) as (base & ext & Hs & Hext).
  rewrite Hs, (rsplit_once_last 46 base ext Hext).
  cbn [getitem nth_error and_then].
  now destruct (existsb (pystr_eqb (lower ext)) _).
Qed.

End FileNames.

Section FileVerdict.
Context {U : UnicodeData}.

(** What [validate_file] returns, by the shape of the name *)
Lemma validate_file_cases (file : option FileStorage) :
  match file with
  | None =>
      validate_file file = Done (false, lit "No se proporcionó ningún archivo.")
  | Some f =>
      match filename f with
      | None | Some [] =>
          validate_file file
          = Done (false, lit "No se proporcionó ningún archivo.")
      | Some name =>
          (~ In 46 name
           /\ validate_file file
              = Done (false, lit "El archivo debe tener una extensión válida."))
          \/ (exists base ext,
                name = base ++ 46 :: ext /\ ~ In 46 ext
                /\ validate_file file
                   = if existsb (pystr_eqb (lower ext)) [lit "xlsx"; lit "xls"]
                     then Done (true, [])
                     else Done (false,
                                lit "Solo se permiten archivos Excel (.xlsx, .xls)."))
      end
  end.
Proof.
  destruct file as [f|]; [|reflexivity].
  destruct (filename f) as [[|c name]|] eqn:Hn.
  - unfold validate_file, file_bool. now rewrite Hn.
  - rewrite (validate_file_named f c name Hn).
    destruct (existsb (Z.eqb 46) (c :: name)) eqn:E.
    + right. apply existsb_char in E.
      destruct (split_at_last 46 _ E) as (base & ext & Hs & Hext).
      exists base, ext. rewrite Hs at 2.
      rewrite (rsplit_once_last 46 base ext Hext). now repeat split.
    + left. split; [|reflexivity].
      intros Hin. apply existsb_char in Hin. congruence.
  - unfold validate_file, file_bool. now rewrite Hn.
Qed.

End FileVerdict.

(** [validate_file] never raises and has four outcomes.  It accepts a file
    exactly when its name has a last full stop and the text after it, in
    lower case, is [xlsx] or [xls]; it reports that no file was given exactly
    when there is no file or the file has no name or an empty one; that the
    extension is missing exactly when the name is not empty and holds no
    full stop; and that only Excel files are allowed exactly when the text
    after the last full stop is, in lower case, neither [xlsx] nor [xls]. *)
Theorem validate_file_verdict (U : UnicodeData) (file : option FileStorage) :
  (validate_file file = Done (true, [])
   <-> exists f base ext,
         file = Some f /\ filename f = Some (base ++ 46 :: ext)
         /\ ~ In 46 ext /\ In (lower ext) [lit "xlsx"; lit "xls"])
  /\ (validate_file file = Done (false, lit "No se proporcionó ningún archivo.")
      <-> file = None
          \/ exists f, file = Some f
                       /\ (filename f = None \/ filename f = Some []))
  /\ (validate_file file
      = Done (false, lit "El archivo debe tener una extensión válida.")
      <-> exists f name,
            file = Some f /\ filename f = Some name
            /\ name <> [] /\ ~ In 46 name)
  /\ (validate_file file
      = Done (false, lit "Solo se permiten archivos Excel (.xlsx, .xls).")
      <-> exists f base ext,
            file = Some f /\ filename f = Some (base ++ 46 :: ext)
            /\ ~ In 46 ext /\ ~ In (lower ext) [lit "xlsx"; lit "xls"])
  /\ (validate_file file = Done (true, [])
      \/ validate_file file = Done (false, lit "No se proporcionó ningún archivo.")
      \/ validate_file file
         = Done (false, lit "El archivo debe tener una extensión válida.")
      \/ validate_file file
         = Done (false, lit "Solo se permiten archivos Excel (.xlsx, .xls).")).
Proof.
  pose proof (validate_file_cases file) as C.
  destruct file as [f|].
  2:{ rewrite C. refine (conj _ (conj _ (conj _ (conj _ _)))).
      - split; [discriminate|]. intros (f & b & e & H & _). discriminate.
      - split; [now left|reflexivity].
      - split; [discriminate|]. intros (f & n & H & _). discriminate.
      - split; [discriminate|]. intros (f & b & e & H & _). discriminate.
      - right. now left. }
  destruct (filename f) as [[|c name]|] eqn:Hn.
  - rewrite C. refine (conj _ (conj _ (conj _ (conj _ _)))).
    + split; [discriminate|]. intros (g & b & e & Hg & Hf & _).
      injection Hg as <-. rewrite Hn in Hf. destruct b; discriminate.
    + split; [|reflexivity]. intros _. right. exists f. split; [reflexivity|].
      now right.
    + split; [discriminate|]. intros (g & n & Hg & Hf & Hne & _).
      injection Hg as <-. rewrite Hn in Hf. congruence.
    + split; [discriminate|]. intros (g & b & e & Hg & Hf & _).
      injection Hg as <-. rewrite Hn in Hf. destruct b; discriminate.
    + right. now left.
  - destruct C as [[Hdot C]|(base & ext & Hs & Hext & C)]; rewrite C.
    + refine (conj _ (conj _ (conj _ (conj _ _)))).
      * split; [discriminate|]. intros (g & b & e & Hg & Hf & _).
        injection Hg as <-. rewrite Hn in Hf. injection Hf as Hf.
        exfalso. apply Hdot. rewrite Hf. apply in_or_app. right. now left.
      * split; [discriminate|]. intros [H|(g & Hg & [H|H])]; [discriminate| |].
        -- injection Hg as <-. congruence.
        -- injection Hg as <-. congruence.
      * split; [|reflexivity]. intros _. exists f, (c :: name).
        repeat split; [exact Hn|discriminate|exact Hdot].
      * split; [discriminate|]. intros (g & b & e & Hg & Hf & _).
        injection Hg as <-. rewrite Hn in Hf. injection Hf as Hf.
        exfalso. apply Hdot. rewrite Hf. apply in_or_app. right. now left.
      * right. right. now left.
    + assert (Huniq : forall g b e,
                Some f = Some g -> filename g = Some (b ++ 46 :: e) ->
                ~ In 46 e -> e = ext).
      { intros g b e Hg Hf He. injection Hg as <-. rewrite Hn in Hf.
        injection Hf as Hf. rewrite Hs in Hf.
        now destruct (split_at_last_unique 46 b e base ext He Hext (eq_sym Hf)). }
      destruct (existsb (pystr_eqb (lower ext)) [lit "xlsx"; lit "xls"]) eqn:E.
      * apply existsb_pystr in E.
        refine (conj _ (conj _ (conj _ (conj _ _)))).
        -- split; [|reflexivity]. intros _. exists f, base, ext.
           rewrite <- Hs. now repeat split.
        -- split; [discriminate|]. intros [H|(g & Hg & [H|H])]; [discriminate| |].
           ++ injection Hg as <-. congruence.
           ++ injection Hg as <-. congruence.
        -- split; [discriminate|]. intros (g & n & Hg & Hf & _ & Hdot).
           injection Hg as <-. rewrite Hn in Hf. injection Hf as <-.
           exfalso. apply Hdot. rewrite Hs. apply in_or_app. right. now left.
        -- split; [discriminate|]. intros (g & b & e & Hg & Hf & He & Hno).
           rewrite (Huniq g b e Hg Hf He) in Hno. contradiction.
        -- now left.
      * assert (Hno : ~ In (lower ext) [lit "xlsx"; lit "xls"]).
        { intros Hin. apply existsb_pystr in Hin. congruence. }
        refine (conj _ (conj _ (conj _ (conj _ _)))).
        -- split; [discriminate|]. intros (g & b & e & Hg & Hf & He & Hin).
           rewrite (Huniq g b e Hg Hf He) in Hin. contradiction.
        -- split; [discriminate|]. intros [H|(g & Hg & [H|H])]; [discriminate| |].
           ++ injection Hg as <-. congruence.
           ++ injection Hg as <-. congruence.
        -- split; [discriminate|]. intros (g & n & Hg & Hf & _ & Hdot).
           injection Hg as <-. rewrite Hn in Hf. injection Hf as <-.
           exfalso. apply Hdot. rewrite Hs. apply in_or_app. right. now left.
        -- split; [|reflexivity]. intros _. exists f, base, ext.
           rewrite <- Hs. now repeat split.
        -- right. right. now right.
  - rewrite C. refine (conj _ (conj _ (conj _ (conj _ _)))).
    + split; [discriminate|]. intros (g & b & e & Hg & Hf & _).
      injection Hg as <-. congruence.
    + split; [|reflexivity]. intros _. right. exists f. split; [reflexivity|].
      now left.
    + split; [discriminate|]. intros (g & n & Hg & Hf & _).
      injection Hg as <-. congruence.
    + split; [discriminate|]. intros (g & b & e & Hg & Hf & _).
      injection Hg as <-. congruence.
    + right. now left.
Qed.

(** ** Texts of ASCII characters *)

Section AsciiTexts.
Context {U : UnicodeData}.

Lemma lower_from_ascii (s before : pystr) :
  Forall (fun c => is_ascii c = true) s ->
  lower_from before s = map ascii_tolower s.
Proof.
  intros H. revert before.
  induction H as [|c r Hc Hr IH]; intros before; [reflexivity|].
  cbn [lower_from map]. rewrite IH.
  assert (E : (c =? 931) = false) by (unfold is_ascii in Hc; bool_lia).
  rewrite E. unfold tolower_full. now rewrite Hc.
Qed.

Lemma lower_ascii (s : pystr) :
  Forall (fun c => is_ascii c = true) s -> lower s = map ascii_tolower s.
Proof. apply lower_from_ascii. Qed.

Lemma compat_ascii (s : pystr) :
  Forall (fun c => is_ascii c = true) s -> flat_map compat_decomposition s = s.
Proof.
  induction 1 as [|c r Hc Hr IH]; [reflexivity|].
  cbn [flat_map]. unfold compat_decomposition at 1. rewrite Hc, IH. reflexivity.
Qed.

Lemma starters_ascii (s : pystr) :
  Forall (fun c => is_ascii c = true) s ->
  filter (fun c => combining c =? 0) s = s.
Proof.
  induction 1 as [|c r Hc Hr IH]; [reflexivity|].
  cbn [filter]. unfold combining at 1. rewrite Hc, IH. reflexivity.
Qed.

Lemma Forall_filter_chars (P : codepoint -> Prop) (f : codepoint -> bool) (s : pystr) :
  Forall P s -> Forall P (filter f s).
Proof.
  induction 1 as [|c r Hc Hr IH]; [constructor|].
  cbn [filter]. destruct (f c); [now constructor|exact IH].
Qed.

Lemma normalize_of_ascii (s : pystr) :
  Forall (fun c => is_ascii c = true) s ->
  normalize (PyStr s) = map ascii_tolower (remove_whitespace s).
Proof.
  intros H. rewrite normalize_key. cbn [str].
  rewrite (compat_ascii s H), (starters_ascii s H).
  apply lower_ascii. now apply Forall_filter_chars.
Qed.

End AsciiTexts.

(** The letters of [xlsx] and [xls], in either case *)
Lemma tolower_xls (c : codepoint) :
  In (ascii_tolower c) [120; 108; 115] -> is_ascii c = true /\ c <> 46.
Proof.
  unfold ascii_tolower, is_ascii_upper, is_ascii.
  destruct ((65 <=? c) && (c <=? 90)) eqn:E; cbn [In]; intros H; split; bool_lia.
Qed.

Lemma extension_chars (ext : pystr) :
  In (map ascii_tolower ext) [lit "xlsx"; lit "xls"] ->
  Forall (fun c => is_ascii c = true) ext /\ ~ In 46 ext.
Proof.
  intros H.
  assert (A : forall c, In c ext -> In (ascii_tolower c) [120; 108; 115]).
  { intros c Hc. apply (in_map ascii_tolower) in Hc.
    destruct H as [H|[H|[]]]; rewrite <- H in Hc; cbn [In] in *; intuition. }
  split.
  - apply Forall_forall. intros c Hc. now apply tolower_xls, A.
  - intros Hc. now destruct (tolower_xls 46 (A 46 Hc)).
Qed.

(** Only the text after the last full stop of the name counts, and its
    case does not: a file whose name ends in a full stop followed by [xlsx]
    or [xls], in any mix of capital and small letters, is accepted, whatever
    stands before that full stop. *)
Theorem validate_file_extension
  (U : UnicodeData) (f : FileStorage) (base ext : pystr) :
  filename f = Some (base ++ 46 :: ext) ->
  In (map ascii_tolower ext) [lit "xlsx"; lit "xls"] ->
  validate_file (Some f) = Done (true, []).
Proof.
  intros Hn Hext. destruct (extension_chars ext Hext) as [Hascii Hdot].
  pose proof (validate_file_cases (Some f)) as C. cbn beta iota in C.
  rewrite Hn in C. destruct (base ++ 46 :: ext) as [|c name] eqn:Hs.
  { destruct base; discriminate. }
  destruct C as [[Hno _]|(b & e & Hbe & He & C)].
  - exfalso. apply Hno. rewrite <- Hs. apply in_or_app. right. now left.
  - rewrite <- Hs in Hbe.
    destruct (split_at_last_unique 46 base ext b e Hdot He Hbe) as [_ <-].
    rewrite C, (lower_ascii ext Hascii).
    apply existsb_pystr in Hext. now rewrite Hext.
Qed.

Lemma validate_file_extension_witness :
  @validate_file ucd_part
    (Some {| filename := Some (lit "Reporte.2024.XLSX"); stream := [] |})
  = Done (true, []).
Proof.
  apply (validate_file_extension ucd_part _ (lit "Reporte.2024") (lit "XLSX")).
  - reflexivity.
  - vm_compute. now left.
Defined.

(** ** Labels of ASCII characters, and labels that are no text *)

(** On a label of ASCII characters [normalize] removes the white space,
    wherever it stands in the label, and turns the capital letters into
    small ones, and does nothing else; so such a label is resolved exactly
    when its characters other than white space spell [numero] or [num] in any
    mix of capital and small letters. *)
Theorem normalize_ascii_label
  (U : UnicodeData) (s : pystr) (rest : list PyValue) :
  Forall (fun c => is_ascii c = true) s ->
  normalize (PyStr s) = map ascii_tolower (remove_whitespace s)
  /\ find_num_column (PyStr s :: rest)
     = if existsb (pystr_eqb (map ascii_tolower (remove_whitespace s)))
            COLUMN_ALIASES
       then Some (PyStr s)
       else find_num_column rest.
Proof.
  intros H. split; [now apply normalize_of_ascii|].
  cbn [find_num_column]. now rewrite (normalize_of_ascii s H).
Qed.

Lemma normalize_ascii_label_witness :
  @normalize ucd_part (PyStr (lit " N u M e R O "))
  = map ascii_tolower (remove_whitespace (lit " N u M e R O "))
  /\ @find_num_column ucd_part [PyStr (lit " N u M e R O "); PyStr (lit "num")]
     = if existsb
            (pystr_eqb (map ascii_tolower (remove_whitespace (lit " N u M e R O "))))
            COLUMN_ALIASES
       then Some (PyStr (lit " N u M e R O "))
       else @find_num_column ucd_part [PyStr (lit "num")].
Proof.
  apply (normalize_ascii_label ucd_part).
  repeat constructor.
Defined.

Section LabelsThatAreNoText.
Context {U : UnicodeData}.

Lemma number_char_ascii (c : codepoint) :
  number_char c = true -> is_ascii c = true /\ ascii_tolower c <> 117.
Proof.
  unfold number_char, is_digit, is_ascii, ascii_tolower, is_ascii_upper.
  intros H. destruct ((65 <=? c) && (c <=? 90)) eqn:E; split; bool_lia.
Qed.

Lemma normalize_number_text (value : PyValue) :
  Forall (fun c => number_char c = true) (str value) ->
  ~ In 117 (normalize value).
Proof.
  intros H.
  assert (A : Forall (fun c => is_ascii c = true) (str value)).
  { eapply Forall_impl; [|exact H]. intros c Hc. now apply number_char_ascii. }
  assert (E : normalize value = normalize (PyStr (str value))) by reflexivity.
  rewrite E, (normalize_of_ascii _ A). intros Hin.
  apply in_map_iff in Hin. destruct Hin as (c & Hc & Hin).
  apply filter_In in Hin. destruct Hin as [Hin _].
  rewrite Forall_forall in H. specialize (H c Hin).
  now destruct (number_char_ascii c H).
Qed.

Lemma alias_has_u (key : pystr) : In key COLUMN_ALIASES -> In 117 key.
Proof.
  intros [<-|[<-|[]]]; cbn; tauto.
Qed.

Lemma is_alias_text (label : PyValue) :
  is_alias label = true -> exists s, label = PyStr s /\ s <> [].
Proof.
  unfold is_alias. intros H. apply existsb_pystr in H.
  pose proof (alias_has_u _ H) as Hu.
  destruct label as [|s|n|x].
  - exfalso. revert Hu.
    assert (E : normalize PyNone = normalize (PyStr (lit "None"))) by reflexivity.
    rewrite E, normalize_of_ascii by (repeat constructor).
    cbn. intuition discriminate.
  - exists s. split; [reflexivity|]. intros ->.
    rewrite (normalize_of_ascii []) in Hu by constructor. exact Hu.
  - exfalso. apply (normalize_number_text (PyInt n)); [|exact Hu].
    apply str_of_Z_chars.
  - exfalso. apply (normalize_number_text (PyFloat x)); [|exact Hu].
    apply float_repr_chars.
Qed.

End LabelsThatAreNoText.

(** A label that [find_num_column] returns is a text, and not the empty
    one: [None] and the numbers among the labels are never resolved, and the
    test [if not col] of [convertir_excel] fails for no label that was
    found. *)
Theorem find_num_column_label_is_text
  (U : UnicodeData) (columns : list PyValue) (label : PyValue) :
  find_num_column columns = Some label ->
  (exists s, label = PyStr s /\ s <> []) /\ truthy label = true.
Proof.
  rewrite find_num_column_find. intros H.
  apply find_some in H as [_ H].
  destruct (is_alias_text label H) as (s & -> & Hs).
  split; [now exists s|]. now destruct s.
Qed.

Lemma find_num_column_label_is_text_witness :
  (exists s, PyStr (lit "Num") = PyStr s /\ s <> [])
  /\ truthy (PyStr (lit "Num")) = true.
Proof.
  apply (find_num_column_label_is_text ucd_part
           [PyInt 2024; PyNone; PyStr (lit "Num")]).
  vm_compute. reflexivity.
Defined.

(** ** Currency symbols and white space around an amount *)

Lemma startswith_sep (old a b : pystr) (c : codepoint) :
  ~ In c old -> startswith old (a ++ c :: b) = true -> startswith old a = true.
Proof.
  revert a. induction old as [|o old IH]; intros a Hc H; [now destruct a|].
  destruct a as [|x a].
  - cbn [app startswith] in H. apply andb_true_iff in H as [H _].
    apply Z.eqb_eq in H. exfalso. apply Hc. now left.
  - cbn [app startswith] in *. apply andb_true_iff in H as [H1 H2].
    rewrite H1. cbn [andb]. apply IH; [|exact H2].
    intros Hin. apply Hc. now right.
Qed.

(** A character that the old text does not hold separates what
    [str.replace] does before it from what it does after it. *)
Lemma replace_from_sep (old new : pystr) (c : codepoint) (n : nat) (a b : pystr) :
  (length a <= n)%nat -> old <> [] -> ~ In c old ->
  replace_from old new 0 (a ++ c :: b)
  = replace_from old new 0 a ++ c :: replace_from old new 0 b.
Proof.
  revert a. induction n as [|n IH]; intros a Hlen Hold Hc.
  - destruct a; [|cbn in Hlen; lia].
    destruct old as [|o old']; [congruence|].
    cbn [app]. rewrite replace_from_nomatch; [reflexivity|].
    cbn [startswith]. destruct (o =? c) eqn:E; [|reflexivity].
    apply Z.eqb_eq in E. exfalso. apply Hc. now left.
  - destruct a as [|x a]; [apply (IH []); [cbn; lia|exact Hold|exact Hc]|].
    destruct old as [|o old'] eqn:Eold; [congruence|]. rewrite <- Eold in *.
    destruct (startswith old (x :: a)) eqn:S.
    + destruct (startswith_inv _ _ S) as (r & Hr). rewrite Hr.
      rewrite <- app_assoc.
      rewrite (replace_from_match old new (r ++ c :: b) o old' Eold).
      rewrite (replace_from_match old new r o old' Eold).
      rewrite IH; [now rewrite app_assoc|..|exact Hold|exact Hc].
      assert (L : length (x :: a) = (length old + length r)%nat)
        by (rewrite Hr; apply length_app).
      rewrite Eold in L. cbn [length] in *. lia.
    + assert (S' : startswith old ((x :: a) ++ c :: b) = false).
      { destruct (startswith old ((x :: a) ++ c :: b)) eqn:S'; [|reflexivity].
        apply startswith_sep in S'; [congruence|exact Hc]. }
      cbn [app] in *. rewrite (replace_from_nomatch old new x _ S').
      rewrite (replace_from_nomatch old new x _ S).
      rewrite IH; [reflexivity|cbn [length] in Hlen; lia|exact Hold|exact Hc].
Qed.

Lemma replace_sep (old new : pystr) (c : codepoint) (a b : pystr) :
  old <> [] -> ~ In c old ->
  replace (a ++ c :: b) old new = replace a old new ++ c :: replace b old new.
Proof.
  intros Hold Hc. destruct old as [|o old']; [congruence|].
  unfold replace. now apply (replace_from_sep _ _ c (length a)).
Qed.

Lemma space_plain (c : codepoint) : Py_UNICODE_ISSPACE c = true -> plain c.
Proof.
  intros H t Ht Hin. unfold CURRENCY_SYMBOLS in Ht. cbn [In] in Ht.
  assert (E : In c [36; 77; 88; 78; 46; 44]).
  { destruct Ht as [<-|[<-|[<-|[<-|[<-|[]]]]]]; cbn [In] in *; intuition. }
  cbn [In] in E.
  destruct E as [<-|[<-|[<-|[<-|[<-|[<-|[]]]]]]]; discriminate H.
Qed.

Lemma strip_symbols_sep_gen (symbols : list pystr) (c : codepoint) (a b : pystr) :
  (forall t, In t symbols -> t <> [] /\ ~ In c t) ->
  strip_symbols symbols (a ++ c :: b)
  = strip_symbols symbols a ++ c :: strip_symbols symbols b.
Proof.
  unfold strip_symbols. revert a b.
  induction symbols as [|t symbols IH]; intros a b H; [reflexivity|].
  cbn [fold_left]. destruct (H t (or_introl eq_refl)) as [Ht Hc].
  rewrite (replace_sep t [] c a b Ht Hc).
  apply IH. intros t' Ht'. apply H. now right.
Qed.

Lemma strip_symbols_sep (c : codepoint) (a b : pystr) :
  plain c ->
  strip_symbols CURRENCY_SYMBOLS (a ++ c :: b)
  = strip_symbols CURRENCY_SYMBOLS a ++ c :: strip_symbols CURRENCY_SYMBOLS b.
Proof.
  intros H. apply strip_symbols_sep_gen. intros t Ht. split; [|now apply H].
  unfold CURRENCY_SYMBOLS in Ht. cbn [In] in Ht.
  destruct Ht as [<-|[<-|[<-|[<-|[<-|[]]]]]]; discriminate.
Qed.

Lemma strip_symbols_spaces (w : pystr) :
  Forall (fun c => Py_UNICODE_ISSPACE c = true) w ->
  strip_symbols CURRENCY_SYMBOLS w = w.
Proof.
  induction 1 as [|c w Hc Hw IH]; [reflexivity|].
  change (c :: w) with ([] ++ c :: w) at 1.
  rewrite (strip_symbols_sep c [] w (space_plain c Hc)), IH. reflexivity.
Qed.

Lemma strip_symbols_after_spaces (w s : pystr) :
  Forall (fun c => Py_UNICODE_ISSPACE c = true) w ->
  strip_symbols CURRENCY_SYMBOLS (w ++ s) = w ++ strip_symbols CURRENCY_SYMBOLS s.
Proof.
  induction 1 as [|c w Hc Hw IH]; [reflexivity|].
  change ((c :: w) ++ s) with ([] ++ c :: (w ++ s)).
  rewrite (strip_symbols_sep c [] (w ++ s) (space_plain c Hc)), IH.
  reflexivity.
Qed.

Lemma strip_symbols_before_spaces (s w : pystr) :
  Forall (fun c => Py_UNICODE_ISSPACE c = true) w ->
  strip_symbols CURRENCY_SYMBOLS (s ++ w) = strip_symbols CURRENCY_SYMBOLS s ++ w.
Proof.
  intros H. destruct H as [|c w Hc Hw].
  - now rewrite !app_nil_r.
  - rewrite (strip_symbols_sep c s w (space_plain c Hc)).
    now rewrite (strip_symbols_spaces w Hw).
Qed.

Lemma rstrip_spaces (s w : pystr) :
  Forall (fun c => Py_UNICODE_ISSPACE c = true) w -> rstrip (s ++ w) = rstrip s.
Proof.
  intros H. unfold rstrip. rewrite rev_app_distr, lstrip_spaces; [reflexivity|].
  apply Forall_forall. intros c Hc. apply in_rev in Hc.
  rewrite Forall_forall in H. now apply H.
Qed.

Lemma strip_pad_clean (w1 m w2 : pystr) :
  Forall (fun c => Py_UNICODE_ISSPACE c = true) w1 ->
  Forall (fun c => Py_UNICODE_ISSPACE c = true) w2 ->
  m = [] \/ clean_ends Py_UNICODE_ISSPACE m ->
  strip (w1 ++ m ++ w2) = m.
Proof.
  intros H1 H2 Hm. unfold strip.
  rewrite lstrip_spaces by exact H1.
  destruct Hm as [->|[(a & t & Ea & Ha) (t' & d & Ed & Hd)]].
  - cbn [app]. rewrite lstrip_all_spaces; [reflexivity|].
    apply forallb_forall. rewrite Forall_forall in H2. exact H2.
  - rewrite Ea. cbn [app]. rewrite (lstrip_head a _ Ha).
    change (a :: t ++ w2) with ((a :: t) ++ w2). rewrite <- Ea.
    rewrite rstrip_spaces by exact H2.
    unfold rstrip. rewrite Ed, rev_app_distr. cbn [rev app].
    rewrite (lstrip_head d _ Hd). cbn [rev]. now rewrite rev_involutive.
Qed.

Lemma strip_pad (w1 s w2 : pystr) :
  Forall (fun c => Py_UNICODE_ISSPACE c = true) w1 ->
  Forall (fun c => Py_UNICODE_ISSPACE c = true) w2 ->
  strip (w1 ++ s ++ w2) = strip s.
Proof.
  intros H1 H2.
  destruct (strip_decompose s) as (v1 & v2 & Hs & Hv1 & Hv2 & Hm).
  rewrite Hs at 1.
  replace (w1 ++ (v1 ++ strip s ++ v2) ++ w2)
    with ((w1 ++ v1) ++ strip s ++ (v2 ++ w2))
    by (now rewrite <- !app_assoc).
  apply strip_pad_clean; [now apply Forall_app|now apply Forall_app|exact Hm].
Qed.

(** The first [strip()] of [clean_num] changes nothing in the end. *)
Lemma cleaned_text (s : pystr) :
  cleaned (PyStr s) = strip (strip_symbols CURRENCY_SYMBOLS s).
Proof.
  unfold cleaned, cleaned_with. cbn [str].
  destruct (strip_decompose s) as (v1 & v2 & Hs & Hv1 & Hv2 & _).
  rewrite Hs at 2.
  rewrite (strip_symbols_after_spaces v1 _ Hv1).
  rewrite (strip_symbols_before_spaces (strip s) v2 Hv2).
  now rewrite strip_pad.
Qed.

Section Decorations.
Context {U : UnicodeData} {N : Num2Words}.

(** For a text the test [value in (None, "", " ")] adds nothing to the test
    of the cleaned text. *)
Lemma clean_num_text (s : pystr) :
  clean_num (PyStr s)
  = match cleaned (PyStr s) with
    | [] => Ok None
    | _ :: _ =>
        match float_of_str (cleaned (PyStr s)) with
        | Ok x => Ok (Some x)
        | Raise _ =>
            Raise (ValueError
                     (NoSePudoConvertir s
                        (CouldNotConvertStringToFloat (cleaned (PyStr s)))))
        end
    end.
Proof.
  rewrite clean_num_cases. cbn [str].
  destruct (is_blank (PyStr s)) eqn:B; [|reflexivity].
  now destruct (is_blank_PyStr s B) as [->| ->].
Qed.

Lemma numero_a_texto_of_cleaned (a b : pystr) :
  cleaned (PyStr a) = cleaned (PyStr b) ->
  numero_a_texto (PyStr a) = numero_a_texto (PyStr b).
Proof.
  intros H. unfold numero_a_texto, numero_a_texto_body.
  rewrite !clean_num_text, H.
  destruct (cleaned (PyStr b)) as [|c0 t]; [reflexivity|].
  now destruct (float_of_str (c0 :: t)).
Qed.

End Decorations.

Lemma strip_symbols_symbol (sym : pystr) :
  In sym CURRENCY_SYMBOLS -> strip_symbols CURRENCY_SYMBOLS sym = [].
Proof.
  unfold CURRENCY_SYMBOLS. cbn [In].
  intros [<-|[<-|[<-|[<-|[<-|[]]]]]]; vm_compute; reflexivity.
Qed.

Lemma strip_after (w s : pystr) :
  Forall (fun c => Py_UNICODE_ISSPACE c = true) w -> strip (w ++ s) = strip s.
Proof.
  intros H. rewrite <- (app_nil_r s) at 1. now apply strip_pad.
Qed.

Lemma strip_before (s w : pystr) :
  Forall (fun c => Py_UNICODE_ISSPACE c = true) w -> strip (s ++ w) = strip s.
Proof.
  intros H. change (s ++ w) with ([] ++ s ++ w). now apply strip_pad.
Qed.

(** What stands around an amount does not change its phrase: white space
    before and after the text, a dollar sign in front of it, and a currency
    symbol set off by white space after it or before it.  The texts are
    arbitrary; where one is no amount, both sides are the empty string. *)
Theorem numero_a_texto_decorations
  (U : UnicodeData) (N : Num2Words) (s w1 w2 sym : pystr) :
  Forall (fun c => Py_UNICODE_ISSPACE c = true) w1 ->
  Forall (fun c => Py_UNICODE_ISSPACE c = true) w2 ->
  In sym CURRENCY_SYMBOLS ->
  numero_a_texto (PyStr (w1 ++ s ++ w2)) = numero_a_texto (PyStr s)
  /\ numero_a_texto (PyStr (lit "$" ++ s)) = numero_a_texto (PyStr s)
  /\ numero_a_texto (PyStr (s ++ 32 :: w2 ++ sym)) = numero_a_texto (PyStr s)
  /\ numero_a_texto (PyStr (sym ++ 32 :: w1 ++ s)) = numero_a_texto (PyStr s).
Proof.
  intros H1 H2 Hsym.
  assert (S32 : plain 32) by now apply space_plain.
  refine (conj _ (conj _ (conj _ _))); apply numero_a_texto_of_cleaned;
    rewrite !cleaned_text; change (@cons Z) with (@cons codepoint).
  - rewrite (strip_symbols_after_spaces w1 _ H1).
    rewrite (strip_symbols_before_spaces s w2 H2).
    now apply strip_pad.
  - reflexivity.
  - rewrite (strip_symbols_sep 32 s (w2 ++ sym) S32).
    rewrite (strip_symbols_after_spaces w2 sym H2).
    rewrite (strip_symbols_symbol sym Hsym), app_nil_r.
    change (strip_symbols CURRENCY_SYMBOLS s ++ 32 :: w2)
      with (strip_symbols CURRENCY_SYMBOLS s ++ (32 :: w2)).
    apply strip_before. now constructor.
  - rewrite (strip_symbols_sep 32 sym (w1 ++ s) S32).
    rewrite (strip_symbols_after_spaces w1 s H1).
    rewrite (strip_symbols_symbol sym Hsym).
    change ([] ++ 32 :: w1 ++ strip_symbols CURRENCY_SYMBOLS s)
      with ((32 :: w1) ++ strip_symbols CURRENCY_SYMBOLS s).
    apply strip_after. now constructor.
Qed.

Lemma numero_a_texto_decorations_witness :
  @numero_a_texto ucd_part num2words_es
    (PyStr (lit "  " ++ lit "1,234.56" ++ lit " "))
  = @numero_a_texto ucd_part num2words_es (PyStr (lit "1,234.56"))
  /\ @numero_a_texto ucd_part num2words_es (PyStr (lit "$" ++ lit "1,234.56"))
     = @numero_a_texto ucd_part num2words_es (PyStr (lit "1,234.56"))
  /\ @numero_a_texto ucd_part num2words_es
       (PyStr (lit "1,234.56" ++ 32 :: lit " " ++ lit "MXN"))
     = @numero_a_texto ucd_part num2words_es (PyStr (lit "1,234.56"))
  /\ @numero_a_texto ucd_part num2words_es
       (PyStr (lit "MXN" ++ 32 :: lit "  " ++ lit "1,234.56"))
     = @numero_a_texto ucd_part num2words_es (PyStr (lit "1,234.56")).
Proof.
  apply (numero_a_texto_decorations ucd_part num2words_es
           (lit "1,234.56") (lit "  ") (lit " ") (lit "MXN")).
  - repeat constructor.
  - repeat constructor.
  - vm_compute. tauto.
Defined.

(** ** Commas and dollar signs inside an amount *)

Lemma replace_char (c : codepoint) (s : pystr) :
  replace s [c] [] = filter (fun x => negb (x =? c)) s.
Proof.
  unfold replace. induction s as [|x r IH]; [reflexivity|].
  cbn [replace_from startswith length Nat.pred filter app].
  rewrite andb_true_r, (Z.eqb_sym c x).
  destruct (x =? c); cbn [negb]; now rewrite IH.
Qed.

Lemma filter_keeps_absent (f : codepoint -> bool) (c : codepoint) (s : pystr) :
  ~ In c s -> ~ In c (filter f s).
Proof.
  intros H Hin. apply filter_In in Hin. now destruct Hin.
Qed.

Lemma filter_idem (f : codepoint -> bool) (s : pystr) :
  filter f (filter f s) = filter f s.
Proof.
  induction s as [|x r IH]; [reflexivity|].
  cbn [filter]. destruct (f x) eqn:K; [|exact IH].
  cbn [filter]. now rewrite K, IH.
Qed.

Lemma filter_two (s : pystr) :
  filter (fun x => negb (x =? 44)) (filter (fun x => negb (x =? 36)) s)
  = filter (fun c => negb ((c =? 36) || (c =? 44))) s.
Proof.
  induction s as [|x r IH]; [reflexivity|].
  cbn [filter]. destruct (x =? 36); cbn [negb orb filter]; [exact IH|].
  destruct (x =? 44); cbn [negb]; now rewrite IH.
Qed.

Lemma strip_symbols_without_M (s : pystr) :
  ~ In 77 s ->
  strip_symbols CURRENCY_SYMBOLS s
  = filter (fun c => negb ((c =? 36) || (c =? 44))) s.
Proof.
  intros H.
  pose proof (filter_keeps_absent (fun x => negb (x =? 36)) 77 s H) as H'.
  rewrite <- filter_two.
  set (t := filter (fun x => negb (x =? 36)) s) in *.
  assert (E1 : replace s (lit "$") [] = t) by apply replace_char.
  assert (E2 : replace t (lit "MXN") [] = t)
    by (apply (replace_absent_char _ _ _ 77); [cbn; auto|exact H']).
  assert (E3 : replace t (lit "M.N.") [] = t)
    by (apply (replace_absent_char _ _ _ 77); [cbn; auto|exact H']).
  assert (E4 : replace t (lit "MN") [] = t)
    by (apply (replace_absent_char _ _ _ 77); [cbn; auto|exact H']).
  assert (E5 : replace t (lit ",") [] = filter (fun x => negb (x =? 44)) t)
    by apply replace_char.
  change (strip_symbols CURRENCY_SYMBOLS s)
    with (replace
            (replace
               (replace (replace (replace s (lit "$") []) (lit "MXN") [])
                  (lit "M.N.") [])
               (lit "MN") [])
            (lit ",") []).
  rewrite E1, E2, E3, E4. exact E5.
Qed.

(** In a text without the letter [M] every dollar sign and every comma is
    dropped, wherever it stands, and nothing else is: the amount is read from
    the other characters, white space at the ends aside.  A comma is
    therefore never a decimal separator: [1.234,56] is read as [1.23456]. *)
Theorem commas_and_dollars_dropped
  (U : UnicodeData) (N : Num2Words) (s : pystr) :
  ~ In 77 s ->
  cleaned (PyStr s) = strip (filter (fun c => negb ((c =? 36) || (c =? 44))) s)
  /\ numero_a_texto (PyStr s)
     = numero_a_texto
         (PyStr (filter (fun c => negb ((c =? 36) || (c =? 44))) s)).
Proof.
  intros H.
  assert (E : cleaned (PyStr s)
              = strip (filter (fun c => negb ((c =? 36) || (c =? 44))) s)).
  { now rewrite cleaned_text, strip_symbols_without_M. }
  split; [exact E|].
  apply numero_a_texto_of_cleaned. rewrite E, cleaned_text.
  rewrite strip_symbols_without_M by now apply filter_keeps_absent.
  now rewrite filter_idem.
Qed.

Lemma commas_and_dollars_dropped_witness :
  cleaned (PyStr (lit "1.234,56"))
  = strip (filter (fun c => negb ((c =? 36) || (c =? 44))) (lit "1.234,56"))
  /\ @numero_a_texto ucd_part num2words_es (PyStr (lit "1.234,56"))
     = @numero_a_texto ucd_part num2words_es
         (PyStr (filter (fun c => negb ((c =? 36) || (c =? 44)))
                   (lit "1.234,56"))).
Proof.
  apply (commas_and_dollars_dropped ucd_part num2words_es).
  vm_compute. intuition discriminate.
Defined.

(** ** The handler of one amount *)

Section OneAmount.
Context {U : UnicodeData} {N : Num2Words}.

Lemma numero_a_texto_nothing (numero : PyValue) :
  numero = PyNone \/ numero = PyStr [] -> numero_a_texto numero = Ok [].
Proof. intros [->| ->]; reflexivity. Qed.

Lemma convertir_texto_truthy (fields : list (pystr * PyValue)) :
  truthy (dict_get fields (lit "numero") (PyStr [])) = true ->
  convertir_texto (Some (JsonObject fields))
  = match numero_a_texto (dict_get fields (lit "numero") (PyStr [])) with
    | Ok texto => Json [(lit "texto", texto)] 200
    | Raise _ => Json [(lit "error", ERROR_CONVERSION)] 500
    end.
Proof.
  intros T. unfold convertir_texto.
  destruct fields as [|kv fields']; [discriminate T|].
  cbn [json_bool data_get and_then]. rewrite T. cbn [negb].
  now destruct (numero_a_texto _).
Qed.

Lemma convertir_texto_falsy (fields : list (pystr * PyValue)) :
  truthy (dict_get fields (lit "numero") (PyStr [])) = false ->
  convertir_texto (Some (JsonObject fields)) = Json [(lit "texto", [])] 200.
Proof.
  intros T. unfold convertir_texto.
  destruct fields as [|kv fields']; [reflexivity|].
  cbn [json_bool data_get and_then]. now rewrite T.
Qed.

End OneAmount.

(** Where the value of the field [numero] is no numeric zero, the handler
    answers with what [numero_a_texto] makes of it: the phrase with status
    200, and the conversion error with status 500 when [numero_a_texto]
    raises.  A missing field counts as the empty text.  So the shortcut
    [if not numero] changes nothing for [None] and for texts. *)
Theorem convertir_texto_renders
  (U : UnicodeData) (N : Num2Words)
  (fields : list (pystr * PyValue)) (numero : PyValue) :
  dict_get fields (lit "numero") (PyStr []) = numero ->
  numero <> PyInt 0 ->
  (forall sign, numero <> PyFloat (S754_zero sign)) ->
  convertir_texto (Some (JsonObject fields))
  = match numero_a_texto numero with
    | Ok texto => Json [(lit "texto", texto)] 200
    | Raise _ => Json [(lit "error", ERROR_CONVERSION)] 500
    end.
Proof.
  intros Hn Hi Hf.
  destruct (truthy numero) eqn:T.
  - rewrite <- Hn in *. now apply convertir_texto_truthy.
  - rewrite convertir_texto_falsy by now rewrite Hn.
    rewrite numero_a_texto_nothing; [reflexivity|].
    destruct numero as [|s|n|x]; cbn [truthy] in T.
    + now left.
    + right. now destruct s.
    + apply negb_false_iff, Z.eqb_eq in T. congruence.
    + destruct x; try discriminate T. now destruct (Hf s).
Qed.

Lemma convertir_texto_renders_witness :
  @convertir_texto ucd_part num2words_es
    (Some (JsonObject [(lit "origen", PyStr (lit "web"));
                       (lit "numero", PyStr (lit "$1,523.45"))]))
  = match @numero_a_texto ucd_part num2words_es (PyStr (lit "$1,523.45")) with
    | Ok texto => Json [(lit "texto", texto)] 200
    | Raise _ => Json [(lit "error", ERROR_CONVERSION)] 500
    end.
Proof.
  apply (convertir_texto_renders ucd_part num2words_es).
  - reflexivity.
  - discriminate.
  - discriminate.
Defined.

(** A numeric zero in the field [numero] gets the empty text from the
    handler, although [numero_a_texto] renders the number zero, and the text
    [0] in the same field gets the phrase.  Whatever is no JSON object gets
    the empty text when its truth value is false, and the conversion error
    with status 500 when it is true. *)
Theorem convertir_texto_zero
  (U : UnicodeData) (N : Num2Words) (cero : pystr) (sign : bool) :
  num2words 0 = Ok cero ->
  let frase := uno_a_un (upper cero) ++ lit " PESOS 00/100 M.N." in
  convertir_texto (Some (JsonObject [(lit "numero", PyInt 0)]))
  = Json [(lit "texto", [])] 200
  /\ convertir_texto (Some (JsonObject [(lit "numero", PyFloat (S754_zero sign))]))
     = Json [(lit "texto", [])] 200
  /\ numero_a_texto (PyInt 0) = Ok frase
  /\ numero_a_texto (PyFloat (S754_zero sign)) = Ok frase
  /\ convertir_texto (Some (JsonObject [(lit "numero", PyStr (lit "0"))]))
     = Json [(lit "texto", frase)] 200
  /\ convertir_texto None = Json [(lit "texto", [])] 200
  /\ convertir_texto (Some (JsonOther false)) = Json [(lit "texto", [])] 200
  /\ convertir_texto (Some (JsonOther true))
     = Json [(lit "error", ERROR_CONVERSION)] 500.
Proof.
  intros H0 frase.
  assert (R : forall numero,
            clean_num numero = Ok (Some (S754_zero false))
            \/ clean_num numero = Ok (Some (S754_zero true)) ->
            numero_a_texto numero = Ok frase).
  { intros numero [E|E]; unfold numero_a_texto, numero_a_texto_body;
      rewrite E; cbn [bind float_trunc];
      change (parte_decimal_de _ 0) with (Ok (A := Z) 0);
      cbn [bind]; rewrite H0; reflexivity. }
  assert (Ri : numero_a_texto (PyInt 0) = Ok frase) by (apply R; now left).
  assert (Rf : numero_a_texto (PyFloat (S754_zero sign)) = Ok frase)
    by (apply R; destruct sign; [now right|now left]).
  assert (Rs : numero_a_texto (PyStr (lit "0")) = Ok frase) by (apply R; now left).
  refine (conj _ (conj _ (conj _ (conj _ (conj _ (conj _ (conj _ _))))))).
  - reflexivity.
  - reflexivity.
  - exact Ri.
  - exact Rf.
  - rewrite convertir_texto_truthy by reflexivity.
    cbn [dict_get]. rewrite pystr_eqb_refl.
    change (numero_a_texto (PyStr [48])) with (numero_a_texto (PyStr (lit "0"))).
    now rewrite Rs.
  - reflexivity.
  - reflexivity.
  - reflexivity.
Qed.

Lemma convertir_texto_zero_witness :
  @convertir_texto ucd_part num2words_es
    (Some (JsonObject [(lit "numero", PyInt 0)]))
  = Json [(lit "texto", [])] 200
  /\ @numero_a_texto ucd_part num2words_es (PyInt 0)
     = Ok (lit "CERO PESOS 00/100 M.N.")
  /\ @convertir_texto ucd_part num2words_es
       (Some (JsonObject [(lit "numero", PyStr (lit "0"))]))
     = Json [(lit "texto", lit "CERO PESOS 00/100 M.N.")] 200.
Proof.
  destruct (convertir_texto_zero ucd_part num2words_es (lit "cero") false eq_refl)
    as (A & _ & B & _ & C & _).
  exact (conj A (conj B C)).
Defined.

(** ** The handler of a workbook *)

Lemma float_eqb_eq (x y : float) : float_eqb x y = true <-> x = y.
Proof.
  destruct x as [s|s| |s m e], y as [s'|s'| |s' m' e']; cbn [float_eqb];
    try (split; [discriminate|congruence]); try tauto.
  - rewrite Bool.eqb_true_iff. split; congruence.
  - rewrite Bool.eqb_true_iff. split; congruence.
  - rewrite !andb_true_iff, Bool.eqb_true_iff, Pos.eqb_eq, Z.eqb_eq.
    split; [intros [[-> ->] ->]; reflexivity|].
    intros H. now inversion H.
Qed.

Lemma label_eqb_eq (a b : PyValue) : label_eqb a b = true <-> a = b.
Proof.
  destruct a as [|s|n|x], b as [|s'|n'|x']; cbn [label_eqb];
    try (split; [discriminate|congruence]); try tauto.
  - rewrite pystr_eqb_eq. split; congruence.
  - rewrite Z.eqb_eq. split; congruence.
  - rewrite float_eqb_eq. split; congruence.
Qed.

Lemma df_getitem_at (before after : DataFrame) (col : PyValue) (cells : list PyValue) :
  ~ In col (map fst before) ->
  df_getitem (before ++ (col, cells) :: after) col = Done cells.
Proof.
  induction before as [|[label old] before IH]; intros H.
  - cbn [app df_getitem].
    now rewrite (proj2 (label_eqb_eq col col) eq_refl).
  - cbn [app df_getitem]. destruct (label_eqb col label) eqn:E.
    + apply label_eqb_eq in E. exfalso. apply H. now left.
    + apply IH. intros Hin. apply H. now right.
Qed.

Lemma apply_rows_raises (f : PyValue -> result pystr) (rows : list PyValue)
    (row : PyValue) (e : exn) :
  In row rows -> f row = Raise e -> exists e', apply_rows f rows = Raise e'.
Proof.
  induction rows as [|r rows IH]; intros Hin Hr; [destruct Hin|].
  cbn [apply_rows]. destruct (f r) as [t|e0] eqn:Er; [|now exists e0].
  destruct Hin as [->|Hin]; [congruence|].
  destruct (IH Hin Hr) as (e' & ->). now exists e'.
Qed.

Section Workbook.
Context {U : UnicodeData} {N : Num2Words}.
Variable read_excel : FileStorage -> attempt DataFrame.
Variable to_excel : DataFrame -> attempt (list Z).

Lemma validate_file_ok_named (file : FileStorage) :
  validate_file (Some file) = Done (true, []) -> file_bool file = true.
Proof.
  unfold validate_file. destruct (file_bool file); [reflexivity|].
  cbn [negb orb]. discriminate.
Qed.

(** The column that [find_num_column] resolves, in the frame *)
Lemma resolved_column (df : DataFrame) (col : PyValue) :
  find_num_column (map fst df) = Some col ->
  exists before cells after,
    df = before ++ (col, cells) :: after /\ ~ In col (map fst before).
Proof.
  rewrite find_num_column_find. intros H.
  pose proof (find_first _ is_alias (map fst df)) as F. rewrite H in F.
  destruct F as (b & a & Hmap & Hcol & Hb).
  apply map_eq_app in Hmap. destruct Hmap as (before & rest & -> & <- & Hrest).
  destruct rest as [|[label cells] after]; [discriminate Hrest|].
  cbn [map fst] in Hrest. injection Hrest as -> _.
  exists before, cells, after. split; [reflexivity|].
  intros Hin. rewrite Forall_forall in Hb. specialize (Hb col Hin). congruence.
Qed.

Lemma convertir_excel_at (file : FileStorage) (df before after : DataFrame)
    (col : PyValue) (cells : list PyValue) :
  validate_file (Some file) = Done (true, []) ->
  read_excel file = Done df ->
  find_num_column (map fst df) = Some col ->
  df = before ++ (col, cells) :: after ->
  ~ In col (map fst before) ->
  convertir_excel read_excel to_excel (Some file)
  = match apply_rows numero_a_texto cells with
    | Ok textos =>
        match to_excel (df_setitem df (PyStr (lit "Texto")) (map PyStr textos)) with
        | Done data => SendFile data OUTPUT_FILENAME XLSX_MIMETYPE 200
        | Failed _ => Json [(lit "error", lit "Error interno del servidor.")] 500
        end
    | Raise _ => Json [(lit "error", lit "Error interno del servidor.")] 500
    end.
Proof.
  intros Hv Hr Hf Hdf Hno.
  unfold convertir_excel.
  rewrite (validate_file_ok_named file Hv), Hv, Hr, Hf.
  cbn [negb and_then].
  assert (T : truthy col = true).
  { rewrite find_num_column_find in Hf. apply find_some in Hf as [_ Ha].
    destruct (is_alias_text col Ha) as (s & -> & Hs). now destruct s. }
  rewrite T. cbn [negb].
  rewrite Hdf at 1. rewrite (df_getitem_at before after col cells Hno).
  cbn [and_then].
  destruct (apply_rows numero_a_texto cells) as [textos|e]; [|reflexivity].
  cbn [from_converter and_then].
  now destruct (to_excel _).
Qed.

End Workbook.

(** For an upload that [validate_file] accepts, that pandas reads, and in
    which a column is resolved, the handler renders the cells of that column,
    the first one with the resolved label, in their order.  When every cell is
    rendered, the frame with the phrases in the column [Texto] goes to the
    writer, and the answer is the workbook with status 200, or the internal
    error with status 500 when the writer raises; when the rendering of a
    cell raises, the answer is the internal error with status 500. *)
Theorem convertir_excel_renders
  (U : UnicodeData) (N : Num2Words)
  (read_excel : FileStorage -> attempt DataFrame)
  (to_excel : DataFrame -> attempt (list Z))
  (file : FileStorage) (df : DataFrame) (col : PyValue) :
  validate_file (Some file) = Done (true, []) ->
  read_excel file = Done df ->
  find_num_column (map fst df) = Some col ->
  exists before cells after,
    df = before ++ (col, cells) :: after
    /\ ~ In col (map fst before)
    /\ convertir_excel read_excel to_excel (Some file)
       = match apply_rows numero_a_texto cells with
         | Ok textos =>
             match to_excel (df_setitem df (PyStr (lit "Texto")) (map PyStr textos)) with
             | Done data => SendFile data OUTPUT_FILENAME XLSX_MIMETYPE 200
             | Failed _ => Json [(lit "error", lit "Error interno del servidor.")] 500
             end
         | Raise _ => Json [(lit "error", lit "Error interno del servidor.")] 500
         end.
Proof.
  intros Hv Hr Hf.
  destruct (resolved_column df col Hf) as (before & cells & after & Hdf & Hno).
  exists before, cells, after.
  refine (conj Hdf (conj Hno _)).
  now apply (convertir_excel_at read_excel to_excel file df before after col cells).
Qed.

Lemma convertir_excel_renders_witness :
  exists before cells after,
    hoja = before ++ (PyStr (lit "Número"), cells) :: after
    /\ ~ In (PyStr (lit "Número")) (map fst before)
    /\ @convertir_excel ucd_part num2words_es
         (fun _ => Done hoja) (fun df => Done [Z.of_nat (length df)]) (Some libro)
       = match apply_rows (@numero_a_texto ucd_part num2words_es) cells with
         | Ok textos =>
             match (fun df => Done [Z.of_nat (length df)])
                     (df_setitem hoja (PyStr (lit "Texto")) (map PyStr textos)) with
             | Done data => SendFile data OUTPUT_FILENAME XLSX_MIMETYPE 200
             | Failed _ => Json [(lit "error", lit "Error interno del servidor.")] 500
             end
         | Raise _ => Json [(lit "error", lit "Error interno del servidor.")] 500
         end.
Proof.
  apply (convertir_excel_renders ucd_part num2words_es
           (fun _ => Done hoja) (fun df => Done [Z.of_nat (length df)])
           libro hoja (PyStr (lit "Número"))).
  - vm_compute. reflexivity.
  - reflexivity.
  - vm_compute. reflexivity.
Defined.

(** One cell is enough to lose the workbook: when the rendering of any cell
    of the resolved column raises, as it does for the text [inf], the answer
    is the internal error with status 500, whatever the other cells hold. *)
Theorem convertir_excel_one_bad_row
  (U : UnicodeData) (N : Num2Words)
  (read_excel : FileStorage -> attempt DataFrame)
  (to_excel : DataFrame -> attempt (list Z))
  (file : FileStorage) (df : DataFrame) (col : PyValue)
  (cells : list PyValue) (row : PyValue) (e : exn) :
  validate_file (Some file) = Done (true, []) ->
  read_excel file = Done df ->
  find_num_column (map fst df) = Some col ->
  df_getitem df col = Done cells ->
  In row cells ->
  numero_a_texto row = Raise e ->
  convertir_excel read_excel to_excel (Some file)
  = Json [(lit "error", lit "Error interno del servidor.")] 500.
Proof.
  intros Hv Hr Hf Hg Hin He.
  destruct (resolved_column df col Hf) as (before & cells' & after & Hdf & Hno).
  rewrite (convertir_excel_at read_excel to_excel file df before after col cells'
             Hv Hr Hf Hdf Hno).
  rewrite Hdf, (df_getitem_at before after col cells' Hno) in Hg.
  injection Hg as ->.
  now destruct (apply_rows_raises numero_a_texto cells row e Hin He) as (e' & ->).
Qed.

Lemma convertir_excel_one_bad_row_witness :
  @convertir_excel ucd_part num2words_es
    (fun _ => Done hoja_con_inf) (fun _ => Done []) (Some libro)
  = Json [(lit "error", lit "Error interno del servidor.")] 500.
Proof.
  apply (convertir_excel_one_bad_row ucd_part num2words_es
           (fun _ => Done hoja_con_inf) (fun _ => Done [])
           libro hoja_con_inf (PyStr (lit "num"))
           [PyInt 1; PyStr (lit "inf"); PyInt 2] (PyStr (lit "inf"))
           (OverflowError CannotConvertFloatInfinityToInteger)).
  - vm_compute. reflexivity.
  - reflexivity.
  - vm_compute. reflexivity.
  - vm_compute. reflexivity.
  - right. now left.
  - vm_compute. reflexivity.
Defined.

(** An upload that [validate_file] does not accept is answered with status
    400 before pandas is called: the answer is the same whatever
    [read_excel] and the writer would do.  The message is never the first
    message of [validate_file], that no file was given: the handler has
    already answered uploads without a name with its own message. *)
Theorem convertir_excel_rejects_unread
  (U : UnicodeData) (N : Num2Words)
  (read_excel read_excel' : FileStorage -> attempt DataFrame)
  (to_excel to_excel' : DataFrame -> attempt (list Z))
  (archivo : option FileStorage) :
  validate_file archivo <> Done (true, []) ->
  convertir_excel read_excel to_excel archivo
  = convertir_excel read_excel' to_excel' archivo
  /\ exists message,
       convertir_excel read_excel to_excel archivo
       = Json [(lit "error", message)] 400
       /\ message <> lit "No se proporcionó ningún archivo.".
Proof.
  intros Hv. unfold convertir_excel.
  destruct archivo as [file|].
  2:{ split; [reflexivity|]. exists ERROR_NO_FILE. split; [reflexivity|discriminate]. }
  destruct (file_bool file) eqn:B; cbn [negb].
  2:{ split; [reflexivity|]. exists ERROR_NO_FILE. split; [reflexivity|discriminate]. }
  pose proof (validate_file_cases (Some file)) as C. cbn beta iota in C.
  unfold file_bool in B.
  destruct (filename file) as [[|c name]|]; try discriminate B.
  destruct C as [[_ C]|(base & ext & _ & _ & C)].
  - rewrite C. cbn [and_then negb]. split; [reflexivity|].
    eexists. split; [reflexivity|discriminate].
  - rewrite C in *.
    destruct (existsb (pystr_eqb (lower ext)) [lit "xlsx"; lit "xls"]);
      [congruence|].
    cbn [and_then negb]. split; [reflexivity|].
    eexists. split; [reflexivity|discriminate].
Qed.

Lemma convertir_excel_rejects_unread_witness :
  @convertir_excel ucd_part num2words_es
    (fun _ => Done hoja) (fun _ => Done [])
    (Some {| filename := Some (lit "montos.csv"); stream := [] |})
  = @convertir_excel ucd_part num2words_es
      (fun _ => Failed (LibraryError 1)) (fun _ => Failed (LibraryError 2))
      (Some {| filename := Some (lit "montos.csv"); stream := [] |})
  /\ exists message,
       @convertir_excel ucd_part num2words_es
         (fun _ => Done hoja) (fun _ => Done [])
         (Some {| filename := Some (lit "montos.csv"); stream := [] |})
       = Json [(lit "error", message)] 400
       /\ message <> lit "No se proporcionó ningún archivo.".
Proof.
  apply (convertir_excel_rejects_unread ucd_part num2words_es).
  vm_compute. discriminate.
Defined.

(** ** The configuration classes *)

Section Configuration.
Context {U : UnicodeData}.

Lemma int_of_str_fails (s : pystr) (e : raised) :
  int_of_str s = Failed e -> e = InvalidLiteralForInt s.
Proof.
  unfold int_of_str.
  destruct (split_sign (skip_spaces (to_ascii_number s))) as [neg r].
  assert (G : match scan_int 0 r 0 0 with
              | Some (n, count, rest) =>
                  if (0 <? count) && forallb Py_ISSPACE rest
                  then Done (if neg then - n else n)
                  else Failed (InvalidLiteralForInt s)
              | None => Failed (InvalidLiteralForInt s)
              end = Failed e -> e = InvalidLiteralForInt s).
  { destruct (scan_int 0 r 0 0) as [[[n count] rest]|]; [|congruence].
    destruct ((0 <? count) && forallb Py_ISSPACE rest); [discriminate|congruence]. }
  destruct r as [|c r']; [exact G|].
  destruct c as [|p|p]; try exact G.
  do 7 (destruct p as [p|p|]; try exact G). congruence.
Qed.

(** The namespaces that the import of [config] leaves *)
Lemma import_config_done (base_dir : pystr) (env : environ)
    (classes : config_class -> namespace) :
  import_config base_dir env = Done classes ->
  exists base,
    Config_body base_dir env = Done base
    /\ classes
       = (fun c =>
            match c with
            | Config => base
            | DevelopmentConfig => DevelopmentConfig_body
            | ProductionConfig => ProductionConfig_body env
            | TestingConfig => TestingConfig_body
            end).
Proof.
  unfold import_config. destruct (Config_body base_dir env) as [base|e];
    cbn [and_then]; [|discriminate].
  intros H. injection H as <-. now exists base.
Qed.

Lemma Config_body_done (base_dir : pystr) (env : environ) (base : namespace) :
  Config_body base_dir env = Done base ->
  (forall name,
     In name [lit "LOG_DIR"; lit "LOG_FILE"; lit "LOG_MAX_BYTES";
              lit "LOG_BACKUP_COUNT"] ->
     own_attribute base name = None)
  /\ own_attribute base (lit "DEBUG")
     = Some (ABool (existsb
                      (pystr_eqb
                         (lower (getenv_or env (lit "FLASK_DEBUG") (lit "False"))))
                      [lit "true"; lit "1"; lit "yes"]))
  /\ own_attribute base (lit "SECRET_KEY")
     = Some (AStr (getenv_or env (lit "SECRET_KEY") (lit "lexnum-ofs-tlaxcala-2025"))).
Proof.
  unfold Config_body.
  destruct (int_of_str (getenv_or env (lit "FLASK_PORT") (lit "5005"))) as [port|e];
    cbn [and_then]; [|discriminate].
  intros H. injection H as <-.
  refine (conj _ (conj eq_refl eq_refl)).
  cbn [In]. intros name [<-|[<-|[<-|[<-|[]]]]]; reflexivity.
Qed.

End Configuration.

(** [get_config] returns [ProductionConfig] for the name [production],
    [TestingConfig] for [testing], and [DevelopmentConfig] for every other
    name, known or not, the name being the value of [FLASK_ENV], or
    [default], when none is given.  Of the class returned, [DEBUG] is false
    for [production] only, whatever [FLASK_DEBUG] holds, and [SECRET_KEY] is
    [None] exactly for [production] with no [SECRET_KEY] in the
    environment. *)
Theorem get_config_settings
  (U : UnicodeData) (base_dir : pystr) (env : environ)
  (env_name : option pystr) (port : Z) :
  int_of_str (getenv_or env (lit "FLASK_PORT") (lit "5005")) = Done port ->
  let name :=
    match env_name with
    | Some n => n
    | None => getenv_or env (lit "FLASK_ENV") (lit "default")
    end in
  let c := get_config env env_name in
  exists classes,
    import_config base_dir env = Done classes
    /\ (c = ProductionConfig <-> name = lit "production")
    /\ (c = TestingConfig <-> name = lit "testing")
    /\ (c = DevelopmentConfig <->
        name <> lit "production" /\ name <> lit "testing")
    /\ class_getattr classes c (lit "DEBUG")
       = Done (ABool (negb (pystr_eqb name (lit "production"))))
    /\ (class_getattr classes c (lit "SECRET_KEY") = Done ANone
        <-> name = lit "production" /\ getenv env (lit "SECRET_KEY") = None).
Proof.
  intros Hp name c.
  destruct (import_config base_dir env) as [classes|e] eqn:I.
  2:{ unfold import_config, Config_body in I. rewrite Hp in I. discriminate I. }
  exists classes. split; [reflexivity|].
  destruct (import_config_done _ _ _ I) as (base & Hb & ->).
  destruct (Config_body_done _ _ _ Hb) as (_ & Hd & Hs).
  assert (Hc : c = dict_get config_by_name name DevelopmentConfig) by reflexivity.
  unfold config_by_name in Hc. cbn [dict_get] in Hc.
  assert (Hdev : lit "development" <> lit "production"
                 /\ lit "development" <> lit "testing") by (split; discriminate).
  destruct (pystr_eqb (lit "development") name) eqn:E1.
  { apply pystr_eqb_eq in E1. rewrite Hc, <- E1.
    unfold class_getattr. cbn [base_class]. rewrite Hs.
    refine (conj _ (conj _ (conj _ (conj eq_refl _)))); split;
      solve [discriminate | intros [H _]; discriminate H | tauto]. }
  destruct (pystr_eqb (lit "production") name) eqn:E2.
  { apply pystr_eqb_eq in E2. rewrite Hc, <- E2.
    assert (Hk : own_attribute (ProductionConfig_body env) (lit "SECRET_KEY")
                 = Some match getenv env (lit "SECRET_KEY") with
                        | Some v => AStr v | None => ANone end) by reflexivity.
    unfold class_getattr. rewrite Hk.
    refine (conj _ (conj _ (conj _ (conj eq_refl _)))); split;
      try solve [discriminate | reflexivity | intros [H _]; now contradiction H].
    - destruct (getenv env (lit "SECRET_KEY")); [discriminate|now split].
    - intros [_ ->]. reflexivity. }
  assert (N2 : name <> lit "production").
  { intros H. rewrite H in E2. discriminate E2. }
  assert (P : pystr_eqb name (lit "production") = false).
  { destruct (pystr_eqb name (lit "production")) eqn:P; [|reflexivity].
    apply pystr_eqb_eq in P. contradiction. }
  rewrite P. cbn [negb].
  destruct (pystr_eqb (lit "testing") name) eqn:E3.
  { apply pystr_eqb_eq in E3. rewrite Hc, <- E3.
    unfold class_getattr. cbn [base_class]. rewrite Hs.
    refine (conj _ (conj _ (conj _ (conj eq_refl _)))); split;
      solve [discriminate | reflexivity | intros [H _]; discriminate H
            | intros [_ H]; now contradiction H]. }
  assert (N3 : name <> lit "testing").
  { intros H. rewrite H in E3. discriminate E3. }
  assert (Hc' : c = DevelopmentConfig).
  { rewrite Hc. now destruct (pystr_eqb (lit "default") name). }
  rewrite Hc'. unfold class_getattr. cbn [base_class]. rewrite Hs.
  refine (conj _ (conj _ (conj _ (conj eq_refl _)))); split;
    solve [discriminate | tauto | congruence | intros [H _]; congruence].
Qed.

Lemma get_config_settings_witness :
  exists classes,
    @import_config ucd_part (lit "/srv/lexnum")
      [(lit "FLASK_DEBUG", lit "0"); (lit "FLASK_ENV", lit "staging")]
    = Done classes
    /\ (@get_config
          [(lit "FLASK_DEBUG", lit "0"); (lit "FLASK_ENV", lit "staging")] None
        = ProductionConfig <-> lit "staging" = lit "production")
    /\ class_getattr classes
         (@get_config
            [(lit "FLASK_DEBUG", lit "0"); (lit "FLASK_ENV", lit "staging")] None)
         (lit "DEBUG")
       = Done (ABool true).
Proof.
  destruct (get_config_settings ucd_part (lit "/srv/lexnum")
              [(lit "FLASK_DEBUG", lit "0"); (lit "FLASK_ENV", lit "staging")]
              None 5005 eq_refl)
    as (classes & I & P & _ & _ & D & _).
  exists classes. exact (conj I (conj P D)).
Defined.

(** [Config] and its subclasses define no [LOG_DIR], [LOG_FILE],
    [LOG_MAX_BYTES] or [LOG_BACKUP_COUNT], which [app.py] reads when it is
    imported: in every environment the import of [app] ends in an exception,
    the [AttributeError] for [Config.LOG_DIR], or else the [ValueError] of
    [int()] for the value of [FLASK_PORT] when [config] itself cannot be
    imported. *)
Theorem import_app_fails (U : UnicodeData) (base_dir : pystr) (env : environ) :
  (forall classes c name,
     import_config base_dir env = Done classes ->
     In name [lit "LOG_DIR"; lit "LOG_FILE"; lit "LOG_MAX_BYTES";
              lit "LOG_BACKUP_COUNT"] ->
     class_getattr classes c name = Failed (NoAttribute (class_name c) name))
  /\ (import_app base_dir env
      = Failed (NoAttribute (lit "Config") (lit "LOG_DIR"))
      \/ import_app base_dir env
         = Failed (InvalidLiteralForInt
                     (getenv_or env (lit "FLASK_PORT") (lit "5005")))).
Proof.
  assert (A : forall classes c name,
            import_config base_dir env = Done classes ->
            In name [lit "LOG_DIR"; lit "LOG_FILE"; lit "LOG_MAX_BYTES";
                     lit "LOG_BACKUP_COUNT"] ->
            class_getattr classes c name
            = Failed (NoAttribute (class_name c) name)).
  { intros classes c name I Hn.
    destruct (import_config_done _ _ _ I) as (base & Hb & ->).
    destruct (Config_body_done _ _ _ Hb) as (Hlog & _).
    pose proof (Hlog name Hn) as Hbase.
    unfold class_getattr.
    cbn [In] in Hn.
    destruct c; cbn [base_class]; rewrite ?Hbase;
      destruct Hn as [<-|[<-|[<-|[<-|[]]]]]; reflexivity. }
  split; [exact A|].
  unfold import_app.
  destruct (import_config base_dir env) as [classes|e] eqn:I.
  - left. cbn [and_then LOGGING_ATTRIBUTES read_attributes].
    rewrite (A classes Config (lit "LOG_DIR") eq_refl); [reflexivity|].
    now left.
  - right. cbn [and_then]. f_equal.
    unfold import_config, Config_body in I.
    destruct (int_of_str (getenv_or env (lit "FLASK_PORT") (lit "5005")))
      as [port|e'] eqn:P; cbn [and_then] in I; [discriminate|].
    injection I as <-. now apply int_of_str_fails.
Qed.

(** ** Whole amounts *)

Lemma span_decimal_digits (fuel : nat) (n : Z) (acc : pystr) :
  (0 < fuel)%nat -> 0 <= n < 10 ^ Z.of_nat fuel ->
  exists k, 0 < k /\ forall a c,
    span_digits (decimal_digits fuel n acc) a c
    = span_digits acc (a * 10 ^ k + n) (c + k).
Proof.
  revert n acc. induction fuel as [|f IH]; intros n acc Hf Hn; [lia|].
  cbn [decimal_digits].
  assert (D : is_digit (48 + n mod 10) = true).
  { pose proof (Z.mod_pos_bound n 10 eq_refl). unfold is_digit. bool_lia. }
  destruct (n <? 10) eqn:E.
  - apply Z.ltb_lt in E. exists 1. split; [lia|]. intros a c.
    cbn [span_digits]. rewrite D. rewrite Z.mod_small by lia.
    change (10 ^ 1) with 10. f_equal. lia.
  - apply Z.ltb_ge in E.
    rewrite Nat2Z.inj_succ, Z.pow_succ_r in Hn by lia.
    destruct f as [|f'].
    { change (10 ^ Z.of_nat 0) with 1 in Hn. lia. }
    destruct (IH (n / 10) ((48 + n mod 10) :: acc)) as (k & Hk & Hspan).
    + lia.
    + split; [apply Z.div_pos; lia|apply Z.div_lt_upper_bound; lia].
    + exists (k + 1). split; [lia|]. intros a c. rewrite Hspan.
      cbn [span_digits]. rewrite D.
      rewrite Z.pow_add_r by lia. change (10 ^ 1) with 10.
      pose proof (Z.div_mod n 10 ltac:(lia)) as Hdm.
      replace (a * (10 ^ k * 10)) with (10 * (a * 10 ^ k)) by ring.
      f_equal; lia.
Qed.

Lemma span_str_of_nonneg (n : Z) :
  0 <= n -> exists k, 0 < k /\ span_digits (str_of_nonneg n) 0 0 = (n, k, []).
Proof.
  intros Hn. unfold str_of_nonneg.
  destruct (span_decimal_digits (S (Z.to_nat (Z.log2 n))) n []) as (k & Hk & Hspan).
  - lia.
  - split; [exact Hn|].
    rewrite Nat2Z.inj_succ, Z2Nat.id by apply Z.log2_nonneg.
    destruct (Z.eq_dec n 0) as [->|Hz]; [reflexivity|].
    pose proof (Z.log2_spec n ltac:(lia)) as [_ Hlt].
    pose proof (Z.log2_nonneg n).
    assert (2 ^ Z.succ (Z.log2 n) <= 10 ^ Z.succ (Z.log2 n))
      by (apply Z.pow_le_mono_l; lia).
    lia.
  - exists k. split; [exact Hk|]. rewrite Hspan. cbn [span_digits].
    now rewrite Z.mul_0_l.
Qed.

Section WholeAmounts.
Context {U : UnicodeData}.

Lemma digits_ascii (s : pystr) :
  Forall (fun c => number_char c = true) s -> forallb is_ascii s = true.
Proof.
  intros H. apply forallb_forall. rewrite Forall_forall in H.
  intros c Hc. now destruct (number_char_ascii c (H c Hc)).
Qed.

(** [float()] reads the text of a natural number, with or without a minus
    sign, as the float nearest to the number. *)
Lemma float_of_str_digits (neg : bool) (m : Z) :
  0 <= m ->
  float_of_str ((if neg then [45] else []) ++ str_of_nonneg m)
  = Ok (float_of_decimal neg m 0).
Proof.
  intros Hm.
  remember ((if neg then [45] else []) ++ str_of_nonneg m) as t eqn:Et.
  pose proof (str_of_nonneg_chars m) as Hd.
  pose proof (str_of_nonneg_nonempty m) as Hne.
  assert (Hchars : Forall (fun c => is_digit c = true \/ c = 45) t).
  { rewrite Et. apply Forall_app. split.
    - destruct neg; [|constructor]. constructor; [now right|constructor].
    - eapply Forall_impl; [|exact Hd]. intros c Hc. now left. }
  assert (Hnum : Forall (fun c => number_char c = true) t).
  { eapply Forall_impl; [|exact Hchars]. intros c [Hc| ->]; [|reflexivity].
    unfold number_char. now rewrite Hc. }
  assert (Hns : forall c, In c t -> Py_ISSPACE c = false).
  { rewrite Forall_forall in Hchars. intros c Hc.
    destruct (Hchars c Hc) as [H| ->]; [|reflexivity].
    unfold is_digit in H. unfold Py_ISSPACE. bool_lia. }
  assert (Hends : clean_ends Py_ISSPACE t).
  { split.
    - destruct t as [|a t'].
      + symmetry in Et. apply app_eq_nil in Et. now destruct Et.
      + exists a, t'. split; [reflexivity|]. apply Hns. now left.
    - destruct (exists_last Hne) as (ds & d & Hds).
      exists ((if neg then [45] else []) ++ ds), d.
      split.
      + rewrite Et, Hds. now rewrite app_assoc.
      + apply Hns. rewrite Et, Hds. apply in_or_app. right.
        apply in_or_app. right. now left. }
  unfold float_of_str, to_ascii_number. rewrite (digits_ascii t Hnum).
  pose proof (strip_for_float_clean_ends [] t [] (Forall_nil _) (Forall_nil _) Hends)
    as Hs.
  cbn [app] in Hs. rewrite app_nil_r in Hs. rewrite Hs.
  assert (Hu : existsb (Z.eqb 95) t = false).
  { destruct (existsb (Z.eqb 95) t) eqn:E; [|reflexivity].
    apply existsb_char in E. rewrite Forall_forall in Hchars.
    destruct (Hchars 95 E) as [H|H]; [discriminate H|discriminate H]. }
  unfold without_underscores. rewrite Hu.
  destruct (span_str_of_nonneg m Hm) as (k & Hk & Hspan).
  assert (Hsign : split_sign t = (neg, str_of_nonneg m)).
  { rewrite Et. destruct neg; [reflexivity|]. cbn [app].
    destruct (str_of_nonneg m) as [|d ds] eqn:Es; [congruence|].
    inversion Hd as [|? ? Hd0 _]; subst. unfold split_sign.
    unfold is_digit in Hd0.
    assert (E1 : (d =? 45) = false) by bool_lia.
    assert (E2 : (d =? 43) = false) by bool_lia.
    now rewrite E1, E2. }
  unfold parse_float_literal, parse_decimal. rewrite Hsign, Hspan.
  assert (Hk' : (0 <? k + 0) = true) by (apply Z.ltb_lt; lia).
  rewrite Hk'. cbn [parse_exponent]. reflexivity.
Qed.

End WholeAmounts.

(** *** Integers below [2 ^ 53] as floats *)

Lemma digits2_size (p : positive) : digits2_pos p = Pos.size p.
Proof. induction p as [p IH|p IH|]; cbn; now rewrite ?IH. Qed.

Lemma digits2_iter (p d : positive) :
  digits2_pos (Pos.iter xO p d) = (digits2_pos p + d)%positive.
Proof.
  induction d as [|d IH] using Pos.peano_ind.
  - cbn. lia.
  - rewrite Pos.iter_succ. cbn [digits2_pos]. rewrite IH. lia.
Qed.

Lemma iter_xO_pow (p d : positive) :
  Z.pos (Pos.iter xO p d) = Z.pos p * 2 ^ Z.pos d.
Proof.
  induction d as [|d IH] using Pos.peano_ind.
  - cbn. lia.
  - rewrite Pos.iter_succ, Pos2Z.inj_xO, IH, Pos2Z.inj_succ, Z.pow_succ_r by lia.
    ring.
Qed.

Lemma digits2_bound (p : positive) :
  Z.pos p < 2 ^ 53 -> Z.pos (digits2_pos p) <= 53.
Proof.
  intros H. rewrite digits2_size.
  pose proof (Pos.size_le p) as L.
  destruct (Z_le_gt_dec (Z.pos (Pos.size p)) 53) as [Hle|Hgt]; [exact Hle|].
  exfalso.
  assert (E : Z.pos (2 ^ Pos.size p) <= Z.pos p~0) by exact L.
  rewrite Pos2Z.inj_pow, Pos2Z.inj_xO in E.
  assert (2 ^ 54 <= 2 ^ Z.pos (Pos.size p)) by (apply Z.pow_le_mono_r; lia).
  change (2 ^ 54) with (2 * 2 ^ 53) in *. lia.
Qed.

(** A mantissa of 53 bits with an exponent in range is a float as it is. *)
Lemma binary_round_aux_exact (s : bool) (m : positive) (e : Z) :
  Z.pos (digits2_pos m) = 53 -> -1074 <= e <= 971 ->
  binary_round_aux prec emax s (Z.pos m) e loc_Exact = S754_finite s m e.
Proof.
  intros Hd He.
  assert (F : fexp prec emax (Zdigits2 (Z.pos m) + e) - e = 0).
  { unfold fexp, emin, prec, emax, Zdigits2. rewrite Hd. lia. }
  unfold binary_round_aux, shr_fexp. cbn [shr_record_of_loc].
  rewrite F. cbn [shr shr_m loc_of_shr_record round_nearest_even shr_record_of_loc].
  rewrite F. cbn [shr shr_m].
  assert (L : (e <=? emax - prec) = true) by (unfold emax, prec; bool_lia).
  now rewrite L.
Qed.

(** The float of a natural number below [2 ^ 53]: the number itself, with
    its mantissa shifted to 53 bits. *)
Lemma binary_round_small (s : bool) (p : positive) :
  Z.pos p < 2 ^ 53 ->
  exists m e,
    binary_round prec emax s p 0 = S754_finite s m e
    /\ -52 <= e <= 0 /\ Z.pos m = Z.pos p * 2 ^ (- e).
Proof.
  intros H. pose proof (digits2_bound p H) as Hd.
  unfold binary_round, shl_align.
  assert (F : fexp prec emax (Z.pos (digits2_pos p) + 0) - 0
              = Z.pos (digits2_pos p) - 53).
  { unfold fexp, emin, prec, emax. lia. }
  rewrite F.
  destruct (Z.pos (digits2_pos p) - 53) as [|q|d] eqn:E; [|lia|].
  - exists p, 0. split; [|split; [lia|cbn; lia]].
    replace (fexp prec emax (Z.pos (digits2_pos p) + 0)) with 0
      by (unfold fexp, emin, prec, emax; lia).
    apply binary_round_aux_exact; lia.
  - replace (fexp prec emax (Z.pos (digits2_pos p) + 0)) with (Z.neg d)
      by (unfold fexp, emin, prec, emax; lia).
    exists (Pos.iter xO p d), (Z.neg d). split; [|split; [lia|]].
    + apply binary_round_aux_exact; [|lia].
      rewrite digits2_iter. lia.
    + rewrite iter_xO_pow. reflexivity.
Qed.

Lemma float_trunc_small (s : bool) (p : positive) :
  Z.pos p < 2 ^ 53 ->
  float_trunc (binary_round prec emax s p 0)
  = Ok (if s then Z.neg p else Z.pos p).
Proof.
  intros H. destruct (binary_round_small s p H) as (m & e & -> & He & Hm).
  cbn [float_trunc]. rewrite Hm.
  destruct (0 <=? e) eqn:E.
  - apply Z.leb_le in E. replace e with 0 by lia.
    change (2 ^ (- 0)) with 1. change (2 ^ 0) with 1.
    rewrite !Z.mul_1_r. now destruct s.
  - rewrite Z.div_mul by (apply Z.pow_nonzero; lia). now destruct s.
Qed.

Lemma fsub_same (s : bool) (m : positive) (e : Z) :
  fsub (S754_finite s m e) (S754_finite s m e) = S754_zero false.
Proof.
  assert (G : forall d,
            d = 0 ->
            binary_normalize prec emax
              (cond_Zopp s
                 (Z.pos (fst match d with
                             | Z.neg q => (Pos.iter xO m q, e)
                             | _ => (m, e)
                             end))
               - cond_Zopp s
                   (Z.pos (fst match d with
                               | Z.neg q => (Pos.iter xO m q, e)
                               | _ => (m, e)
                               end)))
              e false
            = S754_zero false).
  { intros d ->. cbn [fst]. now rewrite Z.sub_diag. }
  unfold fsub, SFsub, shl_align. cbv zeta. rewrite Z.min_id.
  apply G, Z.sub_diag.
Qed.

(** The float of an integer: what [float()] reads its text as, and for an
    integer below [2 ^ 53] a float with that integer part and no cents. *)
Lemma float_of_decimal_int (n : Z) :
  float_of_decimal (n <? 0) (Z.abs n) 0 = float_of_Z n.
Proof.
  destruct n as [|p|p]; [reflexivity| |];
    unfold float_of_decimal, float_of_Z, binary_normalize; cbn [Z.abs Z.leb Z.compare];
    change (10 ^ 0) with 1; rewrite Z.mul_1_r; reflexivity.
Qed.

Lemma float_of_Z_small (n : Z) :
  Z.abs n < 2 ^ 53 ->
  float_trunc (float_of_Z n) = Ok n
  /\ parte_decimal_de (float_of_Z n) n = Ok 0.
Proof.
  intros H. destruct n as [|p|p].
  - split; reflexivity.
  - unfold parte_decimal_de.
    change (float_of_Z (Z.pos p)) with (binary_round prec emax false p 0).
    split; [now apply (float_trunc_small false)|].
    destruct (binary_round_small false p H) as (m & e & -> & _).
    rewrite fsub_same. reflexivity.
  - unfold parte_decimal_de.
    change (float_of_Z (Z.neg p)) with (binary_round prec emax true p 0).
    split; [now apply (float_trunc_small true)|].
    destruct (binary_round_small true p H) as (m & e & -> & _).
    rewrite fsub_same. reflexivity.
Qed.

Section WholeAmountsRendered.
Context {U : UnicodeData} {N : Num2Words}.

Lemma str_of_Z_sign (n : Z) :
  str_of_Z n = (if n <? 0 then [45] else []) ++ str_of_nonneg (Z.abs n).
Proof.
  unfold str_of_Z. destruct (n <? 0) eqn:E.
  - apply Z.ltb_lt in E. now rewrite Z.abs_neq by lia.
  - apply Z.ltb_ge in E. now rewrite Z.abs_eq by lia.
Qed.

Lemma float_of_str_int (n : Z) : float_of_str (str_of_Z n) = Ok (float_of_Z n).
Proof.
  rewrite str_of_Z_sign, float_of_str_digits by apply Z.abs_nonneg.
  now rewrite float_of_decimal_int.
Qed.

(** [clean_num] of an [int], and of its text, is the float nearest to it. *)
Lemma clean_num_int (n : Z) :
  clean_num (PyInt n) = Ok (Some (float_of_Z n))
  /\ clean_num (PyStr (str_of_Z n)) = Ok (Some (float_of_Z n)).
Proof.
  destruct (cleaned_number (PyInt n)) as [Hc Hne]. cbn [str] in Hc, Hne.
  assert (Hc' : cleaned (PyStr (str_of_Z n)) = str_of_Z n) by exact Hc.
  split.
  - rewrite clean_num_cases. cbn [is_blank]. rewrite Hc.
    destruct (str_of_Z n) as [|c t] eqn:E; [congruence|].
    rewrite <- E. now rewrite float_of_str_int.
  - rewrite clean_num_text, Hc'.
    destruct (str_of_Z n) as [|c t] eqn:E; [congruence|].
    rewrite <- E. now rewrite float_of_str_int.
Qed.

End WholeAmountsRendered.

(** An [int] below [2 ^ 53] in absolute value, and the text [str()] gives
    it, is read by [clean_num] as the float of that integer; its integer part
    is the integer and its cents are [00].  So the phrase of a whole amount is
    the words [num2words] gives for it, in capitals and with [UNO] turned
    into [UN] by the replacements, followed by [PESOS 00/100 M.N.], and
    [UN PESO 00/100 M.N.] for 1.  From [2 ^ 53] on integers are no longer told
    apart: [2 ^ 53 + 1] gets the phrase of [2 ^ 53]. *)
Theorem numero_a_texto_whole
  (U : UnicodeData) (N : Num2Words) (n : Z) (palabras : pystr) :
  Z.abs n < 2 ^ 53 ->
  num2words n = Ok palabras ->
  clean_num (PyInt n) = Ok (Some (float_of_Z n))
  /\ float_trunc (float_of_Z n) = Ok n
  /\ parte_decimal_de (float_of_Z n) n = Ok 0
  /\ numero_a_texto (PyInt n)
     = Ok (if n =? 1 then lit "UN PESO 00/100 M.N."
           else uno_a_un (upper palabras) ++ lit " PESOS 00/100 M.N.")
  /\ numero_a_texto (PyStr (str_of_Z n)) = numero_a_texto (PyInt n)
  /\ numero_a_texto (PyInt (2 ^ 53 + 1)) = numero_a_texto (PyInt (2 ^ 53)).
Proof.
  intros Hn Hw.
  destruct (clean_num_int n) as [Ci Cs].
  destruct (float_of_Z_small n Hn) as [Ht Hc].
  refine (conj Ci (conj Ht (conj Hc (conj _ (conj _ _))))).
  - unfold numero_a_texto, numero_a_texto_body.
    rewrite Ci. cbn [bind]. rewrite Ht. cbn [bind]. rewrite Hc. cbn [bind].
    rewrite Hw. cbn [bind]. now destruct (n =? 1).
  - apply numero_a_texto_of_clean_num. now rewrite Ci, Cs.
  - apply numero_a_texto_of_clean_num.
    rewrite (proj1 (clean_num_int (2 ^ 53 + 1))), (proj1 (clean_num_int (2 ^ 53))).
    reflexivity.
Qed.

Lemma numero_a_texto_whole_witness :
  @numero_a_texto ucd_part num2words_es (PyInt 21000)
  = Ok (lit "VEINTIUN MIL PESOS 00/100 M.N.")
  /\ @numero_a_texto ucd_part num2words_es (PyStr (lit "21000"))
     = @numero_a_texto ucd_part num2words_es (PyInt 21000).
Proof.
  destruct (numero_a_texto_whole ucd_part num2words_es 21000
              (lit "veintiuno mil") eq_refl eq_refl)
    as (_ & _ & _ & A & B & _).
  exact (conj A B).
Defined.

(** ** Amounts with cents *)

(** *** Rounding to 53 bits *)

Lemma digits2_lower (p : positive) : 2 ^ (Z.pos (digits2_pos p) - 1) <= Z.pos p.
Proof.
  rewrite digits2_size. pose proof (Pos.size_le p) as L.
  assert (E : Z.pos (2 ^ Pos.size p) <= Z.pos p~0) by exact L.
  rewrite Pos2Z.inj_pow in E. change (Z.pos p~0) with (2 * Z.pos p) in E.
  replace (Z.pos (Pos.size p)) with (Z.succ (Z.pos (Pos.size p) - 1)) in E by lia.
  rewrite Z.pow_succ_r in E by lia. lia.
Qed.

Lemma digits2_upper (p : positive) : Z.pos p < 2 ^ Z.pos (digits2_pos p).
Proof.
  rewrite digits2_size. pose proof (Pos.size_gt p) as L.
  assert (E : Z.pos p < Z.pos (2 ^ Pos.size p)) by exact L.
  now rewrite Pos2Z.inj_pow in E.
Qed.

Lemma digits2_unique (p : positive) (d : Z) :
  2 ^ (d - 1) <= Z.pos p < 2 ^ d -> Z.pos (digits2_pos p) = d.
Proof.
  intros [Hl Hu].
  pose proof (digits2_lower p) as L. pose proof (digits2_upper p) as R.
  assert (0 < d).
  { destruct (Z_lt_le_dec 0 d); [assumption|].
    assert (2 ^ d <= 2 ^ 0) by (apply Z.pow_le_mono_r; lia).
    change (2 ^ 0) with 1 in *. lia. }
  destruct (Z_lt_le_dec (Z.pos (digits2_pos p)) d) as [A|A].
  - assert (2 ^ Z.pos (digits2_pos p) <= 2 ^ (d - 1))
      by (apply Z.pow_le_mono_r; lia).
    lia.
  - destruct (Z_lt_le_dec d (Z.pos (digits2_pos p))) as [B|B]; [|lia].
    assert (2 ^ d <= 2 ^ (Z.pos (digits2_pos p) - 1))
      by (apply Z.pow_le_mono_r; lia).
    lia.
Qed.

Lemma shr_1_located (N D : Z) (mrs : shr_record) :
  0 < D -> 0 <= shr_m mrs ->
  located N D (shr_m mrs) (loc_of_shr_record mrs) ->
  located N (2 * D) (shr_m (shr_1 mrs)) (loc_of_shr_record (shr_1 mrs))
  /\ 0 <= shr_m (shr_1 mrs)
  /\ shr_m (shr_1 mrs) = shr_m mrs / 2.
Proof.
  intros HD Hm H. destruct mrs as [m r s]. cbn [shr_m] in *.
  assert (Hdiv : forall q b, 0 <= b < 2 -> (2 * q + b) / 2 = q).
  { intros q b Hb. symmetry. apply (Z.div_unique _ 2 q b); lia. }
  destruct m as [|p|p]; [| |lia].
  - change (0 / 2) with 0.
    destruct r, s; cbn [shr_1 shr_m loc_of_shr_record orb located] in *;
      repeat split; try lia.
  - destruct p as [q|q|].
    + assert (Hdiv1 : Z.pos q~1 / 2 = Z.pos q).
      { change (Z.pos q~1) with (2 * Z.pos q + 1). apply Hdiv. lia. }
      destruct r, s; cbn [shr_1 shr_m loc_of_shr_record orb located] in *;
        rewrite ?Hdiv1; change (Z.pos q~1) with (2 * Z.pos q + 1) in *;
        repeat split; try lia.
    + assert (Hdiv0 : Z.pos q~0 / 2 = Z.pos q).
      { change (Z.pos q~0) with (2 * Z.pos q).
        replace (2 * Z.pos q) with (2 * Z.pos q + 0) by lia. apply Hdiv. lia. }
      destruct r, s; cbn [shr_1 shr_m loc_of_shr_record orb located] in *;
        rewrite ?Hdiv0; change (Z.pos q~0) with (2 * Z.pos q) in *;
        repeat split; try lia.
    + change (1 / 2) with 0.
      destruct r, s; cbn [shr_1 shr_m loc_of_shr_record orb located] in *;
        repeat split; try lia.
Qed.

Lemma iter_shr_located (p : positive) :
  forall (N D : Z) (mrs : shr_record),
  0 < D -> 0 <= shr_m mrs ->
  located N D (shr_m mrs) (loc_of_shr_record mrs) ->
  located N (D * 2 ^ Z.pos p) (shr_m (iter_pos shr_1 p mrs))
    (loc_of_shr_record (iter_pos shr_1 p mrs))
  /\ 0 <= shr_m (iter_pos shr_1 p mrs)
  /\ shr_m (iter_pos shr_1 p mrs) = shr_m mrs / 2 ^ Z.pos p.
Proof.
  induction p as [p IH|p IH|]; intros N D mrs HD Hm H.
  - cbn [iter_pos].
    destruct (shr_1_located N D mrs HD Hm H) as (H1 & M1 & E1).
    destruct (IH N (2 * D) _ ltac:(lia) M1 H1) as (H2 & M2 & E2).
    assert (P : 0 < 2 ^ Z.pos p) by (apply Z.pow_pos_nonneg; lia).
    destruct (IH N (2 * D * 2 ^ Z.pos p) _ ltac:(nia) M2 H2) as (H3 & M3 & E3).
    change (Z.pos p~1) with (2 * Z.pos p + 1).
    replace (2 * Z.pos p + 1) with (1 + Z.pos p + Z.pos p) by lia.
    rewrite !Z.pow_add_r by lia. change (2 ^ 1) with 2.
    replace (D * (2 * 2 ^ Z.pos p * 2 ^ Z.pos p))
      with (2 * D * 2 ^ Z.pos p * 2 ^ Z.pos p) by ring.
    refine (conj H3 (conj M3 _)).
    rewrite E3, E2, E1, !Z.div_div by lia. f_equal. ring.
  - cbn [iter_pos].
    assert (P : 0 < 2 ^ Z.pos p) by (apply Z.pow_pos_nonneg; lia).
    destruct (IH N D _ HD Hm H) as (H2 & M2 & E2).
    destruct (IH N (D * 2 ^ Z.pos p) _ ltac:(nia) M2 H2) as (H3 & M3 & E3).
    change (Z.pos p~0) with (2 * Z.pos p).
    replace (2 * Z.pos p) with (Z.pos p + Z.pos p) by lia.
    rewrite !Z.pow_add_r by lia.
    replace (D * (2 ^ Z.pos p * 2 ^ Z.pos p))
      with (D * 2 ^ Z.pos p * 2 ^ Z.pos p) by ring.
    refine (conj H3 (conj M3 _)).
    rewrite E3, E2, !Z.div_div by lia. reflexivity.
  - cbn [iter_pos]. change (2 ^ 1) with 2.
    destruct (shr_1_located N D mrs HD Hm H) as (H1 & M1 & E1).
    replace (D * 2) with (2 * D) by ring. now repeat split.
Qed.

Lemma round_nearest_even_located (N D m : Z) (l : location) :
  0 < D -> located N D m l ->
  (round_nearest_even m l = m \/ round_nearest_even m l = m + 1)
  /\ 2 * Z.abs (D * round_nearest_even m l - N) <= D.
Proof.
  intros HD H. destruct l as [|[| |]]; cbn [round_nearest_even located] in *.
  - split; [now left|]. lia.
  - destruct (Z.even m); split; try tauto; lia.
  - split; [now left|]. lia.
  - split; [now right|]. lia.
Qed.

Lemma loc_of_record (m : Z) (l : location) :
  loc_of_shr_record (shr_record_of_loc m l) = l
  /\ shr_m (shr_record_of_loc m l) = m.
Proof. destruct l as [|[| |]]; split; reflexivity. Qed.

(** The first shift of [binary_round_aux]: a mantissa of [53 + k] bits
    loses its last [k] bits, which are kept as a location. *)
Lemma shr_fexp_located (q : positive) (e : Z) (l : location) (N D k : Z) :
  0 < D -> located N D (Z.pos q) l ->
  Z.pos (digits2_pos q) = 53 + k -> 0 <= k -> -1074 <= e + k ->
  exists mrs,
    shr_fexp prec emax (Z.pos q) e l = (mrs, e + k)
    /\ located N (D * 2 ^ k) (shr_m mrs) (loc_of_shr_record mrs)
    /\ shr_m mrs = Z.pos q / 2 ^ k.
Proof.
  intros HD H Hd Hk He.
  destruct (loc_of_record (Z.pos q) l) as [Hl Hm].
  assert (F : fexp prec emax (Zdigits2 (Z.pos q) + e) - e = k).
  { unfold fexp, emin, prec, emax, Zdigits2. rewrite Hd. lia. }
  unfold shr_fexp. rewrite F.
  destruct k as [|kp|kp]; [| |lia].
  - exists (shr_record_of_loc (Z.pos q) l). cbn [shr].
    rewrite Z.add_0_r, Hl, Hm. change (2 ^ 0) with 1.
    rewrite Z.mul_1_r, Z.div_1_r. now repeat split.
  - exists (iter_pos shr_1 kp (shr_record_of_loc (Z.pos q) l)). cbn [shr].
    split; [reflexivity|].
    destruct (iter_shr_located kp N D (shr_record_of_loc (Z.pos q) l) HD)
      as (A & _ & B).
    + rewrite Hm. lia.
    + now rewrite Hl, Hm.
    + rewrite Hm in B. now split.
Qed.

(** The second shift of [binary_round_aux]: after rounding the mantissa
    has 53 bits, or is [2 ^ 53]. *)
Lemma shr_fexp_renormalize (s : bool) (r e1 : Z) :
  2 ^ 52 <= r <= 2 ^ 53 -> -1074 <= e1 -> e1 + 1 <= 971 ->
  exists m' e',
    (let '(mrs, e2) := shr_fexp prec emax r e1 loc_Exact in
     match shr_m mrs with
     | 0 => S754_zero s
     | Z.pos m => if e2 <=? emax - prec then S754_finite s m e2 else S754_infinity s
     | Z.neg _ => S754_nan
     end) = S754_finite s m' e'
    /\ Z.pos (digits2_pos m') = 53
    /\ (e' = e1 \/ e' = e1 + 1)
    /\ Z.pos m' * 2 ^ (e' - e1) = r.
Proof.
  intros Hr He Hu.
  destruct r as [|rp|rp]; [cbn in Hr; lia| |lia].
  destruct (Z.eq_dec (Z.pos rp) (2 ^ 53)) as [E|E].
  - assert (Erp : rp = (2 ^ 53)%positive).
    { apply Pos2Z.inj. now rewrite Pos2Z.inj_pow. }
    subst rp. clear E Hr.
    exists (2 ^ 52)%positive, (e1 + 1).
    assert (L : (e1 + 1 <=? emax - prec) = true) by (unfold emax, prec; bool_lia).
    assert (F : fexp prec emax (Zdigits2 (Z.pos (2 ^ 53)) + e1) - e1 = 1).
    { unfold fexp, emin, prec, emax. cbn [Zdigits2].
      change (Z.pos (digits2_pos (2 ^ 53))) with 54. lia. }
    unfold shr_fexp. rewrite F. cbn [shr shr_record_of_loc iter_pos].
    change (shr_m (shr_1 {| shr_m := Z.pos (2 ^ 53); shr_r := false; shr_s := false |}))
      with (Z.pos (2 ^ 52)).
    rewrite L. refine (conj eq_refl (conj eq_refl (conj (or_intror eq_refl) _))).
    replace (e1 + 1 - e1) with 1 by lia. reflexivity.
  - exists rp, e1.
    assert (Hd : Z.pos (digits2_pos rp) = 53) by (apply digits2_unique; lia).
    assert (F : fexp prec emax (Zdigits2 (Z.pos rp) + e1) - e1 = 0).
    { unfold fexp, emin, prec, emax. cbn [Zdigits2]. rewrite Hd. lia. }
    assert (L : (e1 <=? emax - prec) = true) by (unfold emax, prec; bool_lia).
    unfold shr_fexp. rewrite F. cbn [shr shr_record_of_loc shr_m]. rewrite L.
    refine (conj eq_refl (conj Hd (conj (or_introl eq_refl) _))).
    rewrite Z.sub_diag. change (2 ^ 0) with 1. lia.
Qed.

(** [binary_round_aux] on a mantissa of [53 + k] bits, placed by [l]
    within the number [N / D]: a float of 53 bits whose value, in units of
    the exponent given, is within half of [2 ^ k] of [N / D]. *)
Lemma binary_round_aux_located
    (s : bool) (q : positive) (e : Z) (l : location) (N D k : Z) :
  0 < D -> located N D (Z.pos q) l ->
  Z.pos (digits2_pos q) = 53 + k -> 0 <= k ->
  -1074 <= e + k -> e + k + 1 <= 971 ->
  exists m' e',
    binary_round_aux prec emax s (Z.pos q) e l = S754_finite s m' e'
    /\ Z.pos (digits2_pos m') = 53
    /\ (e' = e + k \/ e' = e + k + 1)
    /\ 2 * Z.abs (D * 2 ^ k * (Z.pos m' * 2 ^ (e' - (e + k))) - N) <= D * 2 ^ k.
Proof.
  intros HD H Hd Hk He Hu.
  destruct (shr_fexp_located q e l N D k HD H Hd Hk He) as (mrs & Hs & Hl & Hm).
  assert (P : 0 < 2 ^ k) by (apply Z.pow_pos_nonneg; lia).
  assert (HD' : 0 < D * 2 ^ k) by nia.
  destruct (round_nearest_even_located N (D * 2 ^ k) _ _ HD' Hl) as (Hr & Hb).
  pose proof (digits2_lower q) as Lq. pose proof (digits2_upper q) as Uq.
  rewrite Hd in Lq, Uq.
  replace (53 + k - 1) with (52 + k) in Lq by lia.
  rewrite Z.pow_add_r in Lq, Uq by lia.
  assert (Hm1 : 2 ^ 52 <= shr_m mrs < 2 ^ 53).
  { rewrite Hm. split.
    - apply Z.div_le_lower_bound; lia.
    - apply Z.div_lt_upper_bound; lia. }
  set (r := round_nearest_even (shr_m mrs) (loc_of_shr_record mrs)) in *.
  destruct (shr_fexp_renormalize s r (e + k)) as (m' & e' & Hres & Hd' & He' & Hv);
    [lia|lia|lia|].
  exists m', e'. unfold binary_round_aux. rewrite Hs. fold r.
  refine (conj Hres (conj Hd' (conj He' _))).
  now rewrite Hv.
Qed.

(** *** The float of a decimal with two decimals *)

Lemma SFdiv_core_binary_100 (M : positive) :
  SFdiv_core_binary prec emax (Z.pos M) 0 100 0
  = let e' := Z.min (fexp prec emax (Z.pos (digits2_pos M) + 0 - (7 + 0))) (0 - 0) in
    let s := 0 - 0 - e' in
    let m' :=
      match s with
      | Z.pos _ => Z.shiftl (Z.pos M) s
      | 0 => Z.pos M
      | Z.neg _ => 0
      end in
    let '(q, r) := Z.div_eucl m' 100 in
    (q, e', if r =? 0 then loc_Exact else loc_Inexact (2 * r ?= 100)).
Proof. reflexivity. Qed.

(** The float that [float()] reads a decimal with two decimals as: [M] is
    the number written, in hundredths, [s] the number of bits it is shifted
    by before the division. *)
Lemma float_of_hundredths (M : positive) :
  Z.pos M < 2 ^ 50 ->
  exists mx ex k s,
    float_of_decimal false (Z.pos M) (-2) = S754_finite false mx ex
    /\ Z.pos (digits2_pos mx) = 53
    /\ (k = 0 \/ k = 1)
    /\ 10 <= s <= 59
    /\ (ex = k - s \/ ex = k + 1 - s)
    /\ 2 * Z.abs (100 * 2 ^ k * (Z.pos mx * 2 ^ (ex - (k - s)))
                  - Z.pos M * 2 ^ s)
       <= 100 * 2 ^ k.
Proof.
  intros HM.
  pose proof (digits2_lower M) as Lo. pose proof (digits2_upper M) as Up.
  set (d1 := Z.pos (digits2_pos M)) in *.
  assert (Hd1 : 1 <= d1 <= 50).
  { split; [unfold d1; lia|].
    destruct (Z_le_gt_dec d1 50) as [A|A]; [exact A|].
    assert (2 ^ 50 <= 2 ^ (d1 - 1)) by (apply Z.pow_le_mono_r; lia). lia. }
  set (s := 60 - d1).
  assert (Hs : 10 <= s <= 59) by (unfold s; lia).
  assert (Ps : 0 < 2 ^ s) by (apply Z.pow_pos_nonneg; lia).
  (* the shifted dividend has 60 bits *)
  assert (Hm' : 2 ^ 59 <= Z.pos M * 2 ^ s < 2 ^ 60).
  { replace 59 with (d1 - 1 + s) by (unfold s; lia).
    replace 60 with (d1 + s) by (unfold s; lia).
    rewrite !Z.pow_add_r by lia. nia. }
  change (float_of_decimal false (Z.pos M) (-2))
    with (let '(q, e', l) := SFdiv_core_binary prec emax (Z.pos M) 0 100 0 in
          binary_round_aux prec emax false q e' l).
  rewrite SFdiv_core_binary_100. fold d1.
  assert (E : Z.min (fexp prec emax (d1 + 0 - (7 + 0))) (0 - 0) = - s).
  { unfold fexp, emin, prec, emax, s. lia. }
  cbv zeta. rewrite E.
  replace (0 - 0 - - s) with s by lia.
  destruct s as [|sp|sp] eqn:Es; [lia| |lia]. rewrite <- Es in *.
  rewrite Z.shiftl_mul_pow2 by lia.
  pose proof (Z_div_mod (Z.pos M * 2 ^ s) 100 eq_refl) as DM.
  destruct (Z.div_eucl (Z.pos M * 2 ^ s) 100) as [q r].
  destruct DM as [DM Hr].
  assert (Hq : 2 ^ 52 <= q < 2 ^ 54).
  { change (2 ^ 59) with (128 * 2 ^ 52) in Hm'.
    change (2 ^ 60) with (64 * 2 ^ 54) in Hm'. lia. }
  destruct q as [|qp|qp]; [cbn in Hq; lia| |lia].
  set (l := if r =? 0 then loc_Exact else loc_Inexact (2 * r ?= 100)).
  assert (Hl : located (Z.pos M * 2 ^ s) 100 (Z.pos qp) l).
  { unfold l. destruct (r =? 0) eqn:R0.
    - apply Z.eqb_eq in R0. cbn [located]. lia.
    - apply Z.eqb_neq in R0.
      destruct (2 * r ?= 100) eqn:C; cbn [located].
      + apply Z.compare_eq in C. lia.
      + rewrite Z.compare_lt_iff in C. lia.
      + rewrite Z.compare_gt_iff in C. lia. }
  set (k := if Z.pos qp <? 2 ^ 53 then 0 else 1).
  assert (Hk : (k = 0 \/ k = 1)
               /\ Z.pos (digits2_pos qp) = 53 + k).
  { unfold k. destruct (Z.pos qp <? 2 ^ 53) eqn:C.
    - apply Z.ltb_lt in C. split; [now left|]. apply digits2_unique. lia.
    - apply Z.ltb_ge in C. split; [now right|]. apply digits2_unique.
      change (53 + 1 - 1) with 53. change (53 + 1) with 54. lia. }
  destruct Hk as [Hk Hdq].
  destruct (binary_round_aux_located false qp (- s) l (Z.pos M * 2 ^ s) 100 k)
    as (mx & ex & Hx & Hdx & Hex & Hb); try lia; try assumption.
  exists mx, ex, k, s.
  refine (conj Hx (conj Hdx (conj Hk (conj Hs (conj _ _))))).
  - lia.
  - replace (ex - (k - s)) with (ex - (- s + k)) by lia. exact Hb.
Qed.

(** *** Exact subtraction, and rounding to an integer *)

Lemma shl_align_fst (m : positive) (e ez : Z) :
  ez <= e -> Z.pos (fst (shl_align m e ez)) = Z.pos m * 2 ^ (e - ez).
Proof.
  intros H.
  change (shl_align m e ez)
    with (match ez - e with
          | Z.neg d => (Pos.iter xO m d, ez)
          | _ => (m, e)
          end).
  destruct (ez - e) as [|d|d] eqn:E; [|lia|].
  - replace (e - ez) with 0 by lia. cbn [fst]. change (2 ^ 0) with 1. lia.
  - replace (e - ez) with (Z.pos d) by lia. cbn [fst]. apply iter_xO_pow.
Qed.

(** A natural number of at most 53 bits, in units of [2 ^ e], is a float:
    its mantissa is shifted to 53 bits. *)
Lemma binary_round_exact (s : bool) (p : positive) (e : Z) :
  Z.pos (digits2_pos p) <= 53 -> -1000 <= e <= 900 ->
  exists m e',
    binary_round prec emax s p e = S754_finite s m e'
    /\ Z.pos (digits2_pos m) = 53
    /\ e' <= e /\ e - 52 <= e'
    /\ Z.pos m = Z.pos p * 2 ^ (e - e').
Proof.
  intros Hd He.
  set (d := Z.pos (digits2_pos p)) in *.
  assert (Hd1 : 1 <= d) by (unfold d; lia).
  assert (F : fexp prec emax (d + e) = d + e - 53).
  { unfold fexp, emin, prec, emax. lia. }
  change (binary_round prec emax s p e)
    with (let '(mz, ez) := shl_align p e (fexp prec emax (d + e)) in
          binary_round_aux prec emax s (Z.pos mz) ez loc_Exact).
  rewrite F.
  pose proof (shl_align_fst p e (d + e - 53) ltac:(lia)) as Hf.
  change (shl_align p e (d + e - 53))
    with (match d + e - 53 - e with
          | Z.neg q => (Pos.iter xO p q, d + e - 53)
          | _ => (p, e)
          end) in *.
  destruct (d + e - 53 - e) as [|q|q] eqn:E; [|lia|].
  - cbn [fst] in Hf. exists p, e.
    rewrite binary_round_aux_exact by (fold d; lia).
    refine (conj eq_refl (conj _ (conj _ (conj _ _)))); try (fold d; lia).
    rewrite Z.sub_diag. change (2 ^ 0) with 1. lia.
  - cbn [fst] in Hf. exists (Pos.iter xO p q), (d + e - 53).
    rewrite binary_round_aux_exact.
    + refine (conj eq_refl (conj _ (conj _ (conj _ _))));
        try (rewrite digits2_iter; fold d; lia); lia.
    + rewrite digits2_iter. fold d. lia.
    + lia.
Qed.

Lemma fsub_finite (mx mn : positive) (ex en : Z) :
  fsub (S754_finite false mx ex) (S754_finite false mn en)
  = binary_normalize prec emax
      (Z.pos mx * 2 ^ (ex - Z.min ex en) - Z.pos mn * 2 ^ (en - Z.min ex en))
      (Z.min ex en) false.
Proof.
  rewrite <- (shl_align_fst mx ex (Z.min ex en)) by lia.
  rewrite <- (shl_align_fst mn en (Z.min ex en)) by lia.
  reflexivity.
Qed.

(** [round()] of a float that is nearer than one half to the integer [c] *)
Lemma float_round_near (m : positive) (e c : Z) :
  e < 0 -> 2 * Z.abs (Z.pos m - c * 2 ^ (- e)) < 2 ^ (- e) ->
  float_round (S754_finite false m e) = Ok c.
Proof.
  intros He H. cbn [float_round].
  assert (E : (0 <=? e) = false) by bool_lia. rewrite E.
  set (d := 2 ^ (- e)) in *.
  assert (Pd : 0 < d) by (apply Z.pow_pos_nonneg; lia).
  cbv zeta. f_equal.
  destruct (Z_le_gt_dec (c * d) (Z.pos m)) as [G|G].
  - assert (Q : Z.pos m / d = c).
    { symmetry. apply (Z.div_unique _ d c (Z.pos m - c * d)); lia. }
    assert (R : Z.pos m mod d = Z.pos m - c * d).
    { symmetry. apply (Z.mod_unique _ d c); lia. }
    rewrite Q, R.
    assert (C : (2 * (Z.pos m - c * d) ?= d) = Lt) by (apply Z.compare_lt_iff; lia).
    now rewrite C.
  - assert (Q : Z.pos m / d = c - 1).
    { symmetry. apply (Z.div_unique _ d (c - 1) (Z.pos m - (c - 1) * d)); lia. }
    assert (R : Z.pos m mod d = Z.pos m - (c - 1) * d).
    { symmetry. apply (Z.mod_unique _ d (c - 1)); lia. }
    rewrite Q, R.
    assert (C : (2 * (Z.pos m - (c - 1) * d) ?= d) = Gt)
      by (apply Z.compare_gt_iff; lia).
    rewrite C. lia.
Qed.

(** *** The cents of an amount with two decimals *)

Lemma pow2_lt_inv (a b : Z) : 0 <= b -> 2 ^ a < 2 ^ b -> a < b.
Proof.
  intros Hb H. destruct (Z_lt_le_dec a b) as [L|L]; [exact L|].
  assert (2 ^ b <= 2 ^ a) by (apply Z.pow_le_mono_r; lia). lia.
Qed.

Lemma scale_bound (B A x : Z) :
  1024 <= B -> 0 <= x -> B * x <= 100 * A -> 1024 * x <= 100 * A.
Proof.
  intros HB Hx H.
  assert (1024 * x <= B * x) by (apply Z.mul_le_mono_nonneg_r; lia). lia.
Qed.

(** The rounded product [y] of [d] and 100 (both scaled by [2 ^ 46]) is
    nearer than one half to [c] when [100 * d] is within 100/1024 of [c]. *)
Lemma product_near (d y c A K : Z) :
  2 ^ 52 < A -> K <= 2 ^ 53 ->
  1024 * Z.abs (100 * d - c * A) <= 100 * A ->
  2 * Z.abs (y - d * (100 * 2 ^ 46)) <= K ->
  2 * Z.abs (y - c * (2 ^ 46 * A)) < 2 ^ 46 * A.
Proof.
  change (2 ^ 52) with 4503599627370496.
  change (2 ^ 53) with 9007199254740992.
  change (2 ^ 46) with 70368744177664.
  intros HA HK Q H. lia.
Qed.

(** A positive float [md * 2 ^ ed] below 1 that is, in units of [2 ^ - s],
    the integer [W], with [100 * W] within 100 units of [c]: a hundred
    times the float rounds to [c]. *)
Lemma cents_of_difference (md : positive) (ed c W s : Z) :
  Z.pos (digits2_pos md) = 53 -> 10 <= s <= 59 -> 0 < W < 2 ^ s -> 0 <= c ->
  ed < 0 -> Z.pos md * 2 ^ s = W * 2 ^ (- ed) ->
  Z.abs (100 * W - c * 2 ^ s) <= 100 ->
  float_round (fmul (S754_finite false md ed) (float_of_Z DECIMAL_PRECISION))
  = Ok c.
Proof.
  intros Hd Hs HW Hc Hed Hrel Hb.
  pose proof (digits2_lower md) as Lm. pose proof (digits2_upper md) as Um.
  rewrite Hd in Lm, Um. change (53 - 1) with 52 in Lm.
  set (A := 2 ^ (- ed)) in *. set (B := 2 ^ s) in *.
  assert (PA : 0 < A) by (apply Z.pow_pos_nonneg; lia).
  assert (PB : 1024 <= B).
  { change 1024 with (2 ^ 10). apply Z.pow_le_mono_r; lia. }
  assert (UB : B <= 2 ^ 59) by (apply Z.pow_le_mono_r; lia).
  (* the exponent of the difference *)
  assert (HA : 2 ^ 52 < A) by nia.
  assert (Hed1 : 53 <= - ed).
  { assert (52 < - ed) by (apply pow2_lt_inv; [lia|exact HA]). lia. }
  assert (Hed2 : - ed <= 112).
  { assert (A < 2 ^ 113).
    { change (2 ^ 113) with (2 ^ 53 * 2 ^ 59 * 2). nia. }
    assert (- ed < 113) by (apply pow2_lt_inv; [lia|assumption]). lia. }
  (* the product *)
  change (fmul (S754_finite false md ed) (float_of_Z DECIMAL_PRECISION))
    with (binary_round_aux prec emax false
            (Z.pos (md * 7036874417766400)) (ed + -46) loc_Exact).
  set (P := Z.pos (md * 7036874417766400)).
  assert (HP : P = Z.pos md * (100 * 2 ^ 46)) by (unfold P; now rewrite Pos2Z.inj_mul).
  assert (RP : 2 ^ 104 <= P < 2 ^ 106).
  { rewrite HP. change (2 ^ 104) with (2 ^ 52 * (64 * 2 ^ 46)).
    change (2 ^ 106) with (2 ^ 53 * (128 * 2 ^ 46)). nia. }
  set (k := if P <? 2 ^ 105 then 52 else 53).
  assert (Hk : (k = 52 \/ k = 53)
               /\ Z.pos (digits2_pos (md * 7036874417766400)) = 53 + k).
  { unfold k. fold P. destruct (P <? 2 ^ 105) eqn:C.
    - apply Z.ltb_lt in C. split; [now left|]. apply digits2_unique. fold P.
      change (53 + 52 - 1) with 104. change (53 + 52) with 105. lia.
    - apply Z.ltb_ge in C. split; [now right|]. apply digits2_unique. fold P.
      change (53 + 53 - 1) with 105. change (53 + 53) with 106. lia. }
  destruct Hk as [Hk Hdp].
  destruct (binary_round_aux_located false (md * 7036874417766400) (ed + -46)
              loc_Exact P 1 k)
    as (my & ey & Hy & Hdy & Hey & Hby); try lia.
  { cbn [located]. fold P. lia. }
  unfold P at 1. rewrite Hy. apply float_round_near; [lia|].
  (* the bound, in units of the exponent of the product *)
  set (a := ey - (ed + -46 + k)) in *.
  assert (Ha : a = 0 \/ a = 1) by (unfold a; lia).
  set (E := 2 ^ (- ey)).
  assert (PE : 0 < E) by (apply Z.pow_pos_nonneg; lia).
  set (G := 2 ^ (k + a)).
  assert (PG : 0 < G) by (apply Z.pow_pos_nonneg; lia).
  assert (HGE : G * E = 2 ^ 46 * A).
  { unfold G, E, A. rewrite <- !Z.pow_add_r by lia. f_equal. unfold a. lia. }
  assert (HY : 1 * 2 ^ k * (Z.pos my * 2 ^ a) = G * Z.pos my).
  { unfold G. rewrite Z.pow_add_r by lia. ring. }
  rewrite HY in Hby.
  assert (Hk2 : 2 ^ k <= 2 ^ 53) by (apply Z.pow_le_mono_r; lia).
  (* 100 times the difference is near c *)
  assert (Q : 1024 * Z.abs (100 * Z.pos md - c * A) <= 100 * A).
  { apply (scale_bound B); [lia|apply Z.abs_nonneg|].
    rewrite <- (Z.abs_eq B) at 1 by lia. rewrite <- Z.abs_mul.
    replace (B * (100 * Z.pos md - c * A)) with (A * (100 * W - c * B)).
    2:{ transitivity (100 * (W * A) - c * A * B); [ring|].
        rewrite <- Hrel. ring. }
    rewrite Z.abs_mul, (Z.abs_eq A) by lia.
    rewrite (Z.mul_comm 100 A). apply Z.mul_le_mono_nonneg_l; lia. }
  apply (Z.mul_lt_mono_pos_l G); [exact PG|].
  replace (G * (2 * Z.abs (Z.pos my - c * E)))
    with (2 * Z.abs (G * Z.pos my - c * (G * E))).
  2:{ replace (G * Z.pos my - c * (G * E)) with (G * (Z.pos my - c * E)) by ring.
      rewrite Z.abs_mul, (Z.abs_eq G) by lia. ring. }
  rewrite HGE. rewrite HP in Hby.
  apply (product_near (Z.pos md) (G * Z.pos my) c A (2 ^ k)); try assumption.
  rewrite Z.mul_1_l in Hby. exact Hby.
Qed.

Lemma quotient_bounds (D E F V : Z) :
  0 < E -> 0 < F -> 0 < V < E -> D * E = F * V -> 0 < D < F.
Proof.
  intros HE HF HV H. split.
  - destruct (Z_lt_le_dec 0 D) as [L|L]; [exact L|exfalso].
    pose proof (Z.mul_pos_pos F V HF (proj1 HV)).
    pose proof (Z.mul_nonpos_nonneg D E L (Z.lt_le_incl _ _ HE)). lia.
  - destruct (Z_lt_le_dec D F) as [L|L]; [exact L|exfalso].
    assert (F * E <= D * E) by (apply Z.mul_le_mono_nonneg_r; lia).
    assert (F * V < F * E) by (apply Z.mul_lt_mono_pos_l; lia). lia.
Qed.

Lemma small_multiple (c B : Z) : 0 <= c -> 1024 <= B -> c * B <= 100 -> c = 0.
Proof.
  intros Hc HB H. destruct (Z.eq_dec c 0) as [E|E]; [exact E|exfalso].
  assert (1 * B <= c * B) by (apply Z.mul_le_mono_nonneg_r; lia). lia.
Qed.

(** A float [mx * 2 ^ e] between [n] and [n + 1] whose distance [V] to [n],
    in units of [2 ^ e], is within one hundredth of [c] hundredths: its
    integer part is [n] and its cents are [c]. *)
Lemma cents_of_float (mx : positive) (e n c s t : Z) :
  Z.pos (digits2_pos mx) = 53 -> e < 0 -> 10 <= s <= 59 -> 1 <= t ->
  2 ^ s = t * 2 ^ (- e) -> 0 <= n -> 0 <= c ->
  0 <= Z.pos mx - n * 2 ^ (- e) < 2 ^ (- e) ->
  Z.abs (100 * (t * (Z.pos mx - n * 2 ^ (- e))) - c * 2 ^ s) <= 100 ->
  float_trunc (S754_finite false mx e) = Ok n
  /\ parte_decimal_de (S754_finite false mx e) n = Ok c.
Proof.
  intros Hdx He Hs Ht HB Hn Hc HV HWc.
  pose proof (digits2_upper mx) as Um. rewrite Hdx in Um.
  set (E := 2 ^ (- e)) in *. set (B := 2 ^ s) in *.
  set (V := Z.pos mx - n * E) in *.
  assert (PE : 0 < E) by (apply Z.pow_pos_nonneg; lia).
  assert (PB : 1024 <= B).
  { change 1024 with (2 ^ 10). apply Z.pow_le_mono_r; lia. }
  split.
  { cbn [float_trunc].
    assert (L : (0 <=? e) = false) by bool_lia. rewrite L.
    fold E. f_equal. symmetry. apply Z.div_unique with (r := V); [lia|].
    unfold V. ring. }
  set (W := t * V) in *.
  assert (HW : 0 <= W < B).
  { unfold W. rewrite HB. split.
    - apply Z.mul_nonneg_nonneg; lia.
    - apply Z.mul_lt_mono_pos_l; lia. }
  unfold parte_decimal_de.
  destruct n as [|np|np]; [| |lia].
  - (* nothing to subtract *)
    change (fsub (S754_finite false mx e) (float_of_Z 0))
      with (S754_finite false mx e).
    assert (HV0 : V = Z.pos mx) by (unfold V; ring).
    assert (PW : 0 < W) by (unfold W; apply Z.mul_pos_pos; lia).
    assert (Hrel : Z.pos mx * B = W * E).
    { rewrite HB. unfold W. rewrite HV0. ring. }
    apply (cents_of_difference mx e c W s); try assumption; lia.
  - assert (Hnp : Z.pos np < 2 ^ 53 /\ E < 2 ^ 53).
    { assert (1 * E <= Z.pos np * E) by (apply Z.mul_le_mono_nonneg_r; lia).
      assert (Z.pos np * 1 <= Z.pos np * E) by (apply Z.mul_le_mono_nonneg_l; lia).
      unfold V in HV. lia. }
    destruct Hnp as [Hnp HE53].
    assert (He1 : -52 <= e).
    { assert (- e < 53); [|lia]. apply pow2_lt_inv; [lia|exact HE53]. }
    change (float_of_Z (Z.pos np)) with (binary_round prec emax false np 0).
    destruct (binary_round_small false np Hnp) as (mn & en & -> & Hen & Hmn).
    rewrite fsub_finite.
    set (ez := Z.min e en).
    assert (Hez : -52 <= ez /\ ez <= e /\ ez <= en).
    { unfold ez. pose proof (Z.le_min_l e en). pose proof (Z.le_min_r e en).
      assert (-52 <= Z.min e en) by (apply Z.min_glb; [exact He1|exact (proj1 Hen)]).
      auto. }
    clearbody ez.
    set (F := 2 ^ (- ez)).
    assert (PF : 0 < F <= 2 ^ 52).
    { split; [apply Z.pow_pos_nonneg; lia|apply Z.pow_le_mono_r; lia]. }
    assert (F1 : 2 ^ (e - ez) * E = F).
    { unfold E, F. rewrite <- Z.pow_add_r by lia. f_equal. lia. }
    assert (F2 : 2 ^ (- en) * 2 ^ (en - ez) = F).
    { unfold F. rewrite <- Z.pow_add_r by lia. f_equal. lia. }
    set (Dm := Z.pos mx * 2 ^ (e - ez) - Z.pos mn * 2 ^ (en - ez)).
    assert (HD : Dm * E = F * V).
    { unfold Dm, V. rewrite Hmn.
      replace ((Z.pos mx * 2 ^ (e - ez)
                - Z.pos np * 2 ^ (- en) * 2 ^ (en - ez)) * E)
        with (Z.pos mx * (2 ^ (e - ez) * E)
              - Z.pos np * (2 ^ (- en) * 2 ^ (en - ez)) * E) by ring.
      rewrite F1, F2. ring. }
    clearbody Dm.
    destruct (Z.eq_dec V 0) as [V0|V0].
    + (* no fraction *)
      assert (D0 : Dm = 0).
      { rewrite V0, Z.mul_0_r in HD. apply Z.mul_eq_0 in HD.
        destruct HD; [assumption|lia]. }
      rewrite D0. cbn [binary_normalize].
      assert (c = 0).
      { apply (small_multiple c B Hc PB).
        unfold W in HWc. rewrite V0, Z.mul_0_r in HWc. lia. }
      subst c. reflexivity.
    + assert (PD : 0 < Dm < F) by (apply (quotient_bounds Dm E F V); lia).
      destruct Dm as [|dp|dp]; [lia| |lia].
      cbn [binary_normalize].
      assert (Hdd : Z.pos (digits2_pos dp) <= 53).
      { apply digits2_bound. change (2 ^ 53) with (2 * 2 ^ 52). lia. }
      destruct (binary_round_exact false dp ez Hdd)
        as (md & ed & -> & Hdmd & Hed1 & Hed2 & Hmd); [lia|].
      assert (PW : 0 < W) by (unfold W; apply Z.mul_pos_pos; lia).
      assert (Hrel : Z.pos md * B = W * 2 ^ (- ed)).
      { rewrite Hmd, HB. unfold W.
        replace (2 ^ (- ed)) with (F * 2 ^ (ez - ed)).
        2:{ unfold F. rewrite <- Z.pow_add_r by lia. f_equal. lia. }
        replace (Z.pos dp * 2 ^ (ez - ed) * (t * E))
          with (Z.pos dp * E * (t * 2 ^ (ez - ed))) by ring.
        rewrite HD. ring. }
      apply (cents_of_difference md ed c W s); try assumption; lia.
Qed.

(** The float of [n] units and [c] hundredths: its integer part is [n] and
    its cents are [c]. *)
Lemma cents_of_hundredths (n c : Z) :
  0 <= n -> 0 <= c <= 99 -> 100 * n + c < 2 ^ 50 ->
  float_trunc (float_of_decimal false (100 * n + c) (-2)) = Ok n
  /\ parte_decimal_de (float_of_decimal false (100 * n + c) (-2)) n = Ok c.
Proof.
  intros Hn Hc HM.
  destruct (100 * n + c) as [|M|M] eqn:EM; [| |lia].
  { assert (n = 0) by lia. assert (c = 0) by lia. subst. split; reflexivity. }
  destruct (float_of_hundredths M HM)
    as (mx & ex & k & s & Hx & Hdx & Hk & Hs & Hex & Hb).
  rewrite Hx. rewrite <- EM in Hb. clear Hx EM HM.
  assert (Ha : exists a, (a = 0 \/ a = 1) /\ ex = k + a - s).
  { destruct Hex as [->| ->]; [exists 0|exists 1]; split; auto; lia. }
  destruct Ha as (a & Ha & ->). clear Hex.
  replace (k + a - s - (k - s)) with a in Hb by lia.
  set (e := k + a - s) in *.
  assert (He : e <= -8) by (unfold e; lia).
  set (E := 2 ^ (- e)).
  set (B := 2 ^ s) in *.
  set (t := 2 ^ k * 2 ^ a).
  assert (HB : B = t * E).
  { unfold B, t, E, e. rewrite <- !Z.pow_add_r by lia. f_equal. lia. }
  assert (PE : 256 <= E).
  { change 256 with (2 ^ 8). apply Z.pow_le_mono_r; lia. }
  set (V := Z.pos mx - n * E).
  assert (Hdev : 2 * Z.abs (100 * (t * V) - c * B) <= 100 * 2 ^ k).
  { replace (100 * (t * V) - c * B)
      with (100 * 2 ^ k * (Z.pos mx * 2 ^ a) - (100 * n + c) * B)
      by (rewrite HB; unfold V, t; ring).
    exact Hb. }
  assert (cE : 0 <= c * E <= 99 * E).
  { split; [apply Z.mul_nonneg_nonneg; lia|apply Z.mul_le_mono_nonneg_r; lia]. }
  assert (HV : 0 <= V < E).
  { clear Hb. rewrite HB in Hdev. unfold V in *. clear HB. unfold t in *.
    destruct Hk as [->| ->], Ha as [->| ->];
      change (2 ^ 0) with 1 in *; change (2 ^ 1) with 2 in *; lia. }
  assert (Ht : 1 <= t /\ 2 ^ k <= 2).
  { unfold t. destruct Hk as [->| ->], Ha as [->| ->];
      change (2 ^ 0) with 1; change (2 ^ 1) with 2; lia. }
  assert (HWc : Z.abs (100 * (t * V) - c * B) <= 100) by lia.
  exact (cents_of_float mx e n c s t Hdx ltac:(lia) Hs (proj1 Ht) HB Hn
           (proj1 Hc) HV HWc).
Qed.

(** *** Amounts written with two decimals *)

Lemma decimal_digits_app (fuel : nat) (n : Z) (a b : pystr) :
  decimal_digits fuel n (a ++ b) = decimal_digits fuel n a ++ b.
Proof.
  revert n a. induction fuel as [|f IH]; intros n a; [reflexivity|].
  cbn [decimal_digits]. destruct (n <? 10); [reflexivity|].
  change ((48 + n mod 10) :: a ++ b) with (((48 + n mod 10) :: a) ++ b).
  apply IH.
Qed.

(** The digits of a natural number, followed by a text that begins with no
    digit: the run of digits read is the number. *)
Lemma span_str_of_nonneg_app (n : Z) (rest : pystr) :
  0 <= n ->
  exists k, 0 < k
    /\ span_digits (str_of_nonneg n ++ rest) 0 0 = span_digits rest n k.
Proof.
  intros Hn. unfold str_of_nonneg.
  rewrite <- decimal_digits_app. cbn [app].
  destruct (span_decimal_digits (S (Z.to_nat (Z.log2 n))) n rest)
    as (k & Hk & Hspan).
  - lia.
  - split; [exact Hn|].
    rewrite Nat2Z.inj_succ, Z2Nat.id by apply Z.log2_nonneg.
    destruct (Z.eq_dec n 0) as [->|Hz]; [reflexivity|].
    pose proof (Z.log2_spec n ltac:(lia)) as [_ Hlt].
    pose proof (Z.log2_nonneg n).
    assert (2 ^ Z.succ (Z.log2 n) <= 10 ^ Z.succ (Z.log2 n))
      by (apply Z.pow_le_mono_l; lia).
    lia.
  - exists k. split; [exact Hk|]. rewrite Hspan. now rewrite Z.mul_0_l.
Qed.

(** [format(c, "02d")] for cents: the two digits of [c]. *)
Lemma format_02d_cents (c : Z) :
  0 <= c <= 99 -> format_02d c = [48 + c / 10; 48 + c mod 10].
Proof.
  intros Hc.
  assert (A : forallb
                (fun i => pystr_eqb (format_02d (Z.of_nat i))
                            [48 + Z.of_nat i / 10; 48 + Z.of_nat i mod 10])
                (seq 0 100) = true) by (vm_compute; reflexivity).
  rewrite forallb_forall in A.
  specialize (A (Z.to_nat c)). rewrite Z2Nat.id in A by lia.
  apply pystr_eqb_eq, A, in_seq. lia.
Qed.

Section TwoDecimals.
Context {U : UnicodeData}.

(** [float()] reads a natural number, a point and two digits as the float
    nearest to that many hundredths. *)
Lemma float_of_str_two_decimals (n c : Z) :
  0 <= n -> 0 <= c <= 99 ->
  float_of_str (str_of_nonneg n ++ 46 :: format_02d c)
  = Ok (float_of_decimal false (100 * n + c) (-2)).
Proof.
  intros Hn Hc. rewrite (format_02d_cents c Hc).
  pose proof (Z.div_mod c 10 ltac:(lia)) as Hdm.
  pose proof (Z.mod_pos_bound c 10 eq_refl) as Hr.
  assert (Hq : 0 <= c / 10 <= 9).
  { split; [apply Z.div_pos; lia|].
    assert (c / 10 < 10) by (apply Z.div_lt_upper_bound; lia). lia. }
  set (d1 := 48 + c / 10) in *. set (d2 := 48 + c mod 10) in *.
  assert (D1 : is_digit d1 = true) by (unfold is_digit, d1; bool_lia).
  assert (D2 : is_digit d2 = true) by (unfold is_digit, d2; bool_lia).
  remember (str_of_nonneg n ++ [46; d1; d2]) as t eqn:Et.
  pose proof (str_of_nonneg_chars n) as Hd.
  pose proof (str_of_nonneg_nonempty n) as Hne.
  assert (Hchars : Forall (fun c => is_digit c = true \/ c = 46) t).
  { rewrite Et. apply Forall_app. split.
    - eapply Forall_impl; [|exact Hd]. intros x Hx. now left.
    - constructor; [now right|]. constructor; [now left|].
      constructor; [now left|constructor]. }
  assert (Hnum : Forall (fun c => number_char c = true) t).
  { eapply Forall_impl; [|exact Hchars]. intros x [Hx| ->]; [|reflexivity].
    unfold number_char. now rewrite Hx. }
  assert (Hns : forall x, In x t -> Py_ISSPACE x = false).
  { rewrite Forall_forall in Hchars. intros x Hx.
    destruct (Hchars x Hx) as [H| ->]; [|reflexivity].
    unfold is_digit in H. unfold Py_ISSPACE. bool_lia. }
  assert (Hends : clean_ends Py_ISSPACE t).
  { split.
    - destruct t as [|a t'].
      + symmetry in Et. apply app_eq_nil in Et. now destruct Et.
      + exists a, t'. split; [reflexivity|]. apply Hns. now left.
    - exists (str_of_nonneg n ++ [46; d1]), d2. split.
      + rewrite Et, <- app_assoc. reflexivity.
      + apply Hns. rewrite Et. apply in_or_app. right. cbn. auto. }
  unfold float_of_str, to_ascii_number. rewrite (digits_ascii t Hnum).
  pose proof (strip_for_float_clean_ends [] t [] (Forall_nil _) (Forall_nil _) Hends)
    as Hs.
  cbn [app] in Hs. rewrite app_nil_r in Hs. rewrite Hs.
  assert (Hu : existsb (Z.eqb 95) t = false).
  { destruct (existsb (Z.eqb 95) t) eqn:E; [|reflexivity].
    apply existsb_char in E. rewrite Forall_forall in Hchars.
    destruct (Hchars 95 E) as [H|H]; [discriminate H|discriminate H]. }
  unfold without_underscores. rewrite Hu.
  destruct (span_str_of_nonneg_app n [46; d1; d2] Hn) as (k & Hk & Hspan).
  rewrite <- Et in Hspan.
  assert (Hsign : split_sign t = (false, t)).
  { destruct t as [|d ds]; [reflexivity|].
    assert (Hd0 : is_digit d = true \/ d = 46) by (now inversion Hchars).
    unfold split_sign. unfold is_digit in Hd0.
    assert (E1 : (d =? 45) = false) by bool_lia.
    assert (E2 : (d =? 43) = false) by bool_lia.
    now rewrite E1, E2. }
  unfold parse_float_literal, parse_decimal. rewrite Hsign, Hspan.
  cbn [span_digits]. change (is_digit 46) with false. cbv iota.
  cbn [span_digits]. rewrite D1, D2.
  assert (Hk' : (0 <? k + (0 + 1 + 1)) = true) by (apply Z.ltb_lt; lia).
  rewrite Hk'. cbn [parse_exponent].
  replace (10 * (10 * n + (d1 - 48)) + (d2 - 48)) with (100 * n + c)
    by (unfold d1, d2; lia).
  reflexivity.
Qed.

End TwoDecimals.

Section TwoDecimalsRendered.
Context {U : UnicodeData} {N : Num2Words}.

Lemma clean_num_two_decimals (n c : Z) :
  0 <= n -> 0 <= c <= 99 ->
  clean_num (PyStr (str_of_Z n ++ 46 :: format_02d c))
  = Ok (Some (float_of_decimal false (100 * n + c) (-2))).
Proof.
  intros Hn Hc.
  assert (Es : str_of_Z n = str_of_nonneg n).
  { unfold str_of_Z. assert (E : (n <? 0) = false) by bool_lia. now rewrite E. }
  rewrite Es.
  pose proof (float_of_str_two_decimals n c Hn Hc) as Hf.
  set (t := str_of_nonneg n ++ 46 :: format_02d c) in *.
  assert (Hnum : Forall (fun x => number_char x = true) (str (PyStr t))).
  { cbn [str]. unfold t. apply Forall_app. split.
    - apply digit_number_char, str_of_nonneg_chars.
    - constructor; [reflexivity|]. rewrite (format_02d_cents c Hc).
      pose proof (Z.mod_pos_bound c 10 eq_refl).
      assert (0 <= c / 10 <= 9).
      { split; [apply Z.div_pos; lia|].
        assert (c / 10 < 10) by (apply Z.div_lt_upper_bound; lia). lia. }
      apply digit_number_char.
      constructor; [unfold is_digit; bool_lia|].
      constructor; [unfold is_digit; bool_lia|constructor]. }
  pose proof (cleaned_number_chars (PyStr t) Hnum) as Hcl. cbn [str] in Hcl.
  rewrite clean_num_text, Hcl, Hf.
  destruct t as [|x r] eqn:E; [|reflexivity].
  unfold t in E. apply app_eq_nil in E. destruct E; discriminate.
Qed.

End TwoDecimalsRendered.

(** An amount written as a natural number, a point and two digits, and
    below [2 ^ 50] hundredths: the phrase has the words of the number written
    before the point and, as its cents, the two digits written after it.
    The float read from the text is the one nearest to that many hundredths;
    its integer part is the number before the point, and the rounding of a
    hundred times the rest gives back the two digits, never one cent more or
    less and never [100]. *)
Theorem numero_a_texto_two_decimals
  (U : UnicodeData) (N : Num2Words) (n c : Z) (palabras : pystr) :
  0 <= n -> 0 <= c <= 99 -> 100 * n + c < 2 ^ 50 ->
  num2words n = Ok palabras ->
  let x := float_of_decimal false (100 * n + c) (-2) in
  clean_num (PyStr (str_of_Z n ++ 46 :: format_02d c)) = Ok (Some x)
  /\ float_trunc x = Ok n
  /\ parte_decimal_de x n = Ok c
  /\ numero_a_texto (PyStr (str_of_Z n ++ 46 :: format_02d c))
     = Ok (if n =? 1
           then lit "UN PESO " ++ format_02d c ++ lit "/100 M.N."
           else uno_a_un (upper palabras) ++ lit " PESOS "
                ++ format_02d c ++ lit "/100 M.N.").
Proof.
  intros Hn Hc HM Hw x.
  pose proof (clean_num_two_decimals n c Hn Hc) as Cs. fold x in Cs.
  destruct (cents_of_hundredths n c Hn Hc HM) as [Ht Hd]. fold x in Ht, Hd.
  refine (conj Cs (conj Ht (conj Hd _))).
  unfold numero_a_texto, numero_a_texto_body.
  rewrite Cs. cbn [bind]. rewrite Ht. cbn [bind]. rewrite Hd. cbn [bind].
  rewrite Hw. cbn [bind]. now destruct (n =? 1).
Qed.

Lemma numero_a_texto_two_decimals_witness :
  @numero_a_texto ucd_part num2words_es (PyStr (lit "1234.56"))
  = Ok (lit "MIL DOSCIENTOS TREINTA Y CUATRO PESOS 56/100 M.N.").
Proof.
  exact (proj2 (proj2 (proj2
    (numero_a_texto_two_decimals ucd_part num2words_es 1234 56
       (lit "mil doscientos treinta y cuatro")
       ltac:(lia) ltac:(lia) ltac:(vm_compute; reflexivity) eq_refl)))).
Defined.

(** ** Values that are no amount *)

(** A text of digits with at most one point among them: a run of digits,
    and after the point, if there is one, another run of digits. *)
Lemma decimal_body_split (body : pystr) :
  forallb (fun c => is_digit c || (c =? 46)) body = true ->
  (length (filter (Z.eqb 46) body) <= 1)%nat ->
  exists ds1 ds2,
    Forall (fun c => is_digit c = true) ds1
    /\ Forall (fun c => is_digit c = true) ds2
    /\ (body = ds1 /\ ds2 = [] \/ body = ds1 ++ 46 :: ds2).
Proof.
  induction body as [|c r IH]; intros Hall Hcount.
  - exists [], []. repeat split; auto.
  - cbn [forallb] in Hall. apply andb_true_iff in Hall as [Hc Hr].
    cbn [filter] in Hcount. destruct (is_digit c) eqn:D.
    + assert (E : (46 =? c) = false) by (unfold is_digit in D; bool_lia).
      rewrite E in Hcount.
      destruct (IH Hr Hcount) as (ds1 & ds2 & H1 & H2 & H).
      exists (c :: ds1), ds2. repeat split; auto.
      destruct H as [[-> ->]| ->]; [now left|now right].
    + cbn [orb] in Hc. apply Z.eqb_eq in Hc. subst c.
      cbn [Z.eqb Pos.eqb length] in Hcount.
      assert (Hnone : filter (Z.eqb 46) r = []).
      { destruct (filter (Z.eqb 46) r); [reflexivity|cbn in Hcount; lia]. }
      exists [], r. repeat split; auto.
      apply Forall_forall. intros d Hd.
      rewrite forallb_forall in Hr. specialize (Hr d Hd).
      destruct (is_digit d) eqn:Dd; [reflexivity|]. cbn [orb] in Hr.
      assert (In d (filter (Z.eqb 46) r)).
      { apply filter_In. split; [exact Hd|]. now rewrite Z.eqb_sym. }
      rewrite Hnone in H. destruct H.
Qed.

Lemma span_digits_run (ds rest : pystr) :
  Forall (fun c => is_digit c = true) ds ->
  forall a c, exists v,
    span_digits (ds ++ rest) a c = span_digits rest v (c + Z.of_nat (length ds)).
Proof.
  induction 1 as [|d ds Hd _ IH]; intros a c.
  - exists a. cbn [app length Z.of_nat]. now rewrite Z.add_0_r.
  - cbn [app span_digits]. rewrite Hd.
    destruct (IH (10 * a + (d - 48)) (c + 1)) as (v & Hv).
    exists v. rewrite Hv. f_equal. cbn [length]. lia.
Qed.

Lemma clean_ends_of_chars (sp : codepoint -> bool) (t : pystr) :
  t <> [] -> (forall c, In c t -> sp c = false) -> clean_ends sp t.
Proof.
  intros Hne H. split.
  - destruct t as [|a t']; [congruence|]. exists a, t'. split; [reflexivity|].
    apply H. now left.
  - destruct (exists_last Hne) as (t' & d & ->). exists t', d.
    split; [reflexivity|]. apply H. apply in_or_app. right. now left.
Qed.

Section DecimalNumbers.
Context {U : UnicodeData}.

(** [float()] reads every decimal number. *)
Lemma float_of_str_decimal (t : pystr) :
  decimal_number t = true -> exists x, float_of_str t = Ok x.
Proof.
  unfold decimal_number. intros H.
  apply andb_true_iff in H as [H Hex]. apply andb_true_iff in H as [Hall Hcount].
  apply Nat.leb_le in Hcount.
  destruct (split_sign t) as [neg body] eqn:Hsign. cbn [snd] in *.
  destruct (decimal_body_split body Hall Hcount) as (ds1 & ds2 & H1 & H2 & Hb).
  assert (Hbody : Forall (fun c => number_char c = true) body).
  { apply Forall_forall. intros c Hc. rewrite forallb_forall in Hall.
    specialize (Hall c Hc). unfold number_char.
    destruct (is_digit c); [reflexivity|]. cbn [orb] in *.
    now rewrite Hall, !orb_true_r. }
  assert (Hnum : Forall (fun c => number_char c = true) t).
  { destruct (split_sign_cases _ _ _ Hsign) as [->|(c & Hc & ->)]; [exact Hbody|].
    constructor; [|exact Hbody]. destruct Hc as [->| ->]; reflexivity. }
  assert (Hne : t <> []).
  { intros ->. cbn in Hsign. injection Hsign as _ <-. discriminate Hex. }
  assert (Hns : forall c, In c t -> Py_ISSPACE c = false).
  { rewrite Forall_forall in Hnum. intros c Hc. specialize (Hnum c Hc).
    unfold number_char, is_digit in Hnum. unfold Py_ISSPACE. bool_lia. }
  unfold float_of_str, to_ascii_number. rewrite (digits_ascii t Hnum).
  pose proof (strip_for_float_clean_ends [] t [] (Forall_nil _) (Forall_nil _)
                (clean_ends_of_chars _ t Hne Hns)) as Hs.
  cbn [app] in Hs. rewrite app_nil_r in Hs. rewrite Hs.
  assert (Hu : existsb (Z.eqb 95) t = false).
  { destruct (existsb (Z.eqb 95) t) eqn:E; [|reflexivity].
    apply existsb_char in E. rewrite Forall_forall in Hnum.
    specialize (Hnum 95 E). discriminate Hnum. }
  unfold without_underscores. rewrite Hu.
  unfold parse_float_literal, parse_decimal. rewrite Hsign.
  assert (Hdigits : (0 < length ds1 + length ds2)%nat).
  { apply existsb_exists in Hex as (d & Hd & Hdd).
    destruct Hb as [[-> ->]| ->].
    - destruct ds1; [destruct Hd|cbn; lia].
    - apply in_app_or in Hd as [Hd|[<-|Hd]].
      + destruct ds1; [destruct Hd|cbn; lia].
      + discriminate Hdd.
      + destruct ds2; [destruct Hd|cbn; lia]. }
  destruct Hb as [[-> ->]| ->].
  - destruct (span_digits_run ds1 [] H1 0 0) as (v & Hv).
    rewrite app_nil_r in Hv. rewrite Hv. cbn [span_digits].
    assert (Hk : (0 <? 0 + Z.of_nat (length ds1) + 0) = true).
    { apply Z.ltb_lt. cbn [length] in Hdigits. lia. }
    rewrite Hk. cbn [parse_exponent]. eauto.
  - destruct (span_digits_run ds1 (46 :: ds2) H1 0 0) as (v & Hv).
    rewrite Hv. cbn [span_digits]. change (is_digit 46) with false. cbv iota.
    destruct (span_digits_run ds2 [] H2 v 0) as (w & Hw).
    rewrite app_nil_r in Hw. rewrite Hw. cbn [span_digits].
    assert (Hk : (0 <? 0 + Z.of_nat (length ds1) + (0 + Z.of_nat (length ds2)))
                 = true).
    { apply Z.ltb_lt. lia. }
    rewrite Hk. cbn [parse_exponent]. eauto.
Qed.

End DecimalNumbers.

(** C6, as stated, fails: the texts [inf] and [nan] are no decimal numbers,
    and are not empty once cleaned, yet [clean_num] raises nothing for them:
    [float()] reads them, as the infinite float and as the float that is no
    number. *)
Lemma clean_num_reads_inf :
  (decimal_number (cleaned (PyStr (lit "inf"))) = false
   /\ cleaned (PyStr (lit "inf")) = lit "inf"
   /\ @clean_num ucd_part (PyStr (lit "inf")) = Ok (Some (S754_infinity false))
   /\ forall e, @clean_num ucd_part (PyStr (lit "inf")) <> Raise e)
  /\ (decimal_number (cleaned (PyStr (lit "nan"))) = false
      /\ cleaned (PyStr (lit "nan")) = lit "nan"
      /\ @clean_num ucd_part (PyStr (lit "nan")) = Ok (Some S754_nan)
      /\ forall e, @clean_num ucd_part (PyStr (lit "nan")) <> Raise e).
Proof.
  split; refine (conj _ (conj _ (conj _ _))); try (vm_compute; reflexivity);
    intros e; vm_compute; discriminate.
Qed.

(** C6, amended.  [clean_num] returns [None] exactly when the input is
    [None], the empty string, a string of white space only, or a string that
    is empty once the symbols are stripped and the white space around it
    trimmed.  When the stripped text of an input other than [None] is not
    empty and [float()] does not read it, [clean_num] raises a [ValueError]
    that carries the text of the original input and the failure of
    [float()].  For a value within the limit of [str()]: a stripped text that
    is a decimal number is read, and [clean_num] returns its float; and the
    [ValueError] above is the only exception [clean_num] raises, which it
    raises only for a stripped text that is not empty, is no decimal number
    and is not read by [float()]. *)
Theorem clean_num_none_or_error (U : UnicodeData) (value : PyValue) :
  (clean_num value = Ok None <->
     value = PyNone
     \/ exists s,
          value = PyStr s
          /\ (s = [] \/ forallb Py_UNICODE_ISSPACE s = true
              \/ cleaned (PyStr s) = []))
  /\ (value <> PyNone -> cleaned value <> [] ->
      (forall x, float_of_str (cleaned value) <> Ok x) ->
      clean_num value
      = Raise (ValueError
                 (NoSePudoConvertir (str value)
                    (CouldNotConvertStringToFloat (cleaned value)))))
  /\ (within_str_limit value ->
      (decimal_number (cleaned value) = true ->
       exists x, float_of_str (cleaned value) = Ok x
                 /\ clean_num value = Ok (Some x))
      /\ forall e, clean_num value = Raise e ->
           e = ValueError
                 (NoSePudoConvertir (str value)
                    (CouldNotConvertStringToFloat (cleaned value)))
           /\ cleaned value <> []
           /\ decimal_number (cleaned value) = false
           /\ forall x, float_of_str (cleaned value) <> Ok x).
Proof.
  assert (Hdec : decimal_number (cleaned value) = true ->
                 exists x, float_of_str (cleaned value) = Ok x
                           /\ clean_num value = Ok (Some x)).
  { intros Hd. destruct (float_of_str_decimal _ Hd) as (x & Hx).
    exists x. split; [exact Hx|]. rewrite clean_num_cases.
    assert (Hb : is_blank value = false).
    { destruct value as [|s| |]; try reflexivity.
      - vm_compute in Hd. discriminate.
      - destruct (is_blank (PyStr s)) eqn:B; [|reflexivity].
        apply is_blank_PyStr in B as [->| ->]; vm_compute in Hd; discriminate. }
    rewrite Hb. destruct (cleaned value) as [|c r]; [discriminate Hd|].
    now rewrite Hx. }
  rewrite clean_num_cases in *. refine (conj _ (conj _ _)).
  - split.
    + intros H. destruct value as [|s|n|x].
      * now left.
      * right. exists s. split; [reflexivity|].
        destruct (is_blank (PyStr s)) eqn:B.
        -- apply is_blank_PyStr in B as [->| ->]; [now left|right; now left].
        -- right. right. destruct (cleaned (PyStr s)) as [|c r]; [reflexivity|].
           destruct (float_of_str (c :: r)); discriminate.
      * exfalso. destruct (cleaned_number (PyInt n)) as [Hc Hs].
        cbn [is_blank] in H. rewrite Hc in H.
        destruct (str (PyInt n)) as [|c r]; [congruence|].
        destruct (float_of_str (c :: r)); discriminate.
      * exfalso. destruct (cleaned_number (PyFloat x)) as [Hc Hs].
        cbn [is_blank] in H. rewrite Hc in H.
        destruct (str (PyFloat x)) as [|c r]; [congruence|].
        destruct (float_of_str (c :: r)); discriminate.
    + intros [->|(s & -> & [->|[H|H]])]; try reflexivity.
      * rewrite (cleaned_all_spaces s H). now destruct (is_blank (PyStr s)).
      * rewrite H. now destruct (is_blank (PyStr s)).
  - intros Hv Hc Hx.
    assert (Hb : is_blank value = false).
    { destruct value as [|s| |]; try reflexivity; [congruence|].
      destruct (is_blank (PyStr s)) eqn:B; [|reflexivity].
      exfalso. apply Hc. apply is_blank_PyStr in B as [->| ->]; reflexivity. }
    rewrite Hb. destruct (cleaned value) as [|c r]; [congruence|].
    destruct (float_of_str (c :: r)) as [x|e] eqn:F; [|reflexivity].
    exfalso. now apply (Hx x).
  - intros _. split; [exact Hdec|].
    intros e H.
    assert (Hnd : decimal_number (cleaned value) = false).
    { destruct (decimal_number (cleaned value)) eqn:D; [|reflexivity].
      destruct (Hdec eq_refl) as (x & _ & Hx). rewrite Hx in H. discriminate. }
    destruct (is_blank value); [discriminate|].
    destruct (cleaned value) as [|c r]; [discriminate|].
    destruct (float_of_str (c :: r)) as [x|e'] eqn:F; [discriminate|].
    refine (conj _ (conj _ (conj Hnd _))); [congruence|discriminate|].
    intros x. discriminate.
Qed.

(** The text [12abc] is not read by [float()]: the error carries it; the
    text [ $ ,] is empty once cleaned: no value; the text [$1,234.56] is a
    decimal number once cleaned, and so is the text of the [int] 15. *)
Lemma clean_num_none_or_error_witness :
  @clean_num ucd_part (PyStr (lit "12abc"))
  = Raise (ValueError
             (NoSePudoConvertir (lit "12abc")
                (CouldNotConvertStringToFloat (lit "12abc"))))
  /\ @clean_num ucd_part (PyStr (lit " $ ,")) = Ok None
  /\ (exists x,
        @float_of_str ucd_part (cleaned (PyStr (lit "$1,234.56"))) = Ok x
        /\ @clean_num ucd_part (PyStr (lit "$1,234.56")) = Ok (Some x))
  /\ (exists x,
        @float_of_str ucd_part (cleaned (PyInt 15)) = Ok x
        /\ @clean_num ucd_part (PyInt 15) = Ok (Some x)).
Proof.
  refine (conj _ (conj _ (conj _ _))).
  - apply (proj1 (proj2 (clean_num_none_or_error ucd_part (PyStr (lit "12abc"))))).
    + discriminate.
    + vm_compute. discriminate.
    + intros x. vm_compute. discriminate.
  - apply (proj2 (proj1 (clean_num_none_or_error ucd_part (PyStr (lit " $ ,"))))).
    right. exists (lit " $ ,"). split; [reflexivity|].
    right. right. vm_compute. reflexivity.
  - apply (proj1 (proj2 (proj2
             (clean_num_none_or_error ucd_part (PyStr (lit "$1,234.56")))) I)).
    vm_compute. reflexivity.
  - apply (proj1 (proj2 (proj2 (clean_num_none_or_error ucd_part (PyInt 15)))
                    ltac:(vm_compute; reflexivity))).
    vm_compute. reflexivity.
Defined.
